(** * a-movies: the memory subsystem of the movie assistant

    A shallow embedding of the JavaScript sources

    - [src/mcp-server.mjs]      ([naiveVectorStoreSearch], [memory_write],
                                 [memory_search], [trakt_request]),
    - [src/vector-helpers.mjs]  ([uploadTextToVectorStore]),
    - [src/server.mjs]          ([buildMovieDocument], [traktFetchHistory],
                                 [traktAddToHistory], [traktModifyWatchlist],
                                 the routes [/mark-seen],
                                 [/import-trakt-history], [/trakt/watchlist/add],
                                 [/trakt/watchlist/remove] and [/agent/chat]),
    - [src/yen-agent.mjs]       (the tools of the agent in its three
                                 variants, [runYenMoviesAgent]),

    and the properties the specification states about them, followed by
    further properties read off the code.

    Conventions of the embedding.
    - A JavaScript string is a [string] of bytes; a text of ASCII
      characters is that text.  [toLowerCase], whose result on other texts
      depends on Unicode, is a parameter of the functions that call it;
      [toLowerCase_ascii] is what it does on ASCII text.  [trim] removes
      the white space of the ASCII range.
    - A value that comes out of [JSON.parse] is a [value]; a JSON number is
      modelled on its integer value.  [undefined] is [None] in an
      [option value].  The results of [Number(v)], [Math.min] and
      [Math.max] are [number]s: a rational, an infinity or NaN.
    - [JSON.parse] and [Number] on strings are built-ins and stay
      parameters of the functions that call them; [JSONText] gives
      instances to run the embedding on concrete text.
    - A promise that is not awaited is an operation that is issued: its
      effect is a function of its own ([unlink_settled]), applied to the
      world in which the promise settles.
    - An awaited external call either rejects or resolves; what it does is
      given by an environment record, and the program is deterministic in
      it.  The local files, the files the vendor holds and the calls made
      so far form the [world] an asynchronous function runs on.
    - A thrown exception is the left summand of [error + A]. *)

From Stdlib Require Import ZArith QArith Lqa Ascii String DecimalString List Bool Lia.
From stdpp Require Import gmap strings list fin_maps.

Import ListNotations.
Local Open Scope Z_scope.
Set Warnings "-register-all".

(** ** JavaScript strings *)

Module JSString.

Definition LF : ascii := Ascii.ascii_of_nat 10.
Definition newline : string := String LF EmptyString.

(** [toLowerCase] on one character of the ASCII range. *)
Definition lower_char (c : ascii) : ascii :=
  let n := Ascii.nat_of_ascii c in
  if ((65 <=? n)%nat && (n <=? 90)%nat)%bool
  then Ascii.ascii_of_nat (n + 32)
  else c.

(** [s.toLowerCase()] is a built-in that folds every cased letter of
    Unicode, some of them depending on what surrounds them; it is a
    parameter of the functions that call it.  On a text of ASCII
    characters it folds A-Z, character by character: *)
Fixpoint toLowerCase_ascii (s : string) : string :=
  match s with
  | EmptyString => EmptyString
  | String c s' => String (lower_char c) (toLowerCase_ascii s')
  end.

(** Every character of the string is in the ASCII range. *)
Fixpoint all_ascii (s : string) : bool :=
  match s with
  | EmptyString => true
  | String c s' => (Ascii.nat_of_ascii c <? 128)%nat && all_ascii s'
  end.

(** [hay.startsWith(needle)] *)
Fixpoint startsWith (hay needle : string) : bool :=
  match needle, hay with
  | EmptyString, _ => true
  | String _ _, EmptyString => false
  | String a n', String b h' => if Ascii.eqb a b then startsWith h' n' else false
  end.

(** [hay.includes(needle)]: the needle starts at some position of [hay]. *)
Fixpoint includes (hay needle : string) : bool :=
  if startsWith hay needle then true
  else match hay with
       | EmptyString => false
       | String _ h' => includes h' needle
       end.

(** The white space [trim] removes, on the ASCII range: TAB, LF, VT, FF,
    CR and SPACE. *)
Definition is_space (c : ascii) : bool :=
  let n := Ascii.nat_of_ascii c in
  ((9 <=? n)%nat && (n <=? 13)%nat)%bool || (n =? 32)%nat.

Fixpoint trimStart (s : string) : string :=
  match s with
  | EmptyString => EmptyString
  | String c s' => if is_space c then trimStart s' else s
  end.

(** [trimEnd] keeps a character when it is not a space or something that
    is kept follows it. *)
Fixpoint trimEnd (s : string) : string :=
  match s with
  | EmptyString => EmptyString
  | String c s' =>
      match trimEnd s' with
      | EmptyString => if is_space c then EmptyString else String c EmptyString
      | t => String c t
      end
  end.

(** [s.trim()] *)
Definition trim (s : string) : string := trimEnd (trimStart s).

(** [text.split("\n")] *)
Fixpoint split_lines (text : string) : list string :=
  match text with
  | EmptyString => [EmptyString]
  | String c rest =>
      if Ascii.eqb c LF then EmptyString :: split_lines rest
      else match split_lines rest with
           | l :: ls => String c l :: ls
           | [] => [String c EmptyString]
           end
  end.

(** [parts.join(sep)] *)
Fixpoint join (sep : string) (parts : list string) : string :=
  match parts with
  | [] => EmptyString
  | [p] => p
  | p :: ps => p +:+ sep +:+ join sep ps
  end.

(** A string is free of the line feed character. *)
Fixpoint no_newline (s : string) : bool :=
  match s with
  | EmptyString => true
  | String c s' => negb (Ascii.eqb c LF) && no_newline s'
  end.

(** Every character of the string is white space. *)
Fixpoint all_space (s : string) : bool :=
  match s with
  | EmptyString => true
  | String c s' => is_space c && all_space s'
  end.

(** What [toLowerCase] does on the ASCII range: a text of ASCII
    characters is folded by [toLowerCase_ascii], and so is an ASCII text at
    the start of a longer one, whatever follows it. *)
Definition folds_ascii (toLowerCase : string -> string) : Prop :=
  (forall a, all_ascii a = true -> toLowerCase a = toLowerCase_ascii a) /\
  (forall a rest, all_ascii a = true ->
                  exists r, toLowerCase (a +:+ rest) = toLowerCase_ascii a +:+ r).

End JSString.

(** ** JavaScript values *)

Module JS.
Import JSString.

(** What [JSON.parse] returns.  The members of an object are kept in
    insertion order and have distinct keys. *)
Inductive value : Type :=
| JNull
| JBool (b : bool)
| JNum (n : Z)
| JStr (s : string)
| JArr (items : list value)
| JObj (members : list (string * value)).

(** An exception object: [err.name] and [err.message]. *)
Record error : Type := mkError { name : string; message : string }.

Definition Error (msg : string) : error := mkError "Error" msg.
Definition TypeError (msg : string) : error := mkError "TypeError" msg.

(** [String(err)] *)
Definition error_toString (e : error) : string :=
  if String.eqb (message e) EmptyString then name e
  else name e +:+ ": " +:+ message e.

(** [String(err.message || err)] *)
Definition error_details (e : error) : string :=
  if String.eqb (message e) EmptyString then error_toString e else message e.

(** [Number.prototype.toString] on an integer. *)
Definition Number_toString (n : Z) : string :=
  DecimalString.NilZero.string_of_int (Z.to_int n).

(** Truthiness; [None] is [undefined]. *)
Definition truthy (v : option value) : bool :=
  match v with
  | None | Some JNull => false
  | Some (JBool b) => b
  | Some (JNum n) => negb (n =? 0)
  | Some (JStr s) => negb (String.eqb s EmptyString)
  | Some (JArr _) | Some (JObj _) => true
  end.

(** [a || b] *)
Definition js_or (a b : option value) : option value :=
  if truthy a then a else b.

(** [a ?? b] *)
Definition nullish (a b : option value) : option value :=
  match a with
  | None | Some JNull => b
  | Some _ => a
  end.

(** [a || b] where [b] is not [undefined]. *)
Definition or_value (a : option value) (b : value) : value :=
  match js_or a (Some b) with
  | Some v => v
  | None => b
  end.

(** [a ?? b] where [b] is not [undefined]. *)
Definition nullish_value (a : option value) (b : value) : value :=
  match nullish a (Some b) with
  | Some v => v
  | None => b
  end.

(** [typeof v === "string"] *)
Definition is_string (v : option value) : bool :=
  match v with
  | Some (JStr _) => true
  | _ => false
  end.

(** [Array.isArray(v) ? v : []] *)
Definition array_or_empty (v : option value) : list value :=
  match v with
  | Some (JArr items) => items
  | _ => []
  end.

(** [String(v)], the conversion string concatenation applies. *)
Fixpoint ToString (v : value) : string :=
  match v with
  | JNull => "null"
  | JBool true => "true"
  | JBool false => "false"
  | JNum n => Number_toString n
  | JStr s => s
  | JArr items =>
      join "," (List.map (fun x => match x with
                                   | JNull => EmptyString
                                   | _ => ToString x
                                   end) items)
  | JObj _ => "[object Object]"
  end.

Definition ToString_opt (v : option value) : string :=
  match v with
  | None => "undefined"
  | Some x => ToString x
  end.

(** Property read [v.k] on a value that is not [null]: own members of an
    object, [undefined] on everything else (none of the names read by the
    sources is a prototype property). *)
Fixpoint assoc (k : string) (members : list (string * value)) : option value :=
  match members with
  | [] => None
  | (k', v) :: rest => if String.eqb k k' then Some v else assoc k rest
  end.

Definition prop (v : value) (k : string) : option value :=
  match v with
  | JObj members => assoc k members
  | _ => None
  end.

(** Property read that can throw: [null.k] is a [TypeError]. *)
Definition get (v : value) (k : string) : error + option value :=
  match v with
  | JNull =>
      inl (TypeError ("Cannot read properties of null (reading '" +:+ k +:+ "')"))
  | _ => inr (prop v k)
  end.

(** *** JSON.stringify *)

Definition hex_digit (n : nat) : ascii :=
  if (n <? 10)%nat then Ascii.ascii_of_nat (48 + n)
  else Ascii.ascii_of_nat (87 + n).

Definition dquote : ascii := Ascii.ascii_of_nat 34.
Definition backslash : ascii := Ascii.ascii_of_nat 92.

(** One character inside a JSON string literal. *)
Definition escape_char (c : ascii) : string :=
  let n := Ascii.nat_of_ascii c in
  if (n =? 34)%nat then String backslash (String dquote EmptyString)
  else if (n =? 92)%nat then "\\"
  else if (n =? 8)%nat then "\b"
  else if (n =? 12)%nat then "\f"
  else if (n =? 10)%nat then "\n"
  else if (n =? 13)%nat then "\r"
  else if (n =? 9)%nat then "\t"
  else if (n <? 32)%nat
       then "\u00" +:+ String (hex_digit (n / 16)) (String (hex_digit (n mod 16)) EmptyString)
  else String c EmptyString.

Fixpoint escape (s : string) : string :=
  match s with
  | EmptyString => EmptyString
  | String c s' => escape_char c +:+ escape s'
  end.

Definition quote (s : string) : string :=
  String dquote (escape s +:+ String dquote EmptyString).

(** [JSON.stringify(v)] without indentation. *)
Fixpoint JSON_stringify (v : value) : string :=
  match v with
  | JNull => "null"
  | JBool true => "true"
  | JBool false => "false"
  | JNum n => Number_toString n
  | JStr s => quote s
  | JArr items => "[" +:+ join "," (List.map JSON_stringify items) +:+ "]"
  | JObj members =>
      "{" +:+ join "," (List.map (fun '(k, x) => quote k +:+ ":" +:+ JSON_stringify x)
                          members) +:+ "}"
  end.

(** An object literal [{k1: e1, ...}] some of whose values may be
    [undefined]; [JSON.stringify] leaves those members out, and so does a
    reader, for whom a missing member and an [undefined] one are the same. *)
Fixpoint object_literal (fields : list (string * option value)) : list (string * value) :=
  match fields with
  | [] => []
  | (k, Some v) :: rest => (k, v) :: object_literal rest
  | (_, None) :: rest => object_literal rest
  end.

(** [JSON.stringify(v, null, 2)] at the given current indentation. *)
Fixpoint JSON_stringify_indented (indent : string) (v : value) : string :=
  let inner := indent +:+ "  " in
  match v with
  | JArr [] => "[]"
  | JObj [] => "{}"
  | JArr items =>
      "[" +:+ newline +:+
      join ("," +:+ newline)
           (List.map (fun x => inner +:+ JSON_stringify_indented inner x) items) +:+
      newline +:+ indent +:+ "]"
  | JObj members =>
      "{" +:+ newline +:+
      join ("," +:+ newline)
           (List.map (fun '(k, x) =>
                        inner +:+ quote k +:+ ": " +:+ JSON_stringify_indented inner x)
                     members) +:+
      newline +:+ indent +:+ "}"
  | _ => JSON_stringify v
  end.

(** *** Numbers as arithmetic sees them

    The results of [Number(v)], [Math.min] and [Math.max]: a rational, one
    of the infinities, or NaN. *)
Inductive number : Type :=
| NaN
| NegInfinity
| Finite (q : Q)
| PosInfinity.

(** [a <= b] on numbers that are not NaN. *)
Definition number_leb (a b : number) : bool :=
  match a, b with
  | NaN, _ | _, NaN => false
  | NegInfinity, _ => true
  | _, PosInfinity => true
  | Finite x, Finite y => Qle_bool x y
  | Finite _, NegInfinity => false
  | PosInfinity, _ => false
  end.

(** [Math.min(a, b)] *)
Definition Math_min (a b : number) : number :=
  match a, b with
  | NaN, _ | _, NaN => NaN
  | _, _ => if number_leb a b then a else b
  end.

(** [Math.max(a, b)] *)
Definition Math_max (a b : number) : number :=
  match a, b with
  | NaN, _ | _, NaN => NaN
  | _, _ => if number_leb a b then b else a
  end.

(** [a || b] on numbers: [0] and NaN are falsy. *)
Definition number_or (a b : number) : number :=
  match a with
  | NaN => b
  | Finite q => if Qeq_bool q 0 then b else a
  | _ => a
  end.

Section ToNumber.
(** [Number(s)] on a string is a built-in, kept as a parameter. *)
Variable StringToNumber : string -> number.

(** [Number(v)] *)
Definition Number (v : option value) : number :=
  match v with
  | None => NaN
  | Some JNull => Finite 0
  | Some (JBool true) => Finite 1
  | Some (JBool false) => Finite 0
  | Some (JNum n) => Finite (inject_Z n)
  | Some (JStr s) => StringToNumber s
  | Some (JArr items) => StringToNumber (ToString (JArr items))
  | Some (JObj members) => StringToNumber (ToString (JObj members))
  end.
End ToNumber.

End JS.

(** ** The process environment, the file system and the external services *)

Module Runtime.
Import JS.

(** The part of a [fetch] response the sources read. *)
Record response : Type := mkResponse { ok : bool; status : Z; body : string }.

(** What an awaited call does: the promise rejects, or resolves. *)
Inductive outcome (A : Type) : Type :=
| Rejected (err : error)
| Resolved (a : A).
Arguments Rejected {A} err.
Arguments Resolved {A} a.

(** The calls that leave the process, in the order they are issued. *)
Inductive call : Type :=
| ListFiles                          (* GET  /v1/vector_stores/ID/files?limit=20 *)
| FetchContent (id : string)         (* GET  /v1/files/ID/content *)
| WriteFile (path text : string)     (* fs.promises.writeFile *)
| Unlink (path : string)             (* fs.promises.unlink *)
| FilesCreate (path : string)        (* openai.files.create *)
| AttachFile (file_id : string)      (* POST /v1/vector_stores/ID/files *)
| TraktAddHistory (payload : value)  (* POST https://api.trakt.tv/sync/history *)
| TraktGetHistory (limit : number).  (* GET  .../sync/history/movies?limit=N *)

(** [process.env], the clock, and what each external call answers. *)
Record env : Type := mkEnv {
  OPENAI_API_KEY : option string;
  VECTOR_STORE_ID : option string;
  TRAKT_CLIENT_ID : option string;
  TRAKT_ACCESS_TOKEN : option string;
  now : string;                               (* new Date().toISOString() *)
  tmpPath : string;                           (* path.join(os.tmpdir(), ...) *)
  fetch_list : outcome response;
  fetch_content : string -> outcome response;
  fs_writeFile : string -> string -> option error;
  fs_unlink : string -> option error;
  files_create : string -> outcome string;    (* file content to file.id *)
  fetch_attach : string -> outcome response;
  trakt_add_history : value -> outcome response;
  trakt_get_history : number -> outcome response
}.

(** The environment with another answer of [fs.promises.unlink]. *)
Definition with_unlink (f : string -> option error) (e : env) : env :=
mkEnv (OPENAI_API_KEY e) (VECTOR_STORE_ID e) (TRAKT_CLIENT_ID e) (TRAKT_ACCESS_TOKEN e)
      (now e) (tmpPath e) (fetch_list e) (fetch_content e) (fs_writeFile e) f
      (files_create e) (fetch_attach e) (trakt_add_history e) (trakt_get_history e).

(** The environment with another answer of the vector store's attach call. *)
Definition with_attach (f : string -> outcome response) (e : env) : env :=
mkEnv (OPENAI_API_KEY e) (VECTOR_STORE_ID e) (TRAKT_CLIENT_ID e) (TRAKT_ACCESS_TOKEN e)
      (now e) (tmpPath e) (fetch_list e) (fetch_content e) (fs_writeFile e) (fs_unlink e)
      (files_create e) f (trakt_add_history e) (trakt_get_history e).

(** The environment with another answer of Trakt's add-to-history call. *)
Definition with_trakt_add (f : value -> outcome response) (e : env) : env :=
mkEnv (OPENAI_API_KEY e) (VECTOR_STORE_ID e) (TRAKT_CLIENT_ID e) (TRAKT_ACCESS_TOKEN e)
      (now e) (tmpPath e) (fetch_list e) (fetch_content e) (fs_writeFile e) (fs_unlink e)
      (files_create e) (fetch_attach e) f (trakt_get_history e).

(** Truthiness of an environment variable. *)
Definition set_var (v : option string) : bool :=
  match v with
  | Some s => negb (String.eqb s EmptyString)
  | None => false
  end.

(** The local files, what the vendor holds, and the calls made so far. *)
Record world : Type := mkWorld {
  fs : gmap string string;
  vendor_files : list (string * string);   (* file.id, content *)
  attached : list string;                  (* file ids in the vector store *)
  calls : list call
}.

Definition log (c : call) (w : world) : world :=
  mkWorld (fs w) (vendor_files w) (attached w) (calls w ++ [c]).

Definition set_fs (f : gmap string string) (w : world) : world :=
  mkWorld f (vendor_files w) (attached w) (calls w).

(** An asynchronous function: it runs on a world and returns or throws. *)
Definition M (A : Type) : Type := world -> world * (error + A).

Definition ret {A} (a : A) : M A := fun w => (w, inr a).
Definition throw {A} (err : error) : M A := fun w => (w, inl err).
Definition bind {A B} (m : M A) (k : A -> M B) : M B :=
  fun w => match m w with
           | (w', inl err) => (w', inl err)
           | (w', inr a) => k a w'
           end.

(** [try { body } catch (err) { handler err }] *)
Definition try_catch {A} (body : M A) (handler : error -> M A) : M A :=
  fun w => match body w with
           | (w', inl err) => handler err w'
           | (w', inr a) => (w', inr a)
           end.

(** [try { body } finally { cleanup }] with a cleanup that cannot throw. *)
Definition try_finally {A} (body : M A) (cleanup : world -> world) : M A :=
  fun w => match body w with
           | (w', r) => (cleanup w', r)
           end.

(** A value that may throw, lifted. *)
Definition lift {A} (r : error + A) : M A := fun w => (w, r).

End Runtime.

Notation "x <- m ;; k" := (Runtime.bind m (fun x => k))
  (at level 100, m at next level, right associativity).
Notation "m ;;; k" := (Runtime.bind m (fun _ => k))
  (at level 100, right associativity).

(** ** Linear memory search: [naiveVectorStoreSearch] in [src/mcp-server.mjs] *)

Module Search.
Import JSString JS Runtime.

(** One element of the returned array. *)
Record SearchResult : Type := mkResult {
  text : value;
  kind : value;
  tags : list value;
  created_at : value;
  score : Z
}.

(** [tags.includes(t)] for a string [t] (SameValueZero). *)
Definition array_includes (tags : list value) (t : string) : bool :=
  List.existsb (fun v => match v with
                         | JStr s => String.eqb s t
                         | _ => false
                         end) tags.

(** [requiredTags.every((t) => tags.includes(t))] *)
Definition hasAll (requiredTags : list string) (tags : list value) : bool :=
  List.forallb (array_includes tags) requiredTags.

(** [filterTags && filterTags.length > 0 ? filterTags : null] *)
Definition requiredTags_of (filterTags : option (list string)) : option (list string) :=
  match filterTags with
  | Some (t :: ts) => Some (t :: ts)
  | _ => None
  end.

(** [topK || 10] *)
Definition maxResults_of (topK : option Z) : Z :=
  match topK with
  | Some k => if k =? 0 then 10 else k
  | None => 10
  end.

(** Lines 101-112, before [toLowerCase]. *)
Definition haystack_text (doc : value) (tags : list value) : string :=
  ToString (or_value (prop doc "text") (JStr EmptyString)) +:+ " " +:+
  ToString (or_value (prop doc "title") (JStr EmptyString)) +:+ " " +:+
  ToString (or_value (prop doc "comment") (JStr EmptyString)) +:+ " " +:+
  JSON_stringify (JArr tags) +:+ " " +:+
  ToString (or_value (prop doc "kind") (JStr EmptyString)) +:+ " " +:+
  ToString (or_value (prop doc "type") (JStr EmptyString)).

(** Lines 101-113: the text a record is searched in. *)
Definition haystack (toLowerCase : string -> string) (doc : value) (tags : list value)
  : string :=
  toLowerCase (haystack_text doc tags).

(** Lines 96-99: [true] when the record goes on to the substring test. *)
Definition tag_filter (requiredTags : option (list string)) (tags : list value) : bool :=
  match requiredTags with
  | Some req => hasAll req tags
  | None => true
  end.

(** Lines 117-123. *)
Definition result_of (doc : value) (tags : list value) : SearchResult :=
  {| text := or_value (js_or (prop doc "text") (prop doc "title"))
                      (JStr (JSON_stringify doc));
     kind := or_value (js_or (prop doc "kind") (prop doc "type")) (JStr "unknown");
     tags := tags;
     created_at := or_value (js_or (prop doc "created_at") (prop doc "marked_at")) JNull;
     score := 1 |}.

(** Lines 95-123, the body of the line loop after a successful parse:
    an exception, [None] for [continue], or the element pushed. *)
Definition scan_doc (toLowerCase : string -> string) (queryLower : string)
    (requiredTags : option (list string)) (doc : value)
  : error + option SearchResult :=
  match get doc "tags" with
  | inl err => inl err
  | inr t =>
      let tags := array_or_empty t in
      if negb (tag_filter requiredTags tags) then inr None
      else if negb (includes (haystack toLowerCase doc tags) queryLower) then inr None
      else inr (Some (result_of doc tags))
  end.

(** *** The haystack in the words of the specification

    The six parts joined with single spaces and lower-cased, a missing
    field counting as the empty string.  A field is missing when the
    record has no such member or holds a falsy value there: [null],
    [false], 0 or the empty string. *)
Definition missing (v : option value) : bool := negb (truthy v).

Definition field_text (doc : value) (k : string) : string :=
match prop doc k with
| Some v => if missing (Some v) then EmptyString else ToString v
| None => EmptyString
end.

Definition haystack_spec (toLowerCase : string -> string) (doc : value)
    (tags : list value) : string :=
toLowerCase
  (join " " [ field_text doc "text"; field_text doc "title";
              field_text doc "comment"; JSON_stringify (JArr tags);
              field_text doc "kind"; field_text doc "type" ]).

(** [(line) => line.trim().length > 0] *)
Definition nonblank (line : string) : bool :=
  (0 <? String.length (trim line))%nat.

(** [text.split("\n").filter((line) => line.trim().length > 0)] *)
Definition lines_of (content : string) : list string :=
  List.filter nonblank (split_lines content).

(** [results.slice(0, maxResults)] *)
Definition slice0 {A} (l : list A) (m : Z) : list A :=
  if m <? 0 then firstn (length l - Z.to_nat (- m)) l
  else firstn (Z.to_nat m) l.

Section WithParser.

(** [String.prototype.toLowerCase] *)
Variable toLowerCase : string -> string.
(** [JSON.parse]; [None] when it throws. *)
Variable JSON_parse : string -> option value.
Variable e : env.

Section Loops.
Variables (queryLower : string) (maxResults : Z)
          (requiredTags : option (list string)).

(** Lines 85-124: [for (const line of lines)]. *)
Fixpoint scan_lines (lines : list string) (results : list SearchResult)
  : error + list SearchResult :=
  match lines with
  | [] => inr results
  | line :: rest =>
      if Z.of_nat (length results) >=? maxResults then inr results
      else match JSON_parse line with
           | None => scan_lines rest results
           | Some doc =>
               match scan_doc toLowerCase queryLower requiredTags doc with
               | inl err => inl err
               | inr None => scan_lines rest results
               | inr (Some r) => scan_lines rest (results ++ [r])
               end
           end
  end.

(** Lines 60-125: [for (const file of files)]; the requests sent are
    appended to [sent]. *)
Fixpoint scan_files (files : list value) (sent : list call)
    (results : list SearchResult)
  : list call * (error + list SearchResult) :=
  match files with
  | [] => (sent, inr results)
  | file :: rest =>
      if Z.of_nat (length results) >=? maxResults then (sent, inr results)
      else match get file "id" with
           | inl err => (sent, inl err)
           | inr id =>
               let sent' := sent ++ [FetchContent (ToString_opt id)] in
               match fetch_content e (ToString_opt id) with
               | Rejected err => (sent', inl err)
               | Resolved fileResp =>
                   if negb (ok fileResp) then scan_files rest sent' results
                   else if String.eqb (body fileResp) EmptyString
                        then scan_files rest sent' results
                   else match scan_lines (lines_of (body fileResp)) results with
                        | inl err => (sent', inl err)
                        | inr results' => scan_files rest sent' results'
                        end
               end
           end
  end.

End Loops.

(** Lines 55-127, once the file list is known. *)
Definition collect (files : list value) (query : string) (topK : option Z)
    (filterTags : option (list string)) (sent : list call)
  : list call * (error + list SearchResult) :=
  let queryLower := toLowerCase query in
  let maxResults := maxResults_of topK in
  let requiredTags := requiredTags_of filterTags in
  match scan_files queryLower maxResults requiredTags files sent [] with
  | (sent', inl err) => (sent', inl err)
  | (sent', inr results) => (sent', inr (slice0 results maxResults))
  end.

(** Lines 30-128. *)
Definition naiveVectorStoreSearch (query : string) (topK : option Z)
    (filterTags : option (list string))
  : list call * (error + list SearchResult) :=
  if negb (set_var (OPENAI_API_KEY e)) || negb (set_var (VECTOR_STORE_ID e))
  then ([], inl (Error "OPENAI_API_KEY or VECTOR_STORE_ID not configured"))
  else match fetch_list e with
       | Rejected err => ([ListFiles], inl err)
       | Resolved listResp =>
           if negb (ok listResp)
           then ([ListFiles],
                 inl (Error ("Vector store list failed " +:+
                             Number_toString (status listResp) +:+ ": " +:+
                             body listResp)))
           else match JSON_parse (body listResp) with
                | None => ([ListFiles], inl (mkError "SyntaxError" "Unexpected token"))
                | Some listData =>
                    match get listData "data" with
                    | inl err => ([ListFiles], inl err)
                    | inr data =>
                        collect (array_or_empty data) query topK filterTags [ListFiles]
                    end
                end
       end.

(** *** The matching lines, as the specification counts them *)

(** The result a line yields when it parses and passes both filters. *)
Definition line_match (queryLower : string) (requiredTags : option (list string))
    (line : string) : option SearchResult :=
  match JSON_parse line with
  | Some doc =>
      match scan_doc toLowerCase queryLower requiredTags doc with
      | inr (Some r) => Some r
      | _ => None
      end
  | None => None
  end.

(** The non-blank lines of a listed file whose content could be read. *)
Definition file_lines (file : value) : list string :=
  match fetch_content e (ToString_opt (prop file "id")) with
  | Resolved fileResp => if ok fileResp then lines_of (body fileResp) else []
  | Rejected _ => []
  end.

(** Every match, in file-listing-then-line order. *)
Definition all_matches (queryLower : string) (requiredTags : option (list string))
    (files : list value) : list SearchResult :=
  flat_map (fun file => omap (line_match queryLower requiredTags) (file_lines file))
           files.

(** A line on which the loop body cannot throw: it does not parse to
    [null]. *)
Definition quiet_line (line : string) : Prop := JSON_parse line <> Some JNull.

(** A listed file on which the loop body cannot throw: the entry is
    not [null], its content request resolves, its lines are quiet. *)
Definition quiet_file (file : value) : Prop :=
  file <> JNull /\
  exists fileResp,
    fetch_content e (ToString_opt (prop file "id")) = Resolved fileResp /\
    Forall quiet_line (lines_of (body fileResp)).

(** [top_k] as the schema of the tool admits it. *)
Definition valid_topK (topK : option Z) : Prop :=
  match topK with
  | Some k => 1 <= k
  | None => True
  end.

(** The validated input of the [memory_search] tool. *)
Record search_args : Type := mkSearchArgs {
  query : string;
  top_k : option Z;
  filter_tags : option (list string)
}.

(** [memorySearchSchema]: [query] is not empty, [top_k] lies in [1, 50]. *)
Definition memorySearchSchema (a : search_args) : bool :=
  (0 <? String.length (query a))%nat &&
  match top_k a with
  | Some k => (1 <=? k) && (k <=? 50)
  | None => true
  end.

(** Lines 307-325: the handler of [memory_search]; its structured
    content is [{ results }]. *)
Definition memory_search (a : search_args)
  : list call * (error + list SearchResult) :=
  naiveVectorStoreSearch (query a) (Some (maxResults_of (top_k a))) (filter_tags a).

End WithParser.

End Search.

(** ** Document codec: [buildMovieDocument] in [src/server.mjs] *)

Module Codec.
Import JSString JS.

(** The argument of [buildMovieDocument]; [None] is a member that is
    absent or [undefined]. *)
Record movie : Type := mkMovie {
  type : option value;
  title : option value;
  year : option value;
  trakt_id : option value;
  imdb : option value;
  slug : option value;
  tmdb : option value;
  rating : option value;
  liked : option value;
  state : option value;
  source : option value;
  tags : option value;
  comment : option value
}.

(** The object literal handed to [JSON.stringify] (lines 58-73). *)
Definition movie_record (now : string) (m : movie) : list (string * value) :=
  object_literal
    [ ("type", Some (or_value (type m) (JStr "movie_seen")));
      ("title", title m);
      ("year", Some (nullish_value (year m) JNull));
      ("trakt_id", Some (nullish_value (trakt_id m) JNull));
      ("imdb", Some (nullish_value (imdb m) JNull));
      ("slug", Some (nullish_value (slug m) JNull));
      ("tmdb", Some (nullish_value (tmdb m) JNull));
      ("rating", Some (nullish_value (rating m) JNull));
      ("liked", Some (nullish_value (liked m) JNull));
      ("state", Some (nullish_value (state m) (JStr "seen")));
      ("source", Some (nullish_value (source m) (JStr "manual")));
      ("marked_at", Some (JStr now));
      ("tags", Some (nullish_value (tags m) (JArr [])));
      ("comment", Some (nullish_value (comment m) JNull)) ].

(** Lines 55-76; [now] is [new Date().toISOString()]. *)
Definition buildMovieDocument (now : string) (m : movie) : string :=
  JSON_stringify (JObj (movie_record now m)) +:+ newline.

(** *** The defaults, by field name *)

(** The members a caller can supply. *)
Definition field_names : list string :=
[ "type"; "title"; "year"; "trakt_id"; "imdb"; "slug"; "tmdb"; "rating";
  "liked"; "state"; "source"; "tags"; "comment" ].

Definition field_of (m : movie) (k : string) : option value :=
if String.eqb k "type" then type m
else if String.eqb k "title" then title m
else if String.eqb k "year" then year m
else if String.eqb k "trakt_id" then trakt_id m
else if String.eqb k "imdb" then imdb m
else if String.eqb k "slug" then slug m
else if String.eqb k "tmdb" then tmdb m
else if String.eqb k "rating" then rating m
else if String.eqb k "liked" then liked m
else if String.eqb k "state" then state m
else if String.eqb k "source" then source m
else if String.eqb k "tags" then tags m
else if String.eqb k "comment" then comment m
else None.

(** The default the specification gives an absent field: the empty array
    for [tags], "seen" for [state], "manual" for [source], [null] for the
    scalar fields. *)
Definition stated_default (k : string) : value :=
if String.eqb k "tags" then JArr []
else if String.eqb k "state" then JStr "seen"
else if String.eqb k "source" then JStr "manual"
else JNull.

(** The default the code gives an absent field: as stated, except that
    [type] becomes "movie_seen" and [title] has none. *)
Definition default_of (k : string) : option value :=
if String.eqb k "type" then Some (JStr "movie_seen")
else if String.eqb k "title" then None
else Some (stated_default k).

(** A movie none of whose members is present. *)
Definition no_fields : movie :=
mkMovie None None None None None None None None None None None None None.

End Codec.

(** ** Store uploader: [uploadTextToVectorStore] in [src/vector-helpers.mjs]

    [src/server.mjs] holds the same function (lines 78-129); the routes of
    the server use this one embedding. *)

Module Uploader.
Import JSString JS Runtime.

Section WithParser.

Variable JSON_parse : string -> option value.
Variable e : env.

(** [await fs.promises.writeFile(path, text, "utf8")] *)
Definition writeFile (path text : string) : M unit :=
  fun w =>
    let w1 := log (WriteFile path text) w in
    match fs_writeFile e path text with
    | Some err => (w1, inl err)
    | None => (set_fs (<[path := text]> (fs w1)) w1, inr tt)
    end.

(** [fs.promises.unlink(path).catch(() => {})] as the [finally] block
    runs it: the unlink is issued and its promise is left alone, neither
    awaited nor, thanks to the [catch], able to reject.  The function goes
    on, and returns, with the file where it was. *)
Definition unlink_swallowed (path : string) (w : world) : world :=
  log (Unlink path) w.

(** The world once the unlink issued for [path] has settled, which can be
    after the function that issued it has returned: the file is gone,
    unless the unlink was refused. *)
Definition unlink_settled (path : string) (w : world) : world :=
  match fs_unlink e path with
  | Some _ => w
  | None => set_fs (delete path (fs w)) w
  end.

(** [await openai.files.create({ file: fs.createReadStream(path), ... })] *)
Definition openai_files_create (path : string) : M string :=
  fun w =>
    let w1 := log (FilesCreate path) w in
    match fs w1 !! path with
    | None => (w1, inl (Error "ENOENT: no such file or directory"))
    | Some content =>
        match files_create e content with
        | Rejected err => (w1, inl err)
        | Resolved id =>
            (mkWorld (fs w1) (vendor_files w1 ++ [(id, content)])
                     (attached w1) (calls w1), inr id)
        end
    end.

(** [await fetch(".../vector_stores/ID/files", { method: "POST", ... })];
    the vendor has attached the file when it answers with success. *)
Definition fetch_attach_file (file_id : string) : M response :=
  fun w =>
    let w1 := log (AttachFile file_id) w in
    match fetch_attach e file_id with
    | Rejected err => (w1, inl err)
    | Resolved resp =>
        (if ok resp
         then mkWorld (fs w1) (vendor_files w1) (attached w1 ++ [file_id]) (calls w1)
         else w1, inr resp)
    end.

(** [await resp.json()] *)
Definition response_json (resp : response) : M value :=
  match JSON_parse (body resp) with
  | None => throw (mkError "SyntaxError" "Unexpected token")
  | Some v => ret v
  end.

(** Lines 624-661: the [try] block with its [catch], which logs the
    error and throws it again. *)
Definition upload_body (tmpPath : string) : M string :=
  try_catch
    (file_id <- openai_files_create tmpPath ;;
     resp <- fetch_attach_file file_id ;;
     if negb (ok resp)
     then throw (Error ("Vector store attach failed " +:+
                        Number_toString (status resp) +:+ ": " +:+ body resp))
     else
       vsFile <- response_json resp ;;
       _ <- lift (get vsFile "id") ;;
       ret file_id)
    (fun err => throw err).

(** Lines 615-665. *)
Definition uploadTextToVectorStore (text : string) : M string :=
  let tmpPath := tmpPath e in
  writeFile tmpPath text ;;;
  try_finally (upload_body tmpPath) (unlink_swallowed tmpPath).

End WithParser.

End Uploader.

(** ** Trakt helpers in [src/server.mjs] *)

Module Trakt.
Import JSString JS Runtime.

Section WithBuiltins.

Variable JSON_parse : string -> option value.
Variable StringToNumber : string -> number.
Variable e : env.

(** Lines 133-139. *)
Definition ensureTraktConfigured : M unit :=
  if negb (set_var (TRAKT_CLIENT_ID e)) || negb (set_var (TRAKT_ACCESS_TOKEN e))
  then throw (Error "TRAKT_CLIENT_ID or TRAKT_ACCESS_TOKEN not configured. Check your .env")
  else ret tt.

(** [Math.max(1, Math.min(x || 200, 500))] for [x = Number(limit)]. *)
Definition clamp (x : number) : number :=
  Math_max (Finite 1) (Math_min (number_or x (Finite 200)) (Finite 500)).

(** Line 143, with the default [limit = 200] of line 141. *)
Definition safeLimit (limit : option value) : number :=
  let limit := match limit with
               | None => Some (JNum 200)
               | Some _ => limit
               end in
  clamp (Number StringToNumber limit).

(** Lines 141-163. *)
Definition traktFetchHistory (limit : option value) : M value :=
  ensureTraktConfigured ;;;
  let safeLimit := safeLimit limit in
  resp <- (fun w => let w1 := log (TraktGetHistory safeLimit) w in
                    match trakt_get_history e safeLimit with
                    | Rejected err => (w1, inl err)
                    | Resolved resp => (w1, inr resp)
                    end) ;;
  if negb (ok resp)
  then throw (Error ("Trakt history error " +:+ Number_toString (status resp) +:+
                     ": " +:+ body resp))
  else match JSON_parse (body resp) with
       | None => throw (mkError "SyntaxError" "Unexpected token")
       | Some v => ret v
       end.

(** [...(v ? { k: v } : {})] *)
Definition spread_if (k : string) (v : option value) : list (string * value) :=
  match v with
  | Some x => if truthy v then [(k, x)] else []
  | None => []
  end.

(** Lines 165-203. *)
Definition traktAddToHistory (trakt_id imdb slug tmdb : option value) : M value :=
  ensureTraktConfigured ;;;
  let ids := spread_if "trakt" trakt_id ++ spread_if "imdb" imdb ++
             spread_if "slug" slug ++ spread_if "tmdb" tmdb in
  let payload := JObj [("movies", JArr [JObj [("ids", JObj ids)]])] in
  if (length ids =? 0)%nat
  then throw (Error "No valid ids provided for Trakt history (need trakt_id, imdb, slug or tmdb)")
  else
    resp <- (fun w => let w1 := log (TraktAddHistory payload) w in
                      match trakt_add_history e payload with
                      | Rejected err => (w1, inl err)
                      | Resolved resp => (w1, inr resp)
                      end) ;;
    if negb (ok resp)
    then throw (Error ("Trakt add-to-history error " +:+
                       Number_toString (status resp) +:+ ": " +:+ body resp))
    else if String.eqb (body resp) EmptyString
         then ret (JObj [("ok", JBool true)])
         else match JSON_parse (body resp) with
              | None => throw (mkError "SyntaxError" "Unexpected token")
              | Some v => ret v
              end.

End WithBuiltins.

End Trakt.

(** ** The [/mark-seen] route in [src/server.mjs] *)

Module Server.
Import JSString JS Runtime.

(** What the handler sends: [res.status(s).json(payload)]. *)
Record http_response : Type := mkHttp { http_status : Z; json : value }.

Section WithParser.

Variable JSON_parse : string -> option value.
Variable e : env.

(** Lines 295-311: the document written for a request body [b]. *)
Definition seen_document (b : value) : string :=
  let syncTrakt := match prop b "syncTrakt" with
                   | None => Some (JBool true)
                   | Some v => Some v
                   end in
  Codec.buildMovieDocument (now e)
    {| Codec.type := Some (JStr "movie_seen");
       Codec.title := prop b "title";
       Codec.year := prop b "year";
       Codec.trakt_id := prop b "trakt_id";
       Codec.imdb := prop b "imdb";
       Codec.slug := prop b "slug";
       Codec.tmdb := prop b "tmdb";
       Codec.rating := prop b "rating";
       Codec.liked := prop b "liked";
       Codec.state := Some (JStr "seen");
       Codec.source := Some (JStr (if truthy syncTrakt
                                   then "mark_seen_trakt+vector"
                                   else "mark_seen_vector_only"));
       Codec.tags := prop b "tags";
       Codec.comment := prop b "comment" |}.

(** Lines 317-322: the condition under which the history entry is sent. *)
Definition sync_wanted (b : value) : bool :=
  let syncTrakt := match prop b "syncTrakt" with
                   | None => Some (JBool true)
                   | Some v => Some v
                   end in
  truthy syncTrakt &&
  (truthy (prop b "trakt_id") || truthy (prop b "imdb") ||
   truthy (prop b "slug") || truthy (prop b "tmdb")) &&
  set_var (TRAKT_CLIENT_ID e) && set_var (TRAKT_ACCESS_TOKEN e).

(** Lines 336-351: the payload of the success response. *)
Definition seen_payload (b : value) (fileId : string) (traktResult : value)
  : list (string * value) :=
  object_literal
    [ ("ok", Some (JBool true));
      ("stored",
       Some (JObj (object_literal
         [ ("title", prop b "title");
           ("year", Some (nullish_value (prop b "year") JNull));
           ("trakt_id", Some (nullish_value (prop b "trakt_id") JNull));
           ("imdb", Some (nullish_value (prop b "imdb") JNull));
           ("slug", Some (nullish_value (prop b "slug") JNull));
           ("tmdb", Some (nullish_value (prop b "tmdb") JNull));
           ("rating", Some (nullish_value (prop b "rating") JNull));
           ("liked", Some (nullish_value (prop b "liked") JNull));
           ("tags", Some (nullish_value (prop b "tags") (JArr []))) ])));
      ("vectorStoreFileId", Some (JStr fileId));
      ("trakt", Some traktResult) ].

(** Lines 274-359; [req_body] is [req.body], [b] is [req.body || {}]. *)
Definition mark_seen (req_body : option value) : M http_response :=
  try_catch
    (let b := or_value req_body (JObj []) in
     let title := prop b "title" in
     if negb (truthy title) || negb (is_string title)
     then ret (mkHttp 400 (JObj [("error", JStr "title is required (string)")]))
     else
       let doc := seen_document b in
       fileId <- Uploader.uploadTextToVectorStore JSON_parse e doc ;;
       traktResult <-
         (if sync_wanted b
          then try_catch
                 (Trakt.traktAddToHistory JSON_parse e
                    (prop b "trakt_id") (prop b "imdb") (prop b "slug") (prop b "tmdb"))
                 (fun err => ret (JObj [("error", JStr (error_details err))]))
          else ret JNull) ;;
       ret (mkHttp 200 (JObj (seen_payload b fileId traktResult))))
    (fun err =>
       ret (mkHttp 500 (JObj [ ("error", JStr "internal_error");
                               ("details", JStr (error_details err)) ]))).

End WithParser.

End Server.

(** ** The [memory_write] tool in [src/mcp-server.mjs] *)

Module Mcp.
Import JSString JS Runtime.

(** The validated input of [memory_write]. *)
Record write_args : Type := mkWriteArgs {
  kind : string;
  text : string;
  source : string;
  tags : option (list string)
}.

(** [memoryWriteSchema]: [text] has at least one character; the types of
    the members are those of the record. *)
Definition memoryWriteSchema (a : write_args) : bool :=
  (1 <=? String.length (text a))%nat.

(** What a tool handler returns. *)
Record tool_result : Type := mkToolResult {
  content_text : string;         (* content[0].text, content[0].type = "text" *)
  structuredContent : value
}.

Section WithParser.

Variable JSON_parse : string -> option value.
Variable e : env.

(** Lines 250-257: the line written for the arguments [a]. *)
Definition write_document (a : write_args) : string :=
  JSON_stringify
    (JObj [ ("kind", JStr (kind a));
            ("text", JStr (text a));
            ("source", JStr (source a));
            ("tags", JArr (List.map JStr (match tags a with
                                          | Some ts => ts
                                          | None => []
                                          end)));
            ("created_at", JStr (now e)) ]) +:+ newline.

(** Lines 247-275. *)
Definition memory_write (a : write_args) : M tool_result :=
  let doc := write_document a in
  fileId <- Uploader.uploadTextToVectorStore JSON_parse e doc ;;
  let output := JObj [ ("ok", JBool true); ("vectorStoreFileId", JStr fileId) ] in
  ret {| content_text := JSON_stringify_indented EmptyString output;
         structuredContent := output |}.

(** A tool call as the MCP server runs it: the input is checked against
    the schema, then the handler runs. *)
Definition call_memory_write (a : write_args) : M tool_result :=
  if memoryWriteSchema a then memory_write a
  else throw (mkError "McpError" "Invalid arguments for tool memory_write").

End WithParser.

End Mcp.

(** ** The [/import-trakt-history] route in [src/server.mjs] *)

Module History.
Import JSString JS Runtime.

(** [v?.k] *)
Definition opt_chain (v : option value) (k : string) : option value :=
match v with
| None | Some JNull => None
| Some x => prop x k
end.

(** [item?.movie?.title], the test of the filter (line 376). *)
Definition item_title (item : value) : option value :=
opt_chain (opt_chain (Some item) "movie") "title".

Section WithBuiltins.

Variable JSON_parse : string -> option value.
Variable StringToNumber : string -> number.
Variable e : env.

(** Lines 378-392: the document of a history entry that passed the
    filter; its [item.movie] is then neither [null] nor [undefined], and no
    read below can throw. *)
Definition history_document (item : value) : string :=
  let movie := prop item "movie" in
  let ids := opt_chain movie "ids" in
  Codec.buildMovieDocument (now e)
    {| Codec.type := Some (JStr "movie_seen");
       Codec.title := opt_chain movie "title";
       Codec.year := opt_chain movie "year";
       Codec.trakt_id := Some (nullish_value (opt_chain ids "trakt") JNull);
       Codec.imdb := Some (nullish_value (opt_chain ids "imdb") JNull);
       Codec.slug := Some (nullish_value (opt_chain ids "slug") JNull);
       Codec.tmdb := Some (nullish_value (opt_chain ids "tmdb") JNull);
       Codec.rating := Some (nullish_value (prop item "rating") JNull);
       Codec.liked := Some JNull;
       Codec.state := Some (JStr "seen");
       Codec.source := Some (JStr "trakt_history");
       Codec.tags := Some (JArr [JStr "trakt_history"]);
       Codec.comment := Some JNull |}.

(** Lines 375-394: [history.filter(...).map(...).join("")]. *)
Definition history_lines (history : list value) : string :=
  join EmptyString
       (List.map history_document
                 (List.filter (fun item => truthy (item_title item)) history)).

(** Lines 362-410. *)
Definition import_trakt_history (req_body : option value) : M Server.http_response :=
  try_catch
    (let limit := prop (or_value req_body (JObj [])) "limit" in
     history <- Trakt.traktFetchHistory JSON_parse StringToNumber e limit ;;
     match history with
     | JArr (item :: items) =>
         let lines := history_lines (item :: items) in
         fileId <- Uploader.uploadTextToVectorStore JSON_parse e lines ;;
         ret (Server.mkHttp 200
                (JObj [ ("ok", JBool true);
                        ("imported", JNum (Z.of_nat (length (item :: items))));
                        ("vectorStoreFileId", JStr fileId) ]))
     | _ =>
         ret (Server.mkHttp 200
                (JObj [ ("ok", JBool true);
                        ("imported", JNum 0);
                        ("message", JStr "No hay historial de Trakt o está vacío") ]))
     end)
    (fun err =>
       ret (Server.mkHttp 500 (JObj [ ("error", JStr "internal_error");
                                      ("details", JStr (error_details err)) ]))).

End WithBuiltins.

End History.

(** ** Outbound requests of the other routes and tools

    The Trakt watchlist call, the generic Trakt tool of the MCP server and
    the tools of the agent send requests the [call] type has no name for.
    They run on a world that also keeps those requests. *)

Module Http.
Import JSString JS Runtime.

(** A [fetch(url, { method, headers, body })]. *)
Record request : Type := mkRequest {
  req_method : string;
  req_url : string;
  req_headers : list (string * string);
  req_body : option string
}.

(** A response together with the headers the sources read. *)
Record reply : Type := mkReply {
  reply_response : response;
  reply_headers : list (string * string)
}.

(** What [run(agent, input, options)] resolves to. *)
Record agent_result : Type := mkAgentResult {
  finalOutput : option value;
  output : option value
}.

Inductive xcall : Type :=
| Fetch (r : request)
| RunAgent (input : string) (sessionId : value).

Record xenv : Type := mkXenv {
  base : env;
  YEN_BACKEND_URL : option string;
  http : request -> outcome reply;
  run_agent : string -> value -> outcome agent_result
}.

Record xworld : Type := mkXworld {
  inner : world;
  xcalls : list xcall
}.

Definition X (A : Type) : Type := xworld -> xworld * (error + A).

Definition xret {A} (a : A) : X A := fun w => (w, inr a).
Definition xthrow {A} (err : error) : X A := fun w => (w, inl err).
Definition xbind {A B} (m : X A) (k : A -> X B) : X B :=
fun w => match m w with
         | (w', inl err) => (w', inl err)
         | (w', inr a) => k a w'
         end.

(** [try { body } catch (err) { handler err }] *)
Definition xtry_catch {A} (body : X A) (handler : error -> X A) : X A :=
fun w => match body w with
         | (w', inl err) => handler err w'
         | (w', inr a) => (w', inr a)
         end.

(** A function of the inner world, run on the outer one. *)
Definition lift_inner {A} (m : M A) : X A :=
fun w => match m (inner w) with
         | (w', r) => (mkXworld w' (xcalls w), r)
         end.

(** [await fetch(...)] *)
Definition fetch (x : xenv) (r : request) : X reply :=
fun w =>
  let w1 := mkXworld (inner w) (xcalls w ++ [Fetch r]) in
  match http x r with
  | Rejected err => (w1, inl err)
  | Resolved rep => (w1, inr rep)
  end.

(** An environment variable inside a template literal. *)
Definition env_text (v : option string) : string :=
match v with
| Some s => s
| None => "undefined"
end.

(** The headers of every Trakt request. *)
Definition trakt_headers (e : env) : list (string * string) :=
[ ("Content-Type", "application/json");
  ("trakt-api-version", "2");
  ("trakt-api-key", env_text (TRAKT_CLIENT_ID e));
  ("Authorization", "Bearer " +:+ env_text (TRAKT_ACCESS_TOKEN e)) ].

(** [headers.get(name)] *)
Fixpoint header (name : string) (hs : list (string * string)) : option string :=
match hs with
| [] => None
| (k, v) :: rest => if String.eqb k name then Some v else header name rest
end.

End Http.

Notation "x <~ m ;; k" := (Http.xbind m (fun x => k))
  (at level 100, m at next level, right associativity).

(** ** The watchlist routes and [traktModifyWatchlist] in [src/server.mjs] *)

Module Watchlist.
Import JSString JS Runtime Http.

Section WithParser.

Variable JSON_parse : string -> option value.
Variable x : xenv.

(** Lines 205-248. *)
Definition traktModifyWatchlist (action : string)
    (trakt_id imdb slug tmdb : option value) : X value :=
  _ <~ lift_inner (Trakt.ensureTraktConfigured (base x)) ;;
  let url := if String.eqb action "add"
             then "https://api.trakt.tv/sync/watchlist"
             else "https://api.trakt.tv/sync/watchlist/remove" in
  let ids := Trakt.spread_if "trakt" trakt_id ++ Trakt.spread_if "imdb" imdb ++
             Trakt.spread_if "slug" slug ++ Trakt.spread_if "tmdb" tmdb in
  let payload := JObj [("movies", JArr [JObj [("ids", JObj ids)]])] in
  if (length ids =? 0)%nat
  then xthrow (Error "No valid ids provided for Trakt watchlist (need trakt_id, imdb, slug or tmdb)")
  else
    rep <~ fetch x (mkRequest "POST" url (trakt_headers (base x))
                              (Some (JSON_stringify payload))) ;;
    let resp := reply_response rep in
    if negb (ok resp)
    then xthrow (Error ("Trakt watchlist " +:+ action +:+ " error " +:+
                        Number_toString (status resp) +:+ ": " +:+ body resp))
    else if String.eqb (body resp) EmptyString
         then xret (JObj [("ok", JBool true)])
         else match JSON_parse (body resp) with
              | None => xthrow (mkError "SyntaxError" "Unexpected token")
              | Some v => xret v
              end.

(** What the two routes differ in. *)
Record flavour : Type := mkFlavour {
  action : string;        (* "add" | "remove" *)
  doc_type : string;      (* type of the document *)
  doc_state : string;
  doc_source : string;
  default_tag : string
}.

Definition adding : flavour :=
mkFlavour "add" "movie_watchlist" "in_watchlist" "trakt_watchlist_add" "watchlist".

Definition removing : flavour :=
mkFlavour "remove" "movie_watchlist_removed" "removed_from_watchlist"
          "trakt_watchlist_remove" "watchlist_removed".

(** Lines 435-447 and 497-509: the document written for a body [b]. *)
Definition watchlist_document (f : flavour) (b : value) : string :=
  Codec.buildMovieDocument (now (base x))
    {| Codec.type := Some (JStr (doc_type f));
       Codec.title := prop b "title";
       Codec.year := prop b "year";
       Codec.trakt_id := prop b "trakt_id";
       Codec.imdb := prop b "imdb";
       Codec.slug := prop b "slug";
       Codec.tmdb := prop b "tmdb";
       Codec.rating := None;
       Codec.liked := None;
       Codec.state := Some (JStr (doc_state f));
       Codec.source := Some (JStr (doc_source f));
       Codec.tags := Some (nullish_value (prop b "tags") (JArr [JStr (default_tag f)]));
       Codec.comment := prop b "comment" |}.

(** [!(trakt_id || imdb || slug || tmdb)] is false. *)
Definition has_id (b : value) : bool :=
  truthy (prop b "trakt_id") || truthy (prop b "imdb") ||
  truthy (prop b "slug") || truthy (prop b "tmdb").

(** [writeToVector && title], with [writeToVector = true] by default. *)
Definition writes_document (b : value) : bool :=
  truthy (match prop b "writeToVector" with
          | None => Some (JBool true)
          | Some v => Some v
          end) && truthy (prop b "title").

(** Lines 413-472 for [adding], 475-534 for [removing]. *)
Definition watchlist_route (f : flavour) (req_body : option value)
  : X Server.http_response :=
  xtry_catch
    (let b := or_value req_body (JObj []) in
     if negb (has_id b)
     then xret (Server.mkHttp 400
                  (JObj [("error", JStr "Need at least one id: trakt_id, imdb, slug or tmdb")]))
     else
       vectorFileId <~
         (if writes_document b
          then fileId <~ lift_inner (Uploader.uploadTextToVectorStore JSON_parse (base x)
                                       (watchlist_document f b)) ;;
               xret (JStr fileId)
          else xret JNull) ;;
       traktResult <~ traktModifyWatchlist (action f)
                        (prop b "trakt_id") (prop b "imdb") (prop b "slug") (prop b "tmdb") ;;
       xret (Server.mkHttp 200
               (JObj [ ("ok", JBool true);
                       ("action", JStr (action f));
                       ("watchlist", traktResult);
                       ("vectorStoreFileId", vectorFileId) ])))
    (fun err =>
       xret (Server.mkHttp 500 (JObj [ ("error", JStr "internal_error");
                                       ("details", JStr (error_details err)) ]))).

End WithParser.

End Watchlist.

(** ** The [trakt_request] tool in [src/mcp-server.mjs] *)

Module TraktTool.
Import JSString JS Runtime Http.

(** The validated input; [method] is one of GET, POST, PUT, DELETE. *)
Record trakt_args : Type := mkTraktArgs {
  method : string;
  path : string;
  query : option (list (string * string));
  body : option (list (string * value));
  reason : string
}.

(** [traktRequestSchema] *)
Definition traktRequestSchema (a : trakt_args) : bool :=
  (String.eqb (method a) "GET" || String.eqb (method a) "POST" ||
   String.eqb (method a) "PUT" || String.eqb (method a) "DELETE") &&
  (1 <=? String.length (path a))%nat &&
  (5 <=? String.length (reason a))%nat.

Section WithBuiltins.

Variable JSON_parse : string -> option value.
Variable encodeURIComponent : string -> string.
Variable x : xenv.

(** Lines 166-175. *)
Definition query_string (query : option (list (string * string))) : string :=
  match query with
  | Some (kv :: rest) =>
      "?" +:+ join "&" (List.map (fun '(k, v) => encodeURIComponent k +:+ "=" +:+
                                                 encodeURIComponent v)
                                 (kv :: rest))
  | _ => EmptyString
  end.

(** Lines 196-201: [text ? JSON.parse(text) : null], the raw text when
    parsing throws. *)
Definition parse_or_text (text : string) : value :=
  if String.eqb text EmptyString then JNull
  else match JSON_parse text with
       | Some v => v
       | None => JStr text
       end.

(** Lines 203-210. *)
Definition trakt_output (rep : reply) : value :=
  JObj [ ("status", JNum (status (reply_response rep)));
         ("ok", JBool (ok (reply_response rep)));
         ("headers",
          JObj [("x-ratelimit",
                 or_value (option_map JStr (header "x-ratelimit" (reply_headers rep)))
                          (JStr EmptyString))]);
         ("data", parse_or_text (Runtime.body (reply_response rep))) ].

(** Lines 157-221. *)
Definition trakt_request (a : trakt_args) : X Mcp.tool_result :=
  if negb (set_var (TRAKT_CLIENT_ID (base x))) ||
     negb (set_var (TRAKT_ACCESS_TOKEN (base x)))
  then xthrow (Error "Trakt no está configurado en el servidor")
  else if negb (startsWith (path a) "/")
  then xthrow (Error "El path de Trakt debe empezar por '/'")
  else
    let url := "https://api.trakt.tv" +:+ path a +:+ query_string (query a) in
    let payload := match body a with
                   | Some members =>
                       if negb (String.eqb (method a) "GET")
                       then Some (JSON_stringify (JObj members))
                       else None
                   | None => None
                   end in
    rep <~ fetch x (mkRequest (method a) url (trakt_headers (base x)) payload) ;;
    let output := trakt_output rep in
    xret {| Mcp.content_text := JSON_stringify_indented EmptyString output;
            Mcp.structuredContent := output |}.

End WithBuiltins.

End TraktTool.

(** ** The tools of the agent in [src/yen-agent.mjs] and the [/agent/chat] route *)

Module Agent.
Import JSString JS Runtime Http.

Section WithParser.

Variable JSON_parse : string -> option value.
Variable x : xenv.

(** [process.env.YEN_BACKEND_URL || "https://a-movies-production.up.railway.app"] *)
Definition backend_url : string :=
  match YEN_BACKEND_URL x with
  | Some s => if String.eqb s EmptyString
              then "https://a-movies-production.up.railway.app"
              else s
  | None => "https://a-movies-production.up.railway.app"
  end.

(** [text ? JSON.parse(text) : null], [{ raw: text }] when parsing throws. *)
Definition parse_or_raw (text : string) : value :=
  if String.eqb text EmptyString then JNull
  else match JSON_parse text with
       | Some v => v
       | None => JObj [("raw", JStr text)]
       end.

Definition json_headers : list (string * string) :=
  [("Content-Type", "application/json")].

(** The [execute] shared by [yen_mark_seen], [yen_import_trakt_history],
    [yen_watchlist_add], [yen_watchlist_remove] and [yen_trakt]: the
    arguments are posted to a route of the backend, the answer is passed
    on as [{ status, ok, url, data }]. *)
Definition post_to_backend (route : string) (args : value) : X value :=
  let url := backend_url +:+ route in
  rep <~ fetch x (mkRequest "POST" url json_headers (Some (JSON_stringify args))) ;;
  let res := reply_response rep in
  xret (JObj [ ("status", JNum (status res));
               ("ok", JBool (ok res));
               ("url", JStr url);
               ("data", parse_or_raw (body res)) ]).

Definition yen_mark_seen (args : value) : X value := post_to_backend "/mark-seen" args.

Definition yen_import_trakt_history (limit : value) : X value :=
  post_to_backend "/import-trakt-history" (JObj [("limit", limit)]).

Definition yen_watchlist_add (args : value) : X value :=
  post_to_backend "/trakt/watchlist/add" args.

Definition yen_watchlist_remove (args : value) : X value :=
  post_to_backend "/trakt/watchlist/remove" args.

(** The first variant's [yen_trakt]; [bodyJson] is a string or [null]. *)
Definition yen_trakt (method path : string) (bodyJson : value) : X value :=
  post_to_backend "/trakt/proxy"
    (JObj [("method", JStr method); ("path", JStr path); ("bodyJson", bodyJson)]).

(** The third variant's [yen_backend]; [body] is an object or [null]. *)
Definition yen_backend (path method : string) (body : value) : X value :=
  let url := backend_url +:+ path in
  let payload := if String.eqb method "POST" && negb (match body with
                                                       | JNull => true
                                                       | _ => false
                                                       end)
                 then Some (JSON_stringify body)
                 else None in
  rep <~ fetch x (mkRequest method url json_headers payload) ;;
  let res := reply_response rep in
  xret (JObj [ ("status", JNum (status res));
               ("ok", JBool (ok res));
               ("url", JStr url);
               ("data", parse_or_raw (Runtime.body res)) ]).

(** Truthiness of a nullable string argument. *)
Definition given (s : option string) : bool :=
  match s with
  | Some t => negb (String.eqb t EmptyString)
  | None => false
  end.

Definition text_of (s : option string) : string :=
  match s with
  | Some t => t
  | None => EmptyString
  end.

(** The first variant's [yen_memory]; [operation] is "write" or "delete",
    [payloadJson] and [fileId] are strings or [null]. *)
Definition yen_memory (operation : string) (payloadJson fileId : option string) : X value :=
  if String.eqb operation "write" then
    if negb (given payloadJson)
    then xthrow (Error "yen_memory.write requiere payloadJson (string JSON) no nulo.")
    else
      rep <~ fetch x (mkRequest "POST" (backend_url +:+ "/vector/write") json_headers
                        (Some (JSON_stringify
                                 (JObj [("payloadText", JStr (text_of payloadJson))])))) ;;
      let res := reply_response rep in
      xret (JObj [ ("operation", JStr operation);
                   ("status", JNum (status res));
                   ("ok", JBool (ok res));
                   ("data", parse_or_raw (body res)) ])
  else
    if negb (given fileId)
    then xthrow (Error "yen_memory.delete requiere fileId (string) no nulo.")
    else
      rep <~ fetch x (mkRequest "POST" (backend_url +:+ "/vector/delete-file") json_headers
                        (Some (JSON_stringify
                                 (JObj [("file_id", JStr (text_of fileId))])))) ;;
      let res := reply_response rep in
      xret (JObj [ ("operation", JStr operation);
                   ("status", JNum (status res));
                   ("ok", JBool (ok res));
                   ("data", parse_or_raw (body res)) ]).

(** [runYenMoviesAgent(input, options)] (lines 403-415 of the second
    variant); of the object it returns, the member [text]. *)
Definition runYenMoviesAgent (input : string) (sessionId : option value) : X string :=
  let sid := or_value sessionId (JStr "default-session") in
  result <~ (fun w =>
               let w1 := mkXworld (inner w) (xcalls w ++ [RunAgent input sid]) in
               match run_agent x input sid with
               | Rejected err => (w1, inl err)
               | Resolved r => (w1, inr r)
               end) ;;
  let out := nullish_value (nullish (finalOutput result) (output result))
                           (JStr EmptyString) in
  xret (match out with
        | JStr s => s
        | _ => JSON_stringify out
        end).

(** The string a value is, when [typeof v === "string"]. *)
Definition string_of (v : option value) : string :=
  match v with
  | Some (JStr s) => s
  | _ => EmptyString
  end.

(** The [/agent/chat] route of [src/server.mjs] (lines 538-565). *)
Definition agent_chat (req_body : option value) : X Server.http_response :=
  xtry_catch
    (let b := or_value req_body (JObj []) in
     let message := prop b "message" in
     let sessionId := prop b "sessionId" in
     if negb (truthy message) || negb (is_string message)
     then xret (Server.mkHttp 400
                  (JObj [ ("ok", JBool false);
                          ("error", JStr "message is required (string)") ]))
     else
       reply <~ runYenMoviesAgent (string_of message)
                  (Some (or_value sessionId (JStr "default-session"))) ;;
       xret (Server.mkHttp 200 (JObj [ ("ok", JBool true); ("reply", JStr reply) ])))
    (fun err =>
       xret (Server.mkHttp 500 (JObj [ ("ok", JBool false);
                                       ("error", JStr "agent_internal_error");
                                       ("details", JStr (error_details err)) ]))).

End WithParser.

End Agent.

(** ** A [JSON.parse] to run the embedding on text

    The theorems below hold for whatever function stands for [JSON.parse].
    To evaluate the embedding on concrete lines this section gives one: a
    recursive-descent parser for the JSON texts whose numbers are integer
    literals and whose [\u] escapes stay below 128.  On the other texts
    (fractions, exponents, other escapes) it answers [None]. *)

Module JSONText.
Import JSString JS.

Definition is_json_space (c : ascii) : bool :=
  let n := Ascii.nat_of_ascii c in
  (n =? 32)%nat || (n =? 9)%nat || (n =? 10)%nat || (n =? 13)%nat.

Fixpoint skip_space (s : string) : string :=
  match s with
  | EmptyString => EmptyString
  | String c s' => if is_json_space c then skip_space s' else s
  end.

Definition digit_of (c : ascii) : option Z :=
  let n := Ascii.nat_of_ascii c in
  if ((48 <=? n)%nat && (n <=? 57)%nat)%bool then Some (Z.of_nat (n - 48)) else None.

Definition hex_of (c : ascii) : option nat :=
  let n := Ascii.nat_of_ascii c in
  if ((48 <=? n)%nat && (n <=? 57)%nat)%bool then Some (n - 48)%nat
  else if ((97 <=? n)%nat && (n <=? 102)%nat)%bool then Some (n - 87)%nat
  else if ((65 <=? n)%nat && (n <=? 70)%nat)%bool then Some (n - 55)%nat
  else None.

(** The character a one-letter escape stands for. *)
Definition unescape (c : ascii) : option ascii :=
  let n := Ascii.nat_of_ascii c in
  if (n =? 34)%nat then Some c
  else if (n =? 92)%nat then Some c
  else if (n =? 47)%nat then Some c
  else if (n =? 98)%nat then Some (Ascii.ascii_of_nat 8)
  else if (n =? 102)%nat then Some (Ascii.ascii_of_nat 12)
  else if (n =? 110)%nat then Some (Ascii.ascii_of_nat 10)
  else if (n =? 114)%nat then Some (Ascii.ascii_of_nat 13)
  else if (n =? 116)%nat then Some (Ascii.ascii_of_nat 9)
  else None.

(** The rest of a string literal, after the opening quote: the decoded
    content and what follows the closing quote. *)
Fixpoint parse_string (s : string) : option (string * string) :=
  match s with
  | EmptyString => None
  | String c s' =>
      if Ascii.eqb c dquote then Some (EmptyString, s')
      else if Ascii.eqb c backslash then
        match s' with
        | String x r =>
            if Ascii.eqb x "u"%char then
              match r with
              | String h1 (String h2 (String h3 (String h4 r0))) =>
                  match hex_of h1, hex_of h2, hex_of h3, hex_of h4 with
                  | Some a, Some b, Some c3, Some d =>
                      let code := (((a * 16 + b) * 16 + c3) * 16 + d)%nat in
                      if (code <? 128)%nat then
                        match parse_string r0 with
                        | Some (t, rest) =>
                            Some (String (Ascii.ascii_of_nat code) t, rest)
                        | None => None
                        end
                      else None
                  | _, _, _, _ => None
                  end
              | _ => None
              end
            else
              match unescape x, parse_string r with
              | Some y, Some (t, rest) => Some (String y t, rest)
              | _, _ => None
              end
        | EmptyString => None
        end
      else if (Ascii.nat_of_ascii c <? 32)%nat then None
      else match parse_string s' with
           | Some (t, rest) => Some (String c t, rest)
           | None => None
           end
  end.

(** Decimal digits, most significant first. *)
Fixpoint parse_digits (acc : Z) (s : string) : Z * string :=
  match s with
  | EmptyString => (acc, s)
  | String c s' =>
      match digit_of c with
      | Some d => parse_digits (acc * 10 + d) s'
      | None => (acc, s)
      end
  end.

(** After an integer: a fraction or an exponent is outside the fragment. *)
Definition integer_ends (rest : string) : bool :=
  match rest with
  | String c _ =>
      negb (Ascii.eqb c "."%char || Ascii.eqb c "e"%char || Ascii.eqb c "E"%char)
  | EmptyString => true
  end.

Definition parse_natural (s : string) : option (Z * string) :=
  match s with
  | String c s' =>
      match digit_of c with
      | Some 0 =>
          match s' with
          | String c' _ => match digit_of c' with
                           | Some _ => None
                           | None => if integer_ends s' then Some (0, s') else None
                           end
          | EmptyString => Some (0, s')
          end
      | Some d => let '(n, rest) := parse_digits d s' in
                  if integer_ends rest then Some (n, rest) else None
      | None => None
      end
  | EmptyString => None
  end.

Definition parse_integer (s : string) : option (Z * string) :=
  match s with
  | String c s' =>
      if Ascii.eqb c "-"%char
      then match parse_natural s' with
           | Some (n, rest) => Some (- n, rest)
           | None => None
           end
      else parse_natural s
  | EmptyString => None
  end.

(** [obj[k] = v] while the object is built: a repeated key keeps its
    place and takes the last value. *)
Fixpoint set_member (k : string) (v : value) (members : list (string * value))
  : list (string * value) :=
  match members with
  | [] => [(k, v)]
  | (k', v') :: rest =>
      if String.eqb k k' then (k, v) :: rest else (k', v') :: set_member k v rest
  end.

Definition expect (word : string) (v : value) (s : string) : option (value * string) :=
  if startsWith s word
  then Some (v, String.substring (String.length word)
                                 (String.length s - String.length word) s)
  else None.

Fixpoint parse_value (fuel : nat) (s : string) : option (value * string) :=
  match fuel with
  | O => None
  | S fuel' =>
      match skip_space s with
      | EmptyString => None
      | String c r =>
          if Ascii.eqb c "{"%char then
            match skip_space r with
            | String c' r' =>
                if Ascii.eqb c' "}"%char then Some (JObj [], r')
                else match parse_members fuel' r [] with
                     | Some (members, rest) => Some (JObj members, rest)
                     | None => None
                     end
            | EmptyString => None
            end
          else if Ascii.eqb c "["%char then
            match skip_space r with
            | String c' r' =>
                if Ascii.eqb c' "]"%char then Some (JArr [], r')
                else match parse_elements fuel' r with
                     | Some (items, rest) => Some (JArr items, rest)
                     | None => None
                     end
            | EmptyString => None
            end
          else if Ascii.eqb c dquote then
            match parse_string r with
            | Some (t, rest) => Some (JStr t, rest)
            | None => None
            end
          else if Ascii.eqb c "t"%char then expect "true" (JBool true) (String c r)
          else if Ascii.eqb c "f"%char then expect "false" (JBool false) (String c r)
          else if Ascii.eqb c "n"%char then expect "null" JNull (String c r)
          else match parse_integer (String c r) with
               | Some (n, rest) => Some (JNum n, rest)
               | None => None
               end
      end
  end
with parse_elements (fuel : nat) (s : string) : option (list value * string) :=
  match fuel with
  | O => None
  | S fuel' =>
      match parse_value fuel' s with
      | Some (v, r) =>
          match skip_space r with
          | String c r' =>
              if Ascii.eqb c ","%char then
                match parse_elements fuel' r' with
                | Some (vs, rest) => Some (v :: vs, rest)
                | None => None
                end
              else if Ascii.eqb c "]"%char then Some ([v], r')
              else None
          | EmptyString => None
          end
      | None => None
      end
  end
with parse_members (fuel : nat) (s : string) (acc : list (string * value))
  : option (list (string * value) * string) :=
  match fuel with
  | O => None
  | S fuel' =>
      match skip_space s with
      | String q r =>
          if Ascii.eqb q dquote then
            match parse_string r with
            | Some (k, r1) =>
                match skip_space r1 with
                | String c r2 =>
                    if Ascii.eqb c ":"%char then
                      match parse_value fuel' r2 with
                      | Some (v, r3) =>
                          let acc' := set_member k v acc in
                          match skip_space r3 with
                          | String c' r4 =>
                              if Ascii.eqb c' ","%char then parse_members fuel' r4 acc'
                              else if Ascii.eqb c' "}"%char then Some (acc', r4)
                              else None
                          | EmptyString => None
                          end
                      | None => None
                      end
                    else None
                | EmptyString => None
                end
            | None => None
            end
          else None
      | EmptyString => None
      end
  end.

(** [JSON.parse(text)] on the fragment. *)
Definition JSON_parse (text : string) : option value :=
  match parse_value (2 * String.length text + 2) text with
  | Some (v, rest) =>
      match skip_space rest with
      | EmptyString => Some v
      | String _ _ => None
      end
  | None => None
  end.

(** [Number(s)] on the strings that are empty, blank or a decimal integer;
    NaN on the others. *)
Definition StringToNumber (s : string) : number :=
  match trim s with
  | EmptyString => Finite 0
  | t => match parse_integer t with
         | Some (n, EmptyString) => Finite (inject_Z n)
         | _ => NaN
         end
  end.

End JSONText.

(** ** Sample records, stores and worlds *)

Module Samples.
Import JSString JS Runtime.

Definition answer (text : string) : outcome response :=
Resolved (mkResponse true 200 text).

Definition inception : value := JObj [("title", JStr "Inception")].

Definition tagged_a : value :=
JObj [("title", JStr "Alien"); ("tags", JArr [JStr "a"])].

Definition tagged_abc : value :=
JObj [("title", JStr "Alien"); ("tags", JArr [JStr "a"; JStr "b"; JStr "c"])].

(** [n] copies of a line, each ended by a line feed. *)
Fixpoint copies (n : nat) (line : string) : string :=
match n with
| O => EmptyString
| S n' => line +:+ newline +:+ copies n' line
end.

(** The body of the vendor's file listing for the given file ids. *)
Definition listing (ids : list string) : string :=
JSON_stringify (JObj [("data", JArr (List.map (fun id => JObj [("id", JStr id)]) ids))]).

Fixpoint content_of (id : string) (files : list (string * string)) : outcome response :=
match files with
| [] => Resolved (mkResponse false 404 "No such File object")
| (id', text) :: rest => if String.eqb id id' then answer text else content_of id rest
end.

(** A configured process in front of a vendor that holds [files] and
    answers every call with success. *)
Definition store (files : list (string * string)) : env :=
{| OPENAI_API_KEY := Some "sk-test";
   VECTOR_STORE_ID := Some "vs_1";
   TRAKT_CLIENT_ID := Some "client";
   TRAKT_ACCESS_TOKEN := Some "token";
   now := "2025-01-01T00:00:00.000Z";
   tmpPath := "/tmp/yen-movie-1700000000000-k3x9.txt";
   fetch_list := answer (listing (List.map fst files));
   fetch_content := fun id => content_of id files;
   fs_writeFile := fun _ _ => None;
   fs_unlink := fun _ => None;
   files_create := fun _ => Resolved "file-new";
   fetch_attach := fun _ => answer (JSON_stringify (JObj [("id", JStr "file-new")]));
   trakt_add_history := fun _ => answer EmptyString;
   trakt_get_history := fun _ => answer "[]" |}.

(** One file of thirty lines that all hold the record [inception],
    followed by a file whose only line is the JSON literal [null]. *)
Definition thirty_matches : env :=
store [ ("file-1", copies 30 (JSON_stringify inception)); ("file-2", "null") ].

(** Two files of three lines each; every line holds [inception]. *)
Definition two_files : env :=
store [ ("file-1", copies 3 (JSON_stringify inception));
        ("file-2", copies 3 (JSON_stringify inception)) ].

(** One file whose only line is the JSON literal [null]. *)
Definition null_line : env := store [ ("file-1", "null") ].

(** The vendor answers, the local unlink is refused. *)
Definition unlink_fails : env :=
with_unlink (fun _ => Some (mkError "Error" "EPERM: operation not permitted, unlink"))
            (store []).

(** The file is created at the vendor, attaching it is refused. *)
Definition attach_fails : env :=
with_attach (fun _ => Resolved (mkResponse false 500 "server_error")) (store []).

(** The vendor answers, Trakt refuses the history entry. *)
Definition trakt_fails : env :=
with_trakt_add (fun _ => Resolved (mkResponse false 502 "Bad Gateway")) (store []).

(** A request body of [/mark-seen] with a title and one identifier. *)
Definition seen_inception : value :=
JObj [("title", JStr "Inception"); ("year", JNum 2010); ("imdb", JStr "tt1375666")].

(** A request body of [/mark-seen] without title. *)
Definition seen_untitled : value :=
JObj [("year", JNum 2010); ("imdb", JStr "tt1375666")].

(** Arguments of [memory_write] that pass its schema. *)
Definition note : Mcp.write_args :=
Mcp.mkWriteArgs "mood" "wants slow-burn space horror" "chat" (Some ["mood"]).

(** Nothing on disk, nothing at the vendor, no call made. *)
Definition fresh : world :=
{| fs := ∅; vendor_files := []; attached := []; calls := [] |}.

End Samples.

(** ** Sample runs of the routes and tools *)

Module MoreSamples.
Import JSString JS Runtime Http.

(** Two entries of a Trakt history; the second has no title. *)
Definition watched : list value :=
[ JObj [ ("rating", JNum 9);
         ("movie", JObj [ ("title", JStr "Alien"); ("year", JNum 1979);
                          ("ids", JObj [("trakt", JNum 295); ("imdb", JStr "tt0078748")]) ]) ];
  JObj [ ("movie", JObj [("year", JNum 1982)]) ] ].

(** The process of [Samples.store] in front of a Trakt that answers the
    history request with [history]. *)
Definition trakt_history (history : list value) : env :=
mkEnv (Some "sk-test") (Some "vs_1") (Some "client") (Some "token")
      (now (Samples.store [])) (tmpPath (Samples.store []))
      (fetch_list (Samples.store [])) (fetch_content (Samples.store []))
      (fs_writeFile (Samples.store [])) (fs_unlink (Samples.store []))
      (files_create (Samples.store [])) (fetch_attach (Samples.store []))
      (trakt_add_history (Samples.store []))
      (fun _ => Samples.answer (JSON_stringify (JArr history))).

(** The same process without Trakt credentials. *)
Definition no_trakt : env :=
mkEnv (Some "sk-test") (Some "vs_1") None None
      (now (Samples.store [])) (tmpPath (Samples.store []))
      (fetch_list (Samples.store [])) (fetch_content (Samples.store []))
      (fs_writeFile (Samples.store [])) (fs_unlink (Samples.store []))
      (files_create (Samples.store [])) (fetch_attach (Samples.store []))
      (trakt_add_history (Samples.store [])) (trakt_get_history (Samples.store [])).

(** Every outbound request is answered 200 with the given text; the
    agent answers with the given final output. *)
Definition online (e : env) (text : string) (final : option value) : xenv :=
{| base := e;
   YEN_BACKEND_URL := None;
   http := fun _ => Resolved (mkReply (mkResponse true 200 text) []);
   run_agent := fun _ _ => Resolved (mkAgentResult final None) |}.

(** Every outbound request is answered 503; the agent run is rejected. *)
Definition offline (e : env) : xenv :=
{| base := e;
   YEN_BACKEND_URL := None;
   http := fun _ => Resolved (mkReply (mkResponse false 503 "Service Unavailable") []);
   run_agent := fun _ _ => Rejected (Error "model overloaded") |}.

(** No request sent yet. *)
Definition start : xworld := mkXworld Samples.fresh [].

(** A request body of the watchlist routes. *)
Definition watch_alien : value :=
JObj [("title", JStr "Alien"); ("imdb", JStr "tt0078748")].

(** The same body with the flag set to [null]. *)
Definition watch_alien_null_flag : value :=
JObj [("title", JStr "Alien"); ("imdb", JStr "tt0078748"); ("writeToVector", JNull)].

(** Arguments of [trakt_request] that read the history. *)
Definition read_history : TraktTool.trakt_args :=
TraktTool.mkTraktArgs "GET" "/sync/history/movies" (Some [("limit", "5")])
                      (Some [("note", JStr "ignored")]) "list what was seen".

(** Arguments of [trakt_request] whose path names another host. *)
Definition other_host : TraktTool.trakt_args :=
TraktTool.mkTraktArgs "GET" "@evil.example/steal" None None "go elsewhere".

(** [encodeURIComponent] on texts of unreserved characters. *)
Definition unreserved (s : string) : string := s.

(** The arguments the agent gives [yen_mark_seen] when it leaves the
    synchronisation to the default. *)
Definition seen_by_agent : value :=
JObj [ ("title", JStr "Alien"); ("year", JNum 1979); ("trakt_id", JNull);
       ("imdb", JStr "tt0078748"); ("slug", JNull); ("tmdb", JNull);
       ("rating", JNull); ("liked", JBool true); ("tags", JNull);
       ("comment", JNull); ("syncTrakt", JNull) ].

(** A body of [/agent/chat]. *)
Definition chat_hello : value := JObj [("message", JStr "hola")].

(** A body of [/agent/chat] whose message is not a string. *)
Definition chat_number : value := JObj [("message", JNum 7)].

(** A vector store whose only file is the line [memory_write] writes
    for [Samples.note]. *)
Definition holds_note : env :=
Samples.store [("file-1", Mcp.write_document (Samples.store []) Samples.note)].

(** A vector store whose only file is the document [/mark-seen] writes
    for [Samples.seen_inception]. *)
Definition holds_movie : env :=
Samples.store [("file-1", Server.seen_document (Samples.store []) Samples.seen_inception)].

(** The movie [/mark-seen] makes of [Samples.seen_inception]. *)
Definition inception_seen : Codec.movie :=
{| Codec.type := Some (JStr "movie_seen");
   Codec.title := Some (JStr "Inception");
   Codec.year := Some (JNum 2010);
   Codec.trakt_id := None;
   Codec.imdb := Some (JStr "tt1375666");
   Codec.slug := None;
   Codec.tmdb := None;
   Codec.rating := None;
   Codec.liked := None;
   Codec.state := Some (JStr "seen");
   Codec.source := Some (JStr "mark_seen_trakt+vector");
   Codec.tags := None;
   Codec.comment := None |}.

End MoreSamples.

(** * Properties *)

(** ** Strings *)

Section StringFacts.
Import JSString.

Lemma append_cons (c : ascii) (s t : string) :
  String c s +:+ t = String c (s +:+ t).
Proof. reflexivity. Qed.

Lemma append_nil_l (s : string) : EmptyString +:+ s = s.
Proof. reflexivity. Qed.

Lemma append_nil_r (s : string) : s +:+ EmptyString = s.
Proof.
  induction s as [|c s IH]; [reflexivity |].
  rewrite append_cons. f_equal. exact IH.
Qed.

Lemma append_assoc (a b c : string) : (a +:+ b) +:+ c = a +:+ (b +:+ c).
Proof.
  induction a as [|x a IH]; [reflexivity |].
  rewrite !append_cons. f_equal. exact IH.
Qed.

Lemma startsWith_spec (hay needle : string) :
  startsWith hay needle = true <-> exists rest, hay = needle +:+ rest.
Proof.
  revert hay. induction needle as [|a n IH]; intros hay.
  - destruct hay; simpl; (split; [intros _; eexists; reflexivity | reflexivity]).
  - destruct hay as [|b h]; simpl.
    + split; [discriminate | intros [rest H]; discriminate].
    + destruct (Ascii.eqb a b) eqn:Hab.
      * apply Ascii.eqb_eq in Hab. subst b. rewrite IH.
        split; intros [rest H]; exists rest.
        -- rewrite append_cons. now rewrite H.
        -- rewrite append_cons in H. now inversion H.
      * split; [discriminate |].
        intros [rest H]. rewrite append_cons in H. inversion H. subst.
        rewrite Ascii.eqb_refl in Hab. discriminate.
Qed.

(** [includes] decides the occurrence as a contiguous substring. *)
Lemma includes_spec (hay needle : string) :
  includes hay needle = true <->
  exists before after, hay = before +:+ needle +:+ after.
Proof.
  induction hay as [|c h IH].
  - simpl. destruct needle as [|a n]; simpl.
    + split; [intros _; now exists EmptyString, EmptyString | reflexivity].
    + split; [discriminate |].
      intros [[|x before] [after H]];
        rewrite ?append_nil_l, ?append_cons in H; discriminate.
  - cbn [includes]. destruct (startsWith (String c h) needle) eqn:Hs.
    + split; [intros _ | reflexivity].
      apply startsWith_spec in Hs. destruct Hs as [rest Hr].
      exists EmptyString, rest. exact Hr.
    + rewrite IH. split.
      * intros [before [after H]]. exists (String c before), after.
        rewrite append_cons. now rewrite H.
      * intros [[|x before] [after H]].
        -- rewrite append_nil_l in H.
           assert (startsWith (String c h) needle = true) as Hc
             by (apply startsWith_spec; now exists after).
           rewrite Hc in Hs. discriminate.
        -- rewrite append_cons in H. inversion H. now exists before, after.
Qed.

Lemma includes_empty (hay : string) : includes hay EmptyString = true.
Proof. destruct hay; reflexivity. Qed.

Lemma no_newline_app (a b : string) :
  no_newline (a +:+ b) = no_newline a && no_newline b.
Proof.
  induction a as [|c a IH]; [reflexivity |].
  rewrite append_cons. simpl. rewrite IH. now rewrite andb_assoc.
Qed.

Lemma no_newline_join (sep : string) (parts : list string) :
  no_newline sep = true ->
  Forall (fun p => no_newline p = true) parts ->
  no_newline (join sep parts) = true.
Proof.
  intros Hsep Hall. induction Hall as [|p ps Hp Hps IH]; [reflexivity |].
  destruct ps as [|q ps]; [exact Hp |].
  change (join sep (p :: q :: ps)) with (p +:+ sep +:+ join sep (q :: ps)).
  rewrite !no_newline_app, Hp, Hsep, IH. reflexivity.
Qed.

(** A text without line feed, followed by one, is one line and an empty
    remainder. *)
Lemma split_lines_one_line (s : string) :
  no_newline s = true -> split_lines (s +:+ newline) = [s; EmptyString].
Proof.
  induction s as [|c s IH]; intros H; [reflexivity |].
  simpl in H. apply andb_true_iff in H. destruct H as [Hc Hs].
  rewrite append_cons. simpl. apply negb_true_iff in Hc.
  rewrite Hc, (IH Hs). reflexivity.
Qed.

Lemma trimEnd_all_space (s : string) :
  all_space s = true -> trimEnd s = EmptyString.
Proof.
  induction s as [|c s IH]; simpl; [reflexivity |].
  intros H. apply andb_true_iff in H. destruct H as [Hc Hs].
  now rewrite (IH Hs), Hc.
Qed.

Lemma trimStart_all_space (s : string) :
  all_space s = true -> trimStart s = EmptyString.
Proof.
  induction s as [|c s IH]; simpl; [reflexivity |].
  intros H. apply andb_true_iff in H. destruct H as [Hc Hs].
  now rewrite Hc, (IH Hs).
Qed.

(** A line of white space only has an empty [trim]. *)
Lemma trim_all_space (s : string) :
  all_space s = true -> trim s = EmptyString.
Proof.
  intros H. unfold trim. now rewrite (trimStart_all_space s H).
Qed.

End StringFacts.

(** ** JSON values and [JSON.stringify] *)

Section ValueFacts.
Import JSString JS.

(** Induction on a value, with the hypothesis on every element of an
    array and on every member of an object. *)
Lemma value_ind_nested (P : value -> Prop) :
  P JNull ->
  (forall b, P (JBool b)) ->
  (forall n, P (JNum n)) ->
  (forall s, P (JStr s)) ->
  (forall items, Forall P items -> P (JArr items)) ->
  (forall members, Forall (fun kv => P (snd kv)) members -> P (JObj members)) ->
  forall v, P v.
Proof.
  intros HN HB HZ HS HA HO. fix IH 1.
  intros [ | b | n | s | items | members].
  - exact HN.
  - apply HB.
  - apply HZ.
  - apply HS.
  - apply HA. induction items as [|x xs IHxs]; constructor; [apply IH | exact IHxs].
  - apply HO. induction members as [|[k x] ms IHms]; constructor;
      [apply IH | exact IHms].
Qed.

Lemma no_newline_uint (d : Decimal.uint) :
  no_newline (NilEmpty.string_of_uint d) = true.
Proof. induction d; simpl; auto. Qed.

Lemma no_newline_Number_toString (n : Z) : no_newline (Number_toString n) = true.
Proof.
  unfold Number_toString, NilZero.string_of_int, NilZero.string_of_uint.
  destruct (Z.to_int n) as [d | d]; destruct d; simpl; auto using no_newline_uint.
Qed.

Lemma no_newline_escape_char (c : ascii) : no_newline (escape_char c) = true.
Proof.
  destruct c as [[|] [|] [|] [|] [|] [|] [|] [|]]; vm_compute; reflexivity.
Qed.

Lemma no_newline_escape (s : string) : no_newline (escape s) = true.
Proof.
  induction s as [|c s IH]; [reflexivity |].
  simpl. rewrite no_newline_app, no_newline_escape_char, IH. reflexivity.
Qed.

Lemma no_newline_quote (s : string) : no_newline (quote s) = true.
Proof.
  unfold quote. cbn [no_newline]. rewrite no_newline_app, no_newline_escape.
  reflexivity.
Qed.

(** The serialised form of a value never holds a raw line feed: inside
    string literals it is written as a backslash and the letter n. *)
Lemma no_newline_JSON_stringify (v : value) : no_newline (JSON_stringify v) = true.
Proof.
  induction v as [ | b | n | s | items IH | members IH ] using value_ind_nested.
  - reflexivity.
  - destruct b; reflexivity.
  - apply no_newline_Number_toString.
  - apply no_newline_quote.
  - cbn [JSON_stringify]. rewrite !no_newline_app.
    rewrite no_newline_join; [reflexivity | reflexivity |].
    induction IH as [|x xs Hx Hxs IHxs]; constructor; assumption.
  - cbn [JSON_stringify]. rewrite !no_newline_app.
    rewrite no_newline_join; [reflexivity | reflexivity |].
    induction IH as [|[k x] ms Hx Hms IHms]; constructor; [|assumption].
    rewrite !no_newline_app, no_newline_quote. simpl in Hx. rewrite Hx. reflexivity.
Qed.

(** Reading a member of anything but [null] does not throw. *)
Lemma get_not_null (v : value) (k : string) : v <> JNull -> get v k = inr (prop v k).
Proof. intros Hnn. destruct v; try reflexivity. now elim Hnn. Qed.

End ValueFacts.

(** ** The scanning loops of the memory search *)

Section SearchFacts.
Import JSString JS Runtime Search.

Variable toLowerCase : string -> string.
Variable JSON_parse : string -> option value.
Variable e : env.
Variables (queryLower : string) (maxResults : Z)
          (requiredTags : option (list string)).

Local Abbreviation scan_lines :=
  (scan_lines toLowerCase JSON_parse queryLower maxResults requiredTags).
Local Abbreviation scan_files :=
  (scan_files toLowerCase JSON_parse e queryLower maxResults requiredTags).
Local Abbreviation line_match := (line_match toLowerCase JSON_parse queryLower requiredTags).
Local Abbreviation all_matches := (all_matches toLowerCase JSON_parse e queryLower requiredTags).

(** The only record on which the loop body throws is [null]. *)
Lemma scan_doc_throws (doc : value) (err : error) :
  scan_doc toLowerCase queryLower requiredTags doc = inl err -> doc = JNull.
Proof.
  unfold scan_doc. destruct doc; simpl; try reflexivity;
    repeat match goal with
           | |- context [if ?b then _ else _] => destruct b
           end; discriminate.
Qed.

Lemma full_stops_lines (lines : list string) (results : list SearchResult) :
  maxResults <= Z.of_nat (length results) -> scan_lines lines results = inr results.
Proof.
  intros H. destruct lines as [|line rest]; [reflexivity |].
  simpl. apply Z.geb_le in H. now rewrite H.
Qed.

Lemma full_stops_files (files : list value) (sent : list call)
    (results : list SearchResult) :
  maxResults <= Z.of_nat (length results) ->
  scan_files files sent results = (sent, inr results).
Proof.
  intros H. destruct files as [|file rest]; [reflexivity |].
  simpl. apply Z.geb_le in H. now rewrite H.
Qed.

(** The line loop over a concatenation is the loop over the first part
    followed by the loop over the second. *)
Lemma scan_lines_app (l1 l2 : list string) (results : list SearchResult) :
  scan_lines (l1 ++ l2) results =
  match scan_lines l1 results with
  | inl err => inl err
  | inr results' => scan_lines l2 results'
  end.
Proof.
  revert results. induction l1 as [|line rest IH]; intros results; [reflexivity |].
  simpl. destruct (Z.of_nat (length results) >=? maxResults) eqn:Hfull.
  - symmetry. apply full_stops_lines. now apply Z.geb_le.
  - destruct (JSON_parse line) as [doc|]; [|apply IH].
    destruct (scan_doc toLowerCase queryLower requiredTags doc) as [err|[r|]];
      [reflexivity | apply IH | apply IH].
Qed.

(** The same for the file loop, requests included. *)
Lemma scan_files_app (f1 f2 : list value) (sent : list call)
    (results : list SearchResult) :
  scan_files (f1 ++ f2) sent results =
  match scan_files f1 sent results with
  | (sent', inl err) => (sent', inl err)
  | (sent', inr results') => scan_files f2 sent' results'
  end.
Proof.
  revert sent results.
  induction f1 as [|file rest IH]; intros sent results; [reflexivity |].
  simpl. destruct (Z.of_nat (length results) >=? maxResults) eqn:Hfull.
  - symmetry. apply full_stops_files. now apply Z.geb_le.
  - destruct (get file "id") as [err|id]; [reflexivity |].
    destruct (fetch_content e (ToString_opt id)) as [err|fileResp]; [reflexivity |].
    destruct (negb (ok fileResp)); [apply IH |].
    destruct (String.eqb (body fileResp) EmptyString); [apply IH |].
    destruct (Search.scan_lines _ _ _ _ _ _ results) as [err|results'];
      [reflexivity | apply IH].
Qed.

Lemma take_budget {A} (results found : list A) (r : A) (m : nat) :
  (length results < m)%nat ->
  (results ++ [r]) ++ firstn (m - length (results ++ [r])) found =
  results ++ firstn (m - length results) (r :: found).
Proof.
  intros H. rewrite length_app. simpl.
  replace (m - length results)%nat with (S (m - (length results + 1))) by lia.
  simpl. now rewrite <- app_assoc.
Qed.

(** On quiet lines the loop returns, and it appends the first matches the
    budget still allows. *)
Lemma scan_lines_quiet (lines : list string) (results : list SearchResult) :
  Forall (quiet_line JSON_parse) lines ->
  scan_lines lines results =
  inr (results ++ firstn (Z.to_nat maxResults - length results)
                         (omap line_match lines)).
Proof.
  intros Hq. revert results.
  induction Hq as [|line rest Hline Hrest IH]; intros results.
  - simpl. now rewrite firstn_nil, app_nil_r.
  - cbn [Search.scan_lines].
    destruct (Z.of_nat (length results) >=? maxResults) eqn:Hfull.
    + apply Z.geb_le in Hfull.
      replace (Z.to_nat maxResults - length results)%nat with 0%nat by lia.
      simpl. now rewrite app_nil_r.
    + assert (length results < Z.to_nat maxResults)%nat as Hlt.
      { destruct (Z.geb_spec (Z.of_nat (length results)) maxResults); [discriminate | lia]. }
      cbn [omap list_omap]. unfold Search.line_match at 1.
      destruct (JSON_parse line) as [doc|] eqn:Hparse; [|apply IH].
      destruct (scan_doc toLowerCase queryLower requiredTags doc) as [err|[r|]] eqn:Hdoc.
      * apply scan_doc_throws in Hdoc. subst doc. now elim Hline.
      * rewrite IH. f_equal. now apply take_budget.
      * apply IH.
Qed.

Lemma lines_of_empty : lines_of EmptyString = [].
Proof. reflexivity. Qed.

Lemma take_take_budget {A} (results found later : list A) (m : nat) :
  let results' := results ++ firstn (m - length results) found in
  results' ++ firstn (m - length results') later =
  results ++ firstn (m - length results) (found ++ later).
Proof.
  intros results'. subst results'.
  rewrite firstn_app, <- app_assoc. do 2 f_equal.
  rewrite length_app, length_firstn. f_equal. lia.
Qed.

(** On quiet files the search loop returns the first matches, in
    file-listing-then-line order, that the budget allows. *)
Lemma scan_files_quiet (files : list value) (sent : list call)
    (results : list SearchResult) :
  Forall (quiet_file JSON_parse e) files ->
  snd (scan_files files sent results) =
  inr (results ++ firstn (Z.to_nat maxResults - length results) (all_matches files)).
Proof.
  intros Hq. revert sent results.
  induction Hq as [|file rest Hfile Hrest IH]; intros sent results.
  - simpl. now rewrite firstn_nil, app_nil_r.
  - cbn [Search.scan_files].
    destruct (Z.of_nat (length results) >=? maxResults) eqn:Hfull.
    + apply Z.geb_le in Hfull.
      replace (Z.to_nat maxResults - length results)%nat with 0%nat by lia.
      simpl. now rewrite app_nil_r.
    + destruct Hfile as [Hnn [fileResp [Hfetch Hlines]]].
      assert (get file "id" = inr (prop file "id")) as Hget
        by (destruct file; try reflexivity; now elim Hnn).
      rewrite Hget, Hfetch.
      unfold Search.all_matches. cbn [flat_map]. fold (all_matches rest).
      unfold file_lines at 1. rewrite Hfetch.
      destruct (ok fileResp); cbn [negb].
      * destruct (String.eqb (body fileResp) EmptyString) eqn:Hempty.
        -- apply String.eqb_eq in Hempty. rewrite Hempty, lines_of_empty.
           simpl. apply IH.
        -- rewrite (scan_lines_quiet _ _ Hlines), IH.
           f_equal. apply take_take_budget.
      * simpl. apply IH.
Qed.

End SearchFacts.

(** ** The per-record filters of the memory search *)

Section RecordFacts.
Import JSString JS Runtime Search.

Lemma array_includes_spec (tags : list value) (t : string) :
  array_includes tags t = true <-> In (JStr t) tags.
Proof.
  unfold array_includes. rewrite existsb_exists. split.
  - intros [v [Hin Hv]]. destruct v; try discriminate.
    apply String.eqb_eq in Hv. now subst.
  - intros Hin. exists (JStr t). split; [exact Hin | apply String.eqb_refl].
Qed.

Lemma hasAll_spec (requiredTags : list string) (tags : list value) :
  hasAll requiredTags tags = true <->
  forall t, In t requiredTags -> In (JStr t) tags.
Proof.
  unfold hasAll. rewrite forallb_forall.
  split; intros H t Ht; apply array_includes_spec; now apply H.
Qed.

Lemma tag_filter_spec (filterTags : list string) (tags : list value) :
  tag_filter (requiredTags_of (Some filterTags)) tags = true <->
  forall t, In t filterTags -> In (JStr t) tags.
Proof.
  destruct filterTags as [|t ts].
  - simpl. split; [intros _ t [] | reflexivity].
  - apply hasAll_spec.
Qed.

(** What the body of the line loop does with a record that is not [null]. *)
Lemma scan_doc_cases (toLowerCase : string -> string) (queryLower : string)
    (requiredTags : option (list string)) (doc : value) :
  doc <> JNull ->
  let tags := array_or_empty (prop doc "tags") in
  scan_doc toLowerCase queryLower requiredTags doc =
  if tag_filter requiredTags tags && includes (haystack toLowerCase doc tags) queryLower
  then inr (Some (result_of doc tags))
  else inr None.
Proof.
  intros Hnn tags. unfold scan_doc.
  rewrite (get_not_null doc "tags" Hnn).
  fold tags. destruct (tag_filter requiredTags tags); [|reflexivity].
  simpl. now destruct (includes (haystack toLowerCase doc tags) queryLower).
Qed.

(** [${doc.k || ""}] is what the field contributes. *)
Lemma or_value_field_text (doc : value) (k : string) :
  ToString (or_value (prop doc k) (JStr EmptyString)) = field_text doc k.
Proof.
  unfold field_text, missing, or_value, js_or.
  destruct (prop doc k) as [v|]; [|reflexivity].
  destruct (truthy (Some v)); reflexivity.
Qed.

(** The haystack of the code is the one the specification describes. *)
Lemma haystack_is_spec (toLowerCase : string -> string) (doc : value)
    (tags : list value) :
  haystack toLowerCase doc tags = haystack_spec toLowerCase doc tags.
Proof.
  unfold haystack, haystack_text, haystack_spec. cbn [join].
  now rewrite !or_value_field_text.
Qed.

Lemma toLowerCase_ascii_app (a b : string) :
  toLowerCase_ascii (a +:+ b) = toLowerCase_ascii a +:+ toLowerCase_ascii b.
Proof.
  induction a as [|c a IH]; [reflexivity |].
  rewrite append_cons. simpl. rewrite append_cons. now rewrite IH.
Qed.

(** The fold of the ASCII range is a function [toLowerCase] can be. *)
Lemma toLowerCase_ascii_folds : folds_ascii toLowerCase_ascii.
Proof.
  split; [reflexivity |].
  intros a rest _. exists (toLowerCase_ascii rest). apply toLowerCase_ascii_app.
Qed.

End RecordFacts.

(** ** Claims on the per-record filters *)

Section RecordClaims.
Import JSString JS Runtime Search.




(** C2.  With a non-empty filterTags list a record is retained by the tag
    filter exactly when every requested tag is an element of its tags
    array; a record the filter rejects is dropped.  Tags ["a"] do not match
    filter_tags ["a","b"]; tags ["a","b","c"] do. *)
Theorem tag_filter_is_conjunctive (toLowerCase : string -> string) :
  (forall (filterTags : list string) (tags : list value),
      filterTags <> [] ->
      (tag_filter (requiredTags_of (Some filterTags)) tags = true <->
       forall t, In t filterTags -> In (JStr t) tags)) /\
  (forall (queryLower : string) (filterTags : list string) (doc : value),
      doc <> JNull ->
      tag_filter (requiredTags_of (Some filterTags))
                 (array_or_empty (prop doc "tags")) = false ->
      scan_doc toLowerCase queryLower (requiredTags_of (Some filterTags)) doc = inr None) /\
  tag_filter (requiredTags_of (Some ["a"; "b"]))
             (array_or_empty (prop Samples.tagged_a "tags")) = false /\
  scan_doc toLowerCase EmptyString (requiredTags_of (Some ["a"; "b"])) Samples.tagged_a
  = inr None /\
  tag_filter (requiredTags_of (Some ["a"; "b"]))
             (array_or_empty (prop Samples.tagged_abc "tags")) = true /\
  (exists r, scan_doc toLowerCase EmptyString (requiredTags_of (Some ["a"; "b"]))
                      Samples.tagged_abc
             = inr (Some r)).
Proof.
  split; [|split; [|split; [|split; [|split]]]].
  - intros filterTags tags _. apply tag_filter_spec.
  - intros queryLower filterTags doc Hnn Hf.
    rewrite (scan_doc_cases _ _ _ _ Hnn). cbv zeta. now rewrite Hf.
  - reflexivity.
  - reflexivity.
  - reflexivity.
  - eexists. rewrite scan_doc_cases by discriminate. cbv zeta.
    assert (tag_filter (requiredTags_of (Some ["a"; "b"]))
                       (array_or_empty (prop Samples.tagged_abc "tags")) = true) as ->
      by reflexivity.
    rewrite includes_empty. reflexivity.
Qed.

(** The filter ["a","b"] on the tags ["a","b","c"], through the theorem. *)
Lemma tag_filter_witness :
  ["a"; "b"] <> ([] : list string) /\
  tag_filter (requiredTags_of (Some ["a"; "b"])) [JStr "a"; JStr "b"; JStr "c"] = true.
Proof.
  assert (["a"; "b"] <> ([] : list string)) as Hne by discriminate.
  split; [exact Hne |].
  apply (proj1 (tag_filter_is_conjunctive toLowerCase_ascii)
               ["a"; "b"] [JStr "a"; JStr "b"; JStr "c"] Hne).
  intros t [<- | [<- | []]]; simpl; auto.
Defined.

End RecordClaims.

(** ** Claims on the scan as a whole *)

Section ScanClaims.
Import JSString JS Runtime Search.

Lemma slice0_firstn {A} (l : list A) (m : Z) :
  0 <= m -> slice0 (firstn (Z.to_nat m) l) m = firstn (Z.to_nat m) l.
Proof.
  intros Hm. unfold slice0.
  destruct (Z.ltb_spec m 0) as [Hneg | _]; [lia |].
  rewrite firstn_firstn. f_equal. lia.
Qed.

Lemma maxResults_of_valid (topK : option Z) : valid_topK topK -> 1 <= maxResults_of topK.
Proof.
  destruct topK as [k|]; simpl; [|lia].
  intros Hk. destruct (Z.eqb_spec k 0); lia.
Qed.

Lemma score_of_matches (toLowerCase : string -> string)
    (JSON_parse : string -> option value) (e : env)
    (queryLower : string) (requiredTags : option (list string)) (files : list value) :
  Forall (fun r => score r = 1) (all_matches toLowerCase JSON_parse e
      queryLower requiredTags files).
Proof.
  unfold all_matches. rewrite Forall_forall. intros r Hr.
  apply list_elem_of_In, in_flat_map in Hr. destruct Hr as [file [_ Hr]].
  apply list_elem_of_In, list_elem_of_omap in Hr. destruct Hr as [line [_ Hline]].
  unfold line_match in Hline.
  destruct (JSON_parse line) as [doc|]; [|discriminate].
  unfold scan_doc in Hline.
  destruct (get doc "tags") as [err|t]; [discriminate |].
  destruct (negb _); [discriminate |].
  destruct (negb _); [discriminate |].
  inversion Hline. reflexivity.
Qed.

(** Once the quiet files scanned so far hold enough matches, the files
    that follow are not requested and change nothing. *)
Lemma collect_stops (toLowerCase : string -> string) (JSON_parse : string -> option value) (e : env)
    (pre post : list value) (query : string) (topK : option Z)
    (filterTags : option (list string)) (sent : list call) :
  Forall (quiet_file JSON_parse e) pre ->
  (Z.to_nat (maxResults_of topK) <=
   length (all_matches toLowerCase JSON_parse e
       (toLowerCase query) (requiredTags_of filterTags) pre))%nat ->
  collect toLowerCase JSON_parse e (pre ++ post) query topK filterTags sent =
  collect toLowerCase JSON_parse e pre query topK filterTags sent.
Proof.
  intros Hq Hlen. unfold collect. rewrite scan_files_app.
  pose proof (scan_files_quiet toLowerCase JSON_parse e (toLowerCase query) (maxResults_of topK)
                (requiredTags_of filterTags) pre sent [] Hq) as Hres.
  destruct (scan_files _ _ _ _ _ _ pre sent []) as [sent' [err|results]];
    simpl in Hres; [discriminate |].
  injection Hres as ->.
  rewrite full_stops_files; [reflexivity |].
  simpl. rewrite Nat.sub_0_r, length_firstn. lia.
Qed.

(** The same inside one file: the lines after the last match needed are
    not parsed. *)
Lemma scan_lines_stops (toLowerCase : string -> string) (JSON_parse : string -> option value)
    (queryLower : string) (maxResults : Z) (requiredTags : option (list string))
    (l1 l2 : list string) (results : list SearchResult) :
  Forall (quiet_line JSON_parse) l1 ->
  (Z.to_nat maxResults <=
   length results + length (omap (line_match toLowerCase JSON_parse
       queryLower requiredTags) l1))%nat ->
  scan_lines toLowerCase JSON_parse queryLower maxResults requiredTags (l1 ++ l2) results =
  scan_lines toLowerCase JSON_parse queryLower maxResults requiredTags l1 results.
Proof.
  intros Hq Hlen. rewrite scan_lines_app, (scan_lines_quiet _ _ _ _ _ _ _ Hq).
  apply full_stops_lines. rewrite length_app, length_firstn. lia.
Qed.

(** The search on a configured process whose listing succeeds and whose
    files are quiet. *)
Lemma search_quiet (toLowerCase : string -> string) (JSON_parse : string -> option value) (e : env)
    (query : string) (topK : option Z) (filterTags : option (list string))
    (listResp : response) (listData : value) :
  set_var (OPENAI_API_KEY e) = true ->
  set_var (VECTOR_STORE_ID e) = true ->
  fetch_list e = Resolved listResp ->
  ok listResp = true ->
  JSON_parse (body listResp) = Some listData ->
  listData <> JNull ->
  valid_topK topK ->
  Forall (quiet_file JSON_parse e) (array_or_empty (prop listData "data")) ->
  exists sent,
    naiveVectorStoreSearch toLowerCase JSON_parse e query topK filterTags =
    (sent, inr (firstn (Z.to_nat (maxResults_of topK))
                       (all_matches toLowerCase JSON_parse e (toLowerCase query)
                                    (requiredTags_of filterTags)
                                    (array_or_empty (prop listData "data"))))).
Proof.
  intros Hkey Hid Hlist Hok Hparse Hnn Hk Hq.
  unfold naiveVectorStoreSearch. rewrite Hkey, Hid, Hlist, Hok, Hparse. cbn [negb orb].
  rewrite (get_not_null listData "data" Hnn).
  unfold collect.
  pose proof (scan_files_quiet toLowerCase JSON_parse e (toLowerCase query) (maxResults_of topK)
                (requiredTags_of filterTags) _ [ListFiles] [] Hq) as Hres.
  destruct (scan_files _ _ _ _ _ _ _ [ListFiles] []) as [sent' [err|results]];
    simpl in Hres; [discriminate |].
  injection Hres as ->. exists sent'. cbn [app length]. rewrite Nat.sub_0_r.
  rewrite slice0_firstn; [reflexivity |].
  apply maxResults_of_valid in Hk. lia.
Qed.

(** A search that completes without a match returns the empty array. *)
Lemma no_match_returns_empty (toLowerCase : string -> string)
    (JSON_parse : string -> option value) (e : env)
    (query : string) (topK : option Z) (filterTags : option (list string))
    (listResp : response) (listData : value) :
  set_var (OPENAI_API_KEY e) = true ->
  set_var (VECTOR_STORE_ID e) = true ->
  fetch_list e = Resolved listResp ->
  ok listResp = true ->
  JSON_parse (body listResp) = Some listData ->
  listData <> JNull ->
  valid_topK topK ->
  Forall (quiet_file JSON_parse e) (array_or_empty (prop listData "data")) ->
  all_matches toLowerCase JSON_parse e (toLowerCase query) (requiredTags_of filterTags)
              (array_or_empty (prop listData "data")) = [] ->
  exists sent, naiveVectorStoreSearch toLowerCase JSON_parse e
      query topK filterTags = (sent, inr []).
Proof.
  intros Hkey Hid Hlist Hok Hparse Hnn Hk Hq Hnone.
  destruct (search_quiet toLowerCase JSON_parse e query topK filterTags listResp listData
              Hkey Hid Hlist Hok Hparse Hnn Hk Hq) as [sent Hsearch].
  exists sent. rewrite Hsearch, Hnone. now rewrite firstn_nil.
Qed.

End ScanClaims.

Section TopKClaim.
Import JSString JS Runtime Search.



End TopKClaim.

(** ** Failures of single files and lines during the scan *)

Section ScanFailures.
Import JSString JS Runtime Search.

Variable toLowerCase : string -> string.
Variable JSON_parse : string -> option value.
Variable e : env.
Variables (queryLower : string) (maxResults : Z)
          (requiredTags : option (list string)).

Local Abbreviation scan_lines :=
  (scan_lines toLowerCase JSON_parse queryLower maxResults requiredTags).
Local Abbreviation scan_files :=
  (scan_files toLowerCase JSON_parse e queryLower maxResults requiredTags).

(** A file whose content request is answered with a failure status is
    skipped. *)
Lemma failed_status_skipped (file : value) (rest : list value) (sent : list call)
    (results : list SearchResult) (fileResp : response) :
  file <> JNull ->
  fetch_content e (ToString_opt (prop file "id")) = Resolved fileResp ->
  ok fileResp = false ->
  Z.of_nat (length results) < maxResults ->
  scan_files (file :: rest) sent results =
  scan_files rest (sent ++ [FetchContent (ToString_opt (prop file "id"))]) results.
Proof.
  intros Hnn Hfetch Hok Hroom. cbn [Search.scan_files].
  destruct (Z.geb_spec (Z.of_nat (length results)) maxResults); [lia |].
  rewrite (get_not_null file "id" Hnn).
  now rewrite Hfetch, Hok.
Qed.

(** A content request that rejects ends the search with that rejection. *)
Lemma rejected_fetch_aborts (file : value) (rest : list value) (sent : list call)
    (results : list SearchResult) (err : error) :
  file <> JNull ->
  fetch_content e (ToString_opt (prop file "id")) = Rejected err ->
  Z.of_nat (length results) < maxResults ->
  snd (scan_files (file :: rest) sent results) = inl err.
Proof.
  intros Hnn Hfetch Hroom. cbn [Search.scan_files].
  destruct (Z.geb_spec (Z.of_nat (length results)) maxResults); [lia |].
  rewrite (get_not_null file "id" Hnn).
  now rewrite Hfetch.
Qed.

(** A line of white space only is not among the lines scanned. *)
Lemma blank_line_discarded (content line : string) :
  all_space line = true -> ~ In line (lines_of content).
Proof.
  intros Hblank Hin. unfold lines_of in Hin.
  apply filter_In in Hin. destruct Hin as [_ Hnb].
  unfold nonblank in Hnb. rewrite (trim_all_space line Hblank) in Hnb. discriminate.
Qed.

(** A line that does not parse is skipped. *)
Lemma unparsable_line_skipped (line : string) (rest : list string)
    (results : list SearchResult) :
  JSON_parse line = None ->
  scan_lines (line :: rest) results = scan_lines rest results.
Proof.
  intros Hparse. cbn [Search.scan_lines]. rewrite Hparse.
  destruct (Z.of_nat (length results) >=? maxResults) eqn:Hfull; [|reflexivity].
  symmetry. apply full_stops_lines. now apply Z.geb_le.
Qed.

(** A line that parses to [null] ends the search with a [TypeError]: the
    read of [doc.tags] is outside the [try] that guards [JSON.parse]. *)
Lemma null_line_throws (line : string) (rest : list string)
    (results : list SearchResult) :
  JSON_parse line = Some JNull ->
  Z.of_nat (length results) < maxResults ->
  scan_lines (line :: rest) results =
  inl (TypeError "Cannot read properties of null (reading 'tags')").
Proof.
  intros Hparse Hroom. cbn [Search.scan_lines]. rewrite Hparse.
  destruct (Z.geb_spec (Z.of_nat (length results)) maxResults); [lia | reflexivity].
Qed.

End ScanFailures.

Section ScanFailureClaim.
Import JSString JS Runtime Search.

(** C4.  The scan does not survive every failure of a single line.  The
    text [null] is a non-blank line and parses; the loop body then reads
    [doc.tags] of [null], which throws, and the whole search rejects with
    that [TypeError] in place of skipping the line and returning an empty
    array.  The same happens on every store and for every parser as soon
    as a scanned line parses to [null]. *)
Theorem null_line_aborts_search (toLowerCase : string -> string) :
  nonblank "null" = true /\
  JSONText.JSON_parse "null" = Some JNull /\
  naiveVectorStoreSearch toLowerCase JSONText.JSON_parse Samples.null_line
    "incep" None None =
  ([ListFiles; FetchContent "file-1"],
   inl (TypeError "Cannot read properties of null (reading 'tags')")) /\
  (forall (JSON_parse : string -> option value) (queryLower : string) (maxResults : Z)
          (requiredTags : option (list string)) (line : string) (rest : list string)
          (results : list SearchResult),
      JSON_parse line = Some JNull ->
      Z.of_nat (length results) < maxResults ->
      scan_lines toLowerCase JSON_parse queryLower maxResults requiredTags
                 (line :: rest) results =
      inl (TypeError "Cannot read properties of null (reading 'tags')")).
Proof.
  split; [reflexivity |].
  split; [vm_compute; reflexivity |].
  split; [vm_compute; reflexivity |].
  exact (null_line_throws toLowerCase).
Qed.

End ScanFailureClaim.

(** ** The document codec *)

Section CodecClaim.
Import JSString JS Codec.

(** C5, as stated, fails on the movie without members: its record has no
    [title] member at all, where the claim puts [null], and its [type] is
    "movie_seen". *)
Lemma absent_title_not_filled :
  In "title" field_names /\
  field_of no_fields "title" = None /\
  assoc "title" (movie_record "2025-01-01T00:00:00.000Z" no_fields) = None /\
  Some (stated_default "title") = Some JNull /\
  assoc "type" (movie_record "2025-01-01T00:00:00.000Z" no_fields) =
  Some (JStr "movie_seen").
Proof. repeat split; simpl; auto 10. Qed.

(** C5, amended.  For every movie, [buildMovieDocument] gives each absent
    field other than [title] its default (null for year, trakt_id, imdb,
    slug, tmdb, rating, liked and comment, the empty array for tags, "seen"
    for state, "manual" for source, "movie_seen" for type) and leaves an
    absent title out; it stamps marked_at with the instant of the call; and
    it returns exactly one line, the JSON text of that record, ended by a
    single line feed and free of line feeds before it. *)
Theorem encode_defaults_one_line (now : string) (m : movie) :
  (forall k, In k field_names -> field_of m k = None ->
             assoc k (movie_record now m) = default_of k) /\
  assoc "marked_at" (movie_record now m) = Some (JStr now) /\
  (exists line,
      buildMovieDocument now m = line +:+ newline /\
      line = JSON_stringify (JObj (movie_record now m)) /\
      no_newline line = true /\
      split_lines (buildMovieDocument now m) = [line; EmptyString]).
Proof.
  split; [|split].
  - intros k Hk Habsent.
    destruct m as [ty ti ye tr im sl tm ra li st so ta co].
    simpl in Hk.
    repeat (destruct Hk as [<- | Hk];
            [ vm_compute in Habsent; subst;
              first [reflexivity | destruct ti; reflexivity] | ]).
    destruct Hk.
  - unfold movie_record. destruct (title m); reflexivity.
  - exists (JSON_stringify (JObj (movie_record now m))).
    pose proof (no_newline_JSON_stringify (JObj (movie_record now m))) as Hnl.
    repeat split; [exact Hnl |].
    unfold buildMovieDocument. now apply split_lines_one_line.
Qed.

End CodecClaim.

(** ** The store uploader *)

Section UploaderFacts.
Import JSString JS Runtime Uploader.

Variable JSON_parse : string -> option value.

(** The [finally] block: whatever the body did, the unlink is the last
    call, the result is the body's, and the files are as the body left
    them. *)
Lemma try_finally_unlink {A} (body : M A) (path : string) (w : world) :
  snd (try_finally body (unlink_swallowed path) w) = snd (body w) /\
  last (calls (fst (try_finally body (unlink_swallowed path) w))) = Some (Unlink path) /\
  fs (fst (try_finally body (unlink_swallowed path) w)) = fs (fst (body w)).
Proof.
  unfold try_finally. destruct (body w) as [w1 r]. cbn [fst snd].
  unfold unlink_swallowed. split; [reflexivity |]. split.
  - cbn [calls log]. apply last_snoc.
  - reflexivity.
Qed.

(** The [try] block leaves the local files alone. *)
Lemma upload_body_fs (e : env) (path : string) (w : world) :
  fs (fst (upload_body JSON_parse e path w)) = fs w.
Proof.
  unfold upload_body, try_catch, bind, openai_files_create, throw, ret.
  cbn [fs log].
  destruct (fs w !! path) as [content|]; [|reflexivity].
  destruct (files_create e content) as [err|id]; [reflexivity |].
  unfold fetch_attach_file. cbn [calls fs vendor_files attached log].
  destruct (fetch_attach e id) as [err|resp]; [reflexivity |].
  destruct (ok resp); cbn [negb]; [|reflexivity].
  unfold response_json, throw, ret, lift.
  destruct (JSON_parse (body resp)) as [vsFile|]; [|reflexivity].
  destruct (get vsFile "id") as [err|x]; reflexivity.
Qed.

Lemma upload_unfold (e : env) (text : string) (w : world) :
  uploadTextToVectorStore JSON_parse e text w =
  match writeFile e (tmpPath e) text w with
  | (w1, inl err) => (w1, inl err)
  | (w1, inr _) =>
      try_finally (upload_body JSON_parse e (tmpPath e)) (unlink_swallowed (tmpPath e)) w1
  end.
Proof. reflexivity. Qed.

(** The body never looks at what [unlink] answers. *)
Lemma upload_body_unlink (f : string -> option error) (e : env) (w : world) :
  upload_body JSON_parse (with_unlink f e) (tmpPath e) w =
  upload_body JSON_parse e (tmpPath e) w.
Proof. reflexivity. Qed.

(** A successful upload leaves the text at the vendor, attached to the
    vector store. *)
Lemma upload_stored (e : env) (text : string) (w w' : world) (fileId : string) :
  uploadTextToVectorStore JSON_parse e text w = (w', inr fileId) ->
  In (fileId, text) (vendor_files w') /\ In fileId (attached w').
Proof.
  rewrite upload_unfold. unfold writeFile.
  destruct (fs_writeFile e (tmpPath e) text); [discriminate |].
  unfold try_finally, upload_body, try_catch, bind, openai_files_create.
  cbn [fs set_fs log]. rewrite lookup_insert_eq.
  destruct (files_create e text) as [err|id]; [discriminate |].
  unfold fetch_attach_file. cbn [calls fs vendor_files attached log].
  destruct (fetch_attach e id) as [err|resp]; [discriminate |].
  destruct (ok resp) eqn:Hok; cbn [negb]; [|discriminate].
  unfold response_json, throw, ret, lift.
  destruct (JSON_parse (body resp)) as [vsFile|]; [|discriminate].
  destruct (get vsFile "id") as [err|x]; [discriminate |].
  intros H. injection H as <- <-.
  unfold unlink_swallowed.
  cbn [vendor_files attached set_fs log]; split; apply in_or_app; right; now left.
Qed.

End UploaderFacts.

Section UploaderClaim.
Import JSString JS Runtime Uploader.

(** C6, as stated, fails in two ways.  When the unlink itself fails, the
    upload returns its file id, the failure is swallowed, and the temporary
    file is still there after the call, also once the unlink has settled.
    And the unlink is not awaited: on a process whose unlink succeeds, the
    call returns with the temporary file still in place. *)
Lemma failed_unlink_leaves_temp_file :
  snd (uploadTextToVectorStore JSONText.JSON_parse Samples.unlink_fails "a note"
                               Samples.fresh) = inr "file-new" /\
  fs (fst (uploadTextToVectorStore JSONText.JSON_parse Samples.unlink_fails "a note"
                                   Samples.fresh))
     !! tmpPath Samples.unlink_fails = Some "a note" /\
  fs (unlink_settled Samples.unlink_fails (tmpPath Samples.unlink_fails)
        (fst (uploadTextToVectorStore JSONText.JSON_parse Samples.unlink_fails "a note"
                                      Samples.fresh)))
     !! tmpPath Samples.unlink_fails = Some "a note" /\
  fs_unlink (Samples.store []) (tmpPath (Samples.store [])) = None /\
  snd (uploadTextToVectorStore JSONText.JSON_parse (Samples.store []) "a note"
                               Samples.fresh) = inr "file-new" /\
  fs (fst (uploadTextToVectorStore JSONText.JSON_parse (Samples.store []) "a note"
                                   Samples.fresh))
     !! tmpPath (Samples.store []) = Some "a note".
Proof. repeat split; vm_compute; reflexivity. Qed.

(** C6, amended.  Once the temporary file has been written, every call to
    the uploader, whether it returns a file id or throws at any later step,
    ends by issuing the unlink of that file, without awaiting it: the call
    returns or throws with the file still in place; once the unlink has
    settled the file no longer exists when the unlink succeeded, and is
    still there when it failed; and a failing unlink is swallowed: what the
    call returns or throws does not depend on it.  When writing the file
    already fails, the call throws that error before the [try] block is
    entered, and no unlink is issued. *)
Theorem upload_cleanup (JSON_parse : string -> option value) (e : env)
    (text : string) (w : world) :
  (fs_writeFile e (tmpPath e) text = None ->
   last (calls (fst (uploadTextToVectorStore JSON_parse e text w))) =
   Some (Unlink (tmpPath e)) /\
   fs (fst (uploadTextToVectorStore JSON_parse e text w)) !! tmpPath e = Some text /\
   (fs_unlink e (tmpPath e) = None ->
    fs (unlink_settled e (tmpPath e)
          (fst (uploadTextToVectorStore JSON_parse e text w))) !! tmpPath e = None) /\
   (forall err, fs_unlink e (tmpPath e) = Some err ->
    fs (unlink_settled e (tmpPath e)
          (fst (uploadTextToVectorStore JSON_parse e text w))) !! tmpPath e = Some text)) /\
  (forall f : string -> option error,
      snd (uploadTextToVectorStore JSON_parse (with_unlink f e) text w) =
      snd (uploadTextToVectorStore JSON_parse e text w)) /\
  (forall err, fs_writeFile e (tmpPath e) text = Some err ->
               snd (uploadTextToVectorStore JSON_parse e text w) = inl err /\
               calls (fst (uploadTextToVectorStore JSON_parse e text w)) =
               calls w ++ [WriteFile (tmpPath e) text]).
Proof.
  split; [|split].
  - intros Hwrite. rewrite upload_unfold. unfold writeFile. rewrite Hwrite.
    set (w1 := set_fs (<[tmpPath e := text]> (fs (log (WriteFile (tmpPath e) text) w)))
                      (log (WriteFile (tmpPath e) text) w)).
    destruct (try_finally_unlink (upload_body JSON_parse e (tmpPath e)) (tmpPath e) w1)
      as (_ & Hlast & Hfs).
    rewrite upload_body_fs in Hfs.
    split; [exact Hlast |].
    split; [rewrite Hfs; apply lookup_insert_eq |].
    split.
    + intros Hunlink. unfold unlink_settled. rewrite Hunlink.
      cbn [fs set_fs]. apply lookup_delete_eq.
    + intros err Hunlink. unfold unlink_settled. rewrite Hunlink.
      rewrite Hfs. apply lookup_insert_eq.
  - intros f. rewrite !upload_unfold. unfold writeFile.
    change (fs_writeFile (with_unlink f e)) with (fs_writeFile e).
    change (tmpPath (with_unlink f e)) with (tmpPath e).
    destruct (fs_writeFile e (tmpPath e) text); [reflexivity |].
    rewrite !(proj1 (try_finally_unlink _ _ _)).
    now rewrite upload_body_unlink.
  - intros err Hwrite. rewrite upload_unfold. unfold writeFile. rewrite Hwrite.
    split; reflexivity.
Qed.

(** C6 on a vendor that refuses to attach the file: the call throws, the
    unlink is its last call, the temporary file is there when the call
    throws and gone once the unlink has settled. *)
Lemma upload_cleanup_witness :
  (exists err, snd (uploadTextToVectorStore JSONText.JSON_parse Samples.attach_fails
                                            "a note" Samples.fresh) = inl err) /\
  last (calls (fst (uploadTextToVectorStore JSONText.JSON_parse Samples.attach_fails
                                            "a note" Samples.fresh))) =
  Some (Unlink (tmpPath Samples.attach_fails)) /\
  fs (fst (uploadTextToVectorStore JSONText.JSON_parse Samples.attach_fails
                                   "a note" Samples.fresh))
     !! tmpPath Samples.attach_fails = Some "a note" /\
  fs (unlink_settled Samples.attach_fails (tmpPath Samples.attach_fails)
        (fst (uploadTextToVectorStore JSONText.JSON_parse Samples.attach_fails
                                      "a note" Samples.fresh)))
     !! tmpPath Samples.attach_fails = None.
Proof.
  split; [eexists; vm_compute; reflexivity |].
  destruct (proj1 (upload_cleanup JSONText.JSON_parse Samples.attach_fails "a note"
                                  Samples.fresh) eq_refl) as (Hlast & Hthere & Hgone & _).
  split; [exact Hlast |]. split; [exact Hthere | exact (Hgone eq_refl)].
Defined.

End UploaderClaim.

(** ** The [/mark-seen] route *)

Section ServerFacts.
Import JSString JS Runtime Server.

Variable JSON_parse : string -> option value.
Variable e : env.

(** The Trakt call touches neither the local files nor the vendor's. *)
Lemma traktAddToHistory_frame (trakt_id imdb slug tmdb : option value)
    (w w' : world) (r : error + value) :
  Trakt.traktAddToHistory JSON_parse e trakt_id imdb slug tmdb w = (w', r) ->
  fs w' = fs w /\ vendor_files w' = vendor_files w /\ attached w' = attached w.
Proof.
  unfold Trakt.traktAddToHistory, Trakt.ensureTraktConfigured, bind, throw, ret.
  destruct (negb (set_var (TRAKT_CLIENT_ID e)) || negb (set_var (TRAKT_ACCESS_TOKEN e))).
  - intros H. injection H as <- _. auto.
  - destruct (length _ =? 0)%nat.
    + intros H. injection H as <- _. auto.
    + destruct (trakt_add_history e _) as [err|resp].
      * intros H. injection H as <- _. auto.
      * destruct (negb (ok resp)); [intros H; injection H as <- _; auto |].
        destruct (String.eqb (body resp) EmptyString);
          [intros H; injection H as <- _; auto |].
        destruct (JSON_parse (body resp)); intros H; injection H as <- _; auto.
Qed.

(** The route once the title is accepted and the upload has returned. *)
Lemma mark_seen_uploaded (req_body : option value) (w w1 : world) (fileId : string) :
  truthy (prop (or_value req_body (JObj [])) "title") = true ->
  is_string (prop (or_value req_body (JObj [])) "title") = true ->
  Uploader.uploadTextToVectorStore JSON_parse e
    (seen_document e (or_value req_body (JObj []))) w = (w1, inr fileId) ->
  mark_seen JSON_parse e req_body w =
  match (if sync_wanted e (or_value req_body (JObj []))
         then try_catch
                (Trakt.traktAddToHistory JSON_parse e
                   (prop (or_value req_body (JObj [])) "trakt_id")
                   (prop (or_value req_body (JObj [])) "imdb")
                   (prop (or_value req_body (JObj [])) "slug")
                   (prop (or_value req_body (JObj [])) "tmdb"))
                (fun err => ret (JObj [("error", JStr (error_details err))]))
         else ret JNull) w1 with
  | (w2, inl err) =>
      (w2, inr (mkHttp 500 (JObj [ ("error", JStr "internal_error");
                                   ("details", JStr (error_details err)) ])))
  | (w2, inr traktResult) =>
      (w2, inr (mkHttp 200
                  (JObj (seen_payload (or_value req_body (JObj [])) fileId traktResult))))
  end.
Proof.
  intros Htruthy Hstring Hupload.
  unfold mark_seen, try_catch. cbv zeta. rewrite Htruthy, Hstring. cbn [negb orb].
  unfold bind at 1. rewrite Hupload. unfold bind.
  destruct (_ w1) as [w2 [err|traktResult]]; reflexivity.
Qed.

(** The route when the title is missing or not a string. *)
Lemma missing_title_rejected_aux (req_body : option value) (w : world) :
  is_string (prop (or_value req_body (JObj [])) "title") = false ->
  mark_seen JSON_parse e req_body w =
  (w, inr (mkHttp 400 (JObj [("error", JStr "title is required (string)")]))).
Proof.
  intros Hstring. unfold mark_seen, try_catch. cbv zeta.
  rewrite Hstring. cbn [negb]. rewrite orb_true_r. reflexivity.
Qed.

End ServerFacts.

Section ServerClaims.
Import JSString JS Runtime Server.

(** C7.  When, on a [/mark-seen] request with an accepted title, the
    upload to the store succeeds and the Trakt history call is made and
    fails, the failure is caught in the handler: the response has status
    200 and a payload with [ok: true] whose [trakt] member is
    [{error: message}], and the uploaded document is still at the vendor,
    attached to the vector store. *)
Theorem mirror_failure_is_not_fatal (JSON_parse : string -> option value) (e : env)
    (req_body : option value) (w w1 w2 : world) (fileId : string) (err : error) :
  truthy (prop (or_value req_body (JObj [])) "title") = true ->
  is_string (prop (or_value req_body (JObj [])) "title") = true ->
  Uploader.uploadTextToVectorStore JSON_parse e
    (seen_document e (or_value req_body (JObj []))) w = (w1, inr fileId) ->
  sync_wanted e (or_value req_body (JObj [])) = true ->
  Trakt.traktAddToHistory JSON_parse e
    (prop (or_value req_body (JObj [])) "trakt_id")
    (prop (or_value req_body (JObj [])) "imdb")
    (prop (or_value req_body (JObj [])) "slug")
    (prop (or_value req_body (JObj [])) "tmdb") w1 = (w2, inl err) ->
  exists payload,
    mark_seen JSON_parse e req_body w = (w2, inr (mkHttp 200 (JObj payload))) /\
    assoc "ok" payload = Some (JBool true) /\
    assoc "trakt" payload = Some (JObj [("error", JStr (error_details err))]) /\
    assoc "vectorStoreFileId" payload = Some (JStr fileId) /\
    In (fileId, seen_document e (or_value req_body (JObj []))) (vendor_files w2) /\
    In fileId (attached w2).
Proof.
  intros Htruthy Hstring Hupload Hsync Htrakt.
  exists (seen_payload (or_value req_body (JObj [])) fileId
                       (JObj [("error", JStr (error_details err))])).
  split.
  - rewrite (mark_seen_uploaded JSON_parse e req_body w w1 fileId Htruthy Hstring Hupload).
    rewrite Hsync. unfold try_catch. rewrite Htrakt. reflexivity.
  - destruct (upload_stored JSON_parse e _ w w1 fileId Hupload) as [Hfile Hattached].
    destruct (traktAddToHistory_frame JSON_parse e _ _ _ _ w1 w2 _ Htrakt)
      as (_ & Hvendor & Hatt).
    rewrite Hvendor, Hatt.
    unfold seen_payload.
    destruct (prop (or_value req_body (JObj [])) "title"); repeat split; auto.
Qed.

(** C7 on the request for "Inception" while Trakt answers 502. *)
Lemma mirror_failure_witness :
  exists payload,
    snd (mark_seen JSONText.JSON_parse Samples.trakt_fails (Some Samples.seen_inception)
                   Samples.fresh) = inr (mkHttp 200 (JObj payload)) /\
    assoc "ok" payload = Some (JBool true) /\
    assoc "trakt" payload =
    Some (JObj [("error", JStr "Trakt add-to-history error 502: Bad Gateway")]).
Proof.
  pose (run := Uploader.uploadTextToVectorStore JSONText.JSON_parse Samples.trakt_fails
                 (seen_document Samples.trakt_fails Samples.seen_inception) Samples.fresh).
  pose (sync := Trakt.traktAddToHistory JSONText.JSON_parse Samples.trakt_fails
                  None (Some (JStr "tt1375666")) None None (fst run)).
  destruct (mirror_failure_is_not_fatal JSONText.JSON_parse Samples.trakt_fails
              (Some Samples.seen_inception) Samples.fresh (fst run) (fst sync) "file-new"
              (Error "Trakt add-to-history error 502: Bad Gateway")
              eq_refl eq_refl)
    as (payload & Hrun & Hok & Htrakt & _).
  - vm_compute. reflexivity.
  - reflexivity.
  - vm_compute. reflexivity.
  - exists payload. rewrite Hrun. repeat split; assumption.
Defined.

(** C8.  A [/mark-seen] request whose body has no title, or a title that
    is not a string, is answered with status 400 and the error "title is
    required (string)"; the world is left as it was, so no file is written
    and no call to the store or to Trakt is made. *)
Theorem missing_title_rejected (JSON_parse : string -> option value) (e : env)
    (req_body : option value) (w : world) :
  is_string (prop (or_value req_body (JObj [])) "title") = false ->
  mark_seen JSON_parse e req_body w =
  (w, inr (mkHttp 400 (JObj [("error", JStr "title is required (string)")]))).
Proof.
  intros Hstring. unfold mark_seen, try_catch. cbv zeta.
  rewrite Hstring. cbn [negb]. rewrite orb_true_r. reflexivity.
Qed.

(** C8 on a body without title, starting from a world without calls. *)
Lemma missing_title_witness :
  mark_seen JSONText.JSON_parse (Samples.store []) (Some Samples.seen_untitled)
            Samples.fresh =
  (Samples.fresh, inr (mkHttp 400 (JObj [("error", JStr "title is required (string)")]))) /\
  calls Samples.fresh = [].
Proof.
  split; [|reflexivity].
  apply (missing_title_rejected JSONText.JSON_parse (Samples.store [])
           (Some Samples.seen_untitled) Samples.fresh).
  reflexivity.
Defined.

End ServerClaims.

(** ** The [memory_write] tool *)

Section McpClaim.
Import JSString JS Runtime Mcp.

(** C9, as stated, fails on the member name: for valid arguments and a
    successful upload the structured output is
    [{ok: true, vectorStoreFileId: f}]; it has no [fileId] member. *)
Lemma write_output_has_no_fileId :
  memoryWriteSchema Samples.note = true /\
  snd (Uploader.uploadTextToVectorStore JSONText.JSON_parse (Samples.store [])
         (write_document (Samples.store []) Samples.note) Samples.fresh) = inr "file-new" /\
  (exists r,
      snd (call_memory_write JSONText.JSON_parse (Samples.store []) Samples.note
                             Samples.fresh) = inr r /\
      structuredContent r =
      JObj [("ok", JBool true); ("vectorStoreFileId", JStr "file-new")] /\
      prop (structuredContent r) "fileId" = None /\
      structuredContent r <> JObj [("ok", JBool true); ("fileId", JStr "file-new")]).
Proof.
  split; [reflexivity |]. split; [vm_compute; reflexivity |].
  eexists. split; [vm_compute; reflexivity |].
  repeat split. discriminate.
Qed.

(** C9, amended.  For every call of the memory write tool whose input
    passes its schema: if the uploader returns the identifier f, the
    structured output is [{ok: true, vectorStoreFileId: f}]; if the
    uploader throws, the tool throws the same error. *)
Theorem memory_write_contract (JSON_parse : string -> option value) (e : env)
    (a : write_args) (w : world) :
  memoryWriteSchema a = true ->
  (forall w' f,
      Uploader.uploadTextToVectorStore JSON_parse e (write_document e a) w = (w', inr f) ->
      exists r,
        call_memory_write JSON_parse e a w = (w', inr r) /\
        structuredContent r = JObj [("ok", JBool true); ("vectorStoreFileId", JStr f)]) /\
  (forall w' err,
      Uploader.uploadTextToVectorStore JSON_parse e (write_document e a) w = (w', inl err) ->
      call_memory_write JSON_parse e a w = (w', inl err)).
Proof.
  intros Hvalid. unfold call_memory_write. rewrite Hvalid.
  unfold memory_write, bind. cbv zeta. split.
  - intros w' f Hupload. rewrite Hupload. eexists. split; reflexivity.
  - intros w' err Hupload. now rewrite Hupload.
Qed.

(** C9 on the sample note, against a vendor that accepts the file and one
    that refuses to attach it. *)
Lemma memory_write_witness :
  (exists r,
      snd (call_memory_write JSONText.JSON_parse (Samples.store []) Samples.note
                             Samples.fresh) = inr r /\
      structuredContent r =
      JObj [("ok", JBool true); ("vectorStoreFileId", JStr "file-new")]) /\
  snd (call_memory_write JSONText.JSON_parse Samples.attach_fails Samples.note
                         Samples.fresh) =
  inl (Error "Vector store attach failed 500: server_error").
Proof.
  split.
  - destruct (proj1 (memory_write_contract JSONText.JSON_parse (Samples.store [])
                       Samples.note Samples.fresh eq_refl)
                    (fst (Uploader.uploadTextToVectorStore JSONText.JSON_parse
                            (Samples.store [])
                            (write_document (Samples.store []) Samples.note)
                            Samples.fresh))
                    "file-new") as (r & Hrun & Hout).
    + vm_compute. reflexivity.
    + exists r. rewrite Hrun. split; [reflexivity | exact Hout].
  - rewrite (proj2 (memory_write_contract JSONText.JSON_parse Samples.attach_fails
                      Samples.note Samples.fresh eq_refl)
                   (fst (Uploader.uploadTextToVectorStore JSONText.JSON_parse
                           Samples.attach_fails
                           (write_document Samples.attach_fails Samples.note)
                           Samples.fresh))
                   (Error "Vector store attach failed 500: server_error")).
    + reflexivity.
    + vm_compute. reflexivity.
Defined.

End McpClaim.

(** ** The Trakt history limit *)

Section TraktClaim.
Import JSString JS Runtime Trakt.
Local Open Scope Q_scope.

Lemma clamp_NaN : clamp NaN = Finite 200.
Proof. reflexivity. Qed.

Lemma clamp_zero (q : Q) : q == 0 -> clamp (Finite q) = Finite 200.
Proof.
  intros Hq. unfold clamp, number_or.
  apply Qeq_bool_iff in Hq. rewrite Hq. reflexivity.
Qed.

Lemma clamp_finite (q : Q) :
  ~ q == 0 ->
  clamp (Finite q) =
  if Qle_bool q 500 then (if Qle_bool 1 q then Finite q else Finite 1) else Finite 500.
Proof.
  intros Hq. unfold clamp, number_or.
  destruct (Qeq_bool q 0) eqn:Hz; [apply Qeq_bool_iff in Hz; contradiction |].
  unfold Math_min, number_leb. destruct (Qle_bool q 500); reflexivity.
Qed.

Lemma clamp_range (x : number) : exists q, clamp x = Finite q /\ 1 <= q /\ q <= 500.
Proof.
  destruct x as [ | | q | ].
  - exists 200. split; [reflexivity | split; lra].
  - exists 1. split; [reflexivity | split; lra].
  - destruct (Qeq_dec q 0) as [Hz | Hnz].
    + exists 200. rewrite (clamp_zero q Hz). split; [reflexivity | split; lra].
    + rewrite (clamp_finite q Hnz).
      destruct (Qle_bool q 500) eqn:H500.
      * destruct (Qle_bool 1 q) eqn:H1.
        -- exists q. apply Qle_bool_iff in H500, H1. auto.
        -- exists 1. split; [reflexivity | split; lra].
      * exists 500. split; [reflexivity | split; lra].
  - exists 500. split; [reflexivity | split; lra].
Qed.



End TraktClaim.

(** * Further properties of the code *)

(** ** The scan in an arbitrary environment *)

Section ScanReturns.
Import JSString JS Runtime Search.

Variable toLowerCase : string -> string.
Variable JSON_parse : string -> option value.
Variable e : env.
Variables (queryLower : string) (maxResults : Z)
          (requiredTags : option (list string)).

Local Abbreviation scan_lines :=
  (scan_lines toLowerCase JSON_parse queryLower maxResults requiredTags).
Local Abbreviation scan_files :=
  (scan_files toLowerCase JSON_parse e queryLower maxResults requiredTags).
Local Abbreviation line_match := (line_match toLowerCase JSON_parse queryLower requiredTags).
Local Abbreviation all_matches := (all_matches toLowerCase JSON_parse e queryLower requiredTags).

(** The request the file loop sends for a listed file. *)
Local Abbreviation request_of := (fun file : value => FetchContent (ToString_opt (prop file "id"))).

(** Whenever the line loop returns, it has appended the first matches the
    budget allowed. *)
Lemma scan_lines_returns (lines : list string) (results rs : list SearchResult) :
  scan_lines lines results = inr rs ->
  rs = results ++ firstn (Z.to_nat maxResults - length results) (omap line_match lines).
Proof.
  revert results. induction lines as [|line rest IH]; intros results.
  - simpl. intros H. injection H as <-. now rewrite firstn_nil, app_nil_r.
  - cbn [Search.scan_lines].
    destruct (Z.of_nat (length results) >=? maxResults) eqn:Hfull.
    + intros H. injection H as <-. apply Z.geb_le in Hfull.
      replace (Z.to_nat maxResults - length results)%nat with 0%nat by lia.
      simpl. now rewrite app_nil_r.
    + assert (length results < Z.to_nat maxResults)%nat as Hlt.
      { destruct (Z.geb_spec (Z.of_nat (length results)) maxResults); [discriminate | lia]. }
      cbn [omap list_omap]. unfold Search.line_match at 1.
      destruct (JSON_parse line) as [doc|]; [|apply IH].
      destruct (scan_doc toLowerCase queryLower requiredTags doc) as [err|[r|]].
      * discriminate.
      * intros H. rewrite (IH _ H). now apply take_budget.
      * apply IH.
Qed.

(** The same for the file loop. *)
Lemma scan_files_returns (files : list value) (sent : list call)
    (results rs : list SearchResult) :
  snd (scan_files files sent results) = inr rs ->
  rs = results ++ firstn (Z.to_nat maxResults - length results) (all_matches files).
Proof.
  revert sent results. induction files as [|file rest IH]; intros sent results.
  - simpl. intros H. injection H as <-. now rewrite firstn_nil, app_nil_r.
  - cbn [Search.scan_files].
    destruct (Z.of_nat (length results) >=? maxResults) eqn:Hfull.
    + intros H. injection H as <-. apply Z.geb_le in Hfull.
      replace (Z.to_nat maxResults - length results)%nat with 0%nat by lia.
      simpl. now rewrite app_nil_r.
    + destruct (get file "id") as [err|id] eqn:Hget; [discriminate |].
      assert (id = prop file "id") as ->
        by (destruct file; simpl in Hget; try discriminate;
            injection Hget as <-; reflexivity).
      unfold Search.all_matches. cbn [flat_map]. fold (all_matches rest).
      unfold file_lines at 1.
      destruct (fetch_content e _) as [err|fileResp]; [discriminate |].
      destruct (ok fileResp); cbn [negb].
      * destruct (String.eqb (body fileResp) EmptyString) eqn:Hempty.
        -- apply String.eqb_eq in Hempty. rewrite Hempty, lines_of_empty.
           simpl. apply IH.
        -- destruct (Search.scan_lines _ _ _ _ _ _ results) as [err|results'] eqn:Hlines;
             [discriminate |].
           intros H. rewrite (IH _ _ H).
           rewrite (scan_lines_returns _ _ _ Hlines). apply take_take_budget.
      * simpl. apply IH.
Qed.

(** The content requests follow the listing: the file loop asks for the
    files of a prefix of the list, one request each, and nothing else. *)
Lemma scan_files_requests (files : list value) (sent : list call)
    (results : list SearchResult) :
  exists n, fst (scan_files files sent results) = sent ++ List.map request_of (firstn n files).
Proof.
  revert sent results. induction files as [|file rest IH]; intros sent results.
  - exists 0%nat. simpl. now rewrite app_nil_r.
  - cbn [Search.scan_files].
    destruct (Z.of_nat (length results) >=? maxResults);
      [exists 0%nat; simpl; now rewrite app_nil_r |].
    destruct (get file "id") as [err|id] eqn:Hget;
      [exists 0%nat; simpl; now rewrite app_nil_r |].
    assert (id = prop file "id") as ->
      by (destruct file; simpl in Hget; try discriminate;
          injection Hget as <-; reflexivity).
    assert (forall n, (sent ++ [request_of file]) ++ List.map request_of (firstn n rest) =
                      sent ++ List.map request_of (firstn (S n) (file :: rest))) as Hstep
      by (intros n; simpl; now rewrite <- app_assoc).
    destruct (fetch_content e _) as [err|fileResp];
      [exists 1%nat; reflexivity |].
    destruct (negb (ok fileResp)).
    { destruct (IH (sent ++ [request_of file]) results) as [n Hn].
      exists (S n). now rewrite Hn, Hstep. }
    destruct (String.eqb (body fileResp) EmptyString).
    { destruct (IH (sent ++ [request_of file]) results) as [n Hn].
      exists (S n). now rewrite Hn, Hstep. }
    destruct (Search.scan_lines _ _ _ _ _ _ results) as [err|results'].
    + exists 1%nat. reflexivity.
    + destruct (IH (sent ++ [request_of file]) results') as [n Hn].
      exists (S n). now rewrite Hn, Hstep.
Qed.

End ScanReturns.

Section SearchFurther.
Import JSString JS Runtime Search.

Lemma slice0_take {A} (l : list A) (m : Z) :
  slice0 (firstn (Z.to_nat m) l) m = firstn (Z.to_nat m) l.
Proof.
  unfold slice0. destruct (Z.ltb_spec m 0) as [Hneg | Hpos].
  - replace (Z.to_nat m) with 0%nat by lia. now rewrite firstn_nil.
  - rewrite firstn_firstn. f_equal. lia.
Qed.

(** What a search that returns has gone through, and what it returns. *)
Lemma search_returns (toLowerCase : string -> string)
    (JSON_parse : string -> option value) (e : env)
    (query : string) (topK : option Z) (filterTags : option (list string))
    (sent : list call) (rs : list SearchResult) :
  naiveVectorStoreSearch toLowerCase JSON_parse e query topK filterTags = (sent, inr rs) ->
  exists listResp listData,
    fetch_list e = Resolved listResp /\
    ok listResp = true /\
    JSON_parse (body listResp) = Some listData /\
    rs = firstn (Z.to_nat (maxResults_of topK))
                (all_matches toLowerCase JSON_parse e
                    (toLowerCase query) (requiredTags_of filterTags)
                             (array_or_empty (prop listData "data"))).
Proof.
  unfold naiveVectorStoreSearch.
  destruct (negb (set_var (OPENAI_API_KEY e)) || negb (set_var (VECTOR_STORE_ID e)));
    [discriminate |].
  destruct (fetch_list e) as [err|listResp]; [discriminate |].
  destruct (ok listResp) eqn:Hok; cbn [negb]; [|discriminate].
  destruct (JSON_parse (body listResp)) as [listData|] eqn:Hparse; [|discriminate].
  destruct (get listData "data") as [err|data] eqn:Hget; [discriminate |].
  assert (data = prop listData "data") as ->
    by (destruct listData; simpl in Hget; try discriminate;
        injection Hget as <-; reflexivity).
  unfold collect.
  destruct (scan_files _ _ _ _ _ _ _ [ListFiles] []) as [sent' [err|results]] eqn:Hscan;
    [discriminate |].
  intros H. injection H as _ <-.
  exists listResp, listData. repeat split; try assumption; try reflexivity.
  pose proof (scan_files_returns toLowerCase JSON_parse e (toLowerCase query) (maxResults_of topK)
                (requiredTags_of filterTags) (array_or_empty (prop listData "data"))
                [ListFiles] [] results) as Hres.
  rewrite Hscan in Hres. rewrite (Hres eq_refl). cbn [app length].
  rewrite Nat.sub_0_r. apply slice0_take.
Qed.

Lemma string_of_uint_cons (d : Decimal.uint) :
  d <> Decimal.Nil -> NilEmpty.string_of_uint d <> EmptyString.
Proof. destruct d; simpl; congruence. Qed.

Lemma Number_toString_nonempty (n : Z) : Number_toString n <> EmptyString.
Proof.
  unfold Number_toString, NilZero.string_of_int, NilZero.string_of_uint.
  destruct (Z.to_int n) as [d | d]; destruct d; simpl; discriminate.
Qed.

(** The JSON text of a value is never the empty string. *)
Lemma JSON_stringify_nonempty (v : value) : JSON_stringify v <> EmptyString.
Proof.
  destruct v as [ | [|] | n | s | items | members ]; try discriminate.
  apply Number_toString_nonempty.
Qed.

Lemma or_value_truthy (a : option value) (b : value) :
  truthy (Some b) = true -> truthy (Some (or_value a b)) = true.
Proof.
  intros Hb. unfold or_value, js_or.
  destruct (truthy a) eqn:Ha; [|exact Hb].
  destruct a as [x|]; [exact Ha | discriminate].
Qed.

(** Every match has a truthy text, a truthy kind and the score 1. *)
Lemma matches_are_filled (toLowerCase : string -> string)
    (JSON_parse : string -> option value) (e : env)
    (queryLower : string) (requiredTags : option (list string)) (files : list value) :
  Forall (fun r => truthy (Some (text r)) = true /\ truthy (Some (kind r)) = true /\
                   score r = 1)
         (all_matches toLowerCase JSON_parse e queryLower requiredTags files).
Proof.
  unfold all_matches. rewrite Forall_forall. intros r Hr.
  apply list_elem_of_In, in_flat_map in Hr. destruct Hr as [file [_ Hr]].
  apply list_elem_of_In, list_elem_of_omap in Hr. destruct Hr as [line [_ Hline]].
  unfold line_match in Hline.
  destruct (JSON_parse line) as [doc|]; [|discriminate].
  unfold scan_doc in Hline.
  destruct (get doc "tags") as [err|t]; [discriminate |].
  destruct (negb _); [discriminate |].
  destruct (negb _); [discriminate |].
  injection Hline as <-. unfold result_of. cbn [text kind score].
  repeat split; apply or_value_truthy; [|reflexivity].
  cbn [truthy]. apply negb_true_iff, String.eqb_neq, JSON_stringify_nonempty.
Qed.

(** Whenever the search returns, in any environment and for any parser, the
    results are exactly the first maxResults matches among the non-blank
    lines of the listed files, in file-listing-then-line order; there are at
    most maxResults of them; and each has a truthy text (the record's text,
    else its title, else its JSON text), a truthy kind (kind, else type,
    else "unknown") and the score 1. *)
Theorem search_returns_first_matches (toLowerCase : string -> string)
    (JSON_parse : string -> option value) (e : env)
    (query : string) (topK : option Z) (filterTags : option (list string))
    (sent : list call) (rs : list SearchResult) :
  naiveVectorStoreSearch toLowerCase JSON_parse e query topK filterTags = (sent, inr rs) ->
  exists listResp listData,
    fetch_list e = Resolved listResp /\
    JSON_parse (body listResp) = Some listData /\
    rs = firstn (Z.to_nat (maxResults_of topK))
                (all_matches toLowerCase JSON_parse e
                    (toLowerCase query) (requiredTags_of filterTags)
                             (array_or_empty (prop listData "data"))) /\
    (length rs <= Z.to_nat (maxResults_of topK))%nat /\
    Forall (fun r => truthy (Some (text r)) = true /\ truthy (Some (kind r)) = true /\
                     score r = 1) rs.
Proof.
  intros Hsearch.
  destruct (search_returns _ _ _ _ _ _ _ _ Hsearch)
    as (listResp & listData & Hlist & _ & Hparse & Hrs).
  exists listResp, listData. repeat split; try assumption.
  - rewrite Hrs, length_firstn. lia.
  - rewrite Hrs. apply Forall_take, matches_are_filled.
Qed.

(** The search on two files of three matching lines, top_k = 4. *)
Lemma search_returns_first_matches_witness :
  exists rs,
    snd (naiveVectorStoreSearch toLowerCase_ascii JSONText.JSON_parse
        Samples.two_files "incep" (Some 4) None)
    = inr rs /\
    (length rs <= 4)%nat /\
    Forall (fun r => text r = JStr "Inception") rs.
Proof.
  pose (run := naiveVectorStoreSearch toLowerCase_ascii JSONText.JSON_parse
      Samples.two_files "incep"
                                      (Some 4) None).
  assert (run = (fst run, inr (List.repeat (result_of Samples.inception []) 4))) as Hrun
    by (vm_compute; reflexivity).
  destruct (search_returns_first_matches _ _ _ _ _ _ _ _ Hrun)
    as (listResp & listData & _ & _ & _ & Hlen & _).
  exists (List.repeat (result_of Samples.inception []) 4).
  split; [vm_compute; reflexivity |]. split; [exact Hlen |].
  repeat constructor.
Defined.

(** Raising top_k only appends results: when the search returns for top_k
    = k and for a larger top_k = k' on the same store, the results for k are
    the first k of the results for k'. *)
Theorem larger_topK_extends (toLowerCase : string -> string)
    (JSON_parse : string -> option value) (e : env)
    (query : string) (k k' : Z) (filterTags : option (list string))
    (sent sent' : list call) (rs rs' : list SearchResult) :
  1 <= k -> k <= k' ->
  naiveVectorStoreSearch toLowerCase JSON_parse e query (Some k) filterTags = (sent, inr rs) ->
  naiveVectorStoreSearch toLowerCase JSON_parse e query (Some k') filterTags = (sent', inr rs') ->
  rs = firstn (Z.to_nat k) rs'.
Proof.
  intros Hk Hkk' Hrun Hrun'.
  destruct (search_returns _ _ _ _ _ _ _ _ Hrun)
    as (listResp & listData & Hlist & _ & Hparse & Hrs).
  destruct (search_returns _ _ _ _ _ _ _ _ Hrun')
    as (listResp' & listData' & Hlist' & _ & Hparse' & Hrs').
  rewrite Hlist in Hlist'. injection Hlist' as <-.
  rewrite Hparse in Hparse'. injection Hparse' as <-.
  rewrite Hrs, Hrs'. simpl.
  destruct (Z.eqb_spec k 0); [lia |]. destruct (Z.eqb_spec k' 0); [lia |].
  rewrite firstn_firstn. f_equal. lia.
Qed.

(** Top_k 2 against top_k 5 on the store of two files. *)
Lemma larger_topK_extends_witness :
  exists rs rs',
    snd (naiveVectorStoreSearch toLowerCase_ascii JSONText.JSON_parse
        Samples.two_files "incep" (Some 2) None)
    = inr rs /\
    snd (naiveVectorStoreSearch toLowerCase_ascii JSONText.JSON_parse
        Samples.two_files "incep" (Some 5) None)
    = inr rs' /\
    rs = firstn 2 rs'.
Proof.
  pose (run := naiveVectorStoreSearch toLowerCase_ascii JSONText.JSON_parse
      Samples.two_files "incep"
                                      (Some 2) None).
  pose (run' := naiveVectorStoreSearch toLowerCase_ascii JSONText.JSON_parse
      Samples.two_files "incep"
                                       (Some 5) None).
  assert (run = (fst run, inr (List.repeat (result_of Samples.inception []) 2))) as Hrun
    by (vm_compute; reflexivity).
  assert (run' = (fst run', inr (List.repeat (result_of Samples.inception []) 5))) as Hrun'
    by (vm_compute; reflexivity).
  exists (List.repeat (result_of Samples.inception []) 2),
         (List.repeat (result_of Samples.inception []) 5).
  split; [vm_compute; reflexivity |]. split; [vm_compute; reflexivity |].
  apply (larger_topK_extends toLowerCase_ascii JSONText.JSON_parse Samples.two_files "incep" 2 5 None
           (fst run) (fst run') _ _ ltac:(lia) ltac:(lia) Hrun Hrun').
Defined.

(** The search only reads: it sends nothing when the process is not
    configured, and otherwise the listing request followed by content
    requests, one for each file of a prefix of the listing, in listing
    order.  It never writes a file, uploads or calls Trakt. *)
Theorem search_only_reads (toLowerCase : string -> string)
    (JSON_parse : string -> option value) (e : env)
    (query : string) (topK : option Z) (filterTags : option (list string)) :
  (forall (files : list value) (sent : list call),
      exists n,
        fst (collect toLowerCase JSON_parse e files query topK filterTags sent) =
        sent ++ List.map (fun file => FetchContent (ToString_opt (prop file "id")))
                         (firstn n files)) /\
  (fst (naiveVectorStoreSearch toLowerCase JSON_parse e query topK filterTags) = [] \/
   exists ids,
     fst (naiveVectorStoreSearch toLowerCase JSON_parse e query topK filterTags) =
     ListFiles :: List.map FetchContent ids).
Proof.
  assert (forall files sent, exists n,
             fst (collect toLowerCase JSON_parse e files query topK filterTags sent) =
             sent ++ List.map (fun file => FetchContent (ToString_opt (prop file "id")))
                              (firstn n files)) as Hcollect.
  { intros files sent. unfold collect.
    destruct (scan_files_requests toLowerCase JSON_parse e (toLowerCase query) (maxResults_of topK)
                (requiredTags_of filterTags) files sent []) as [n Hn].
    exists n. destruct (scan_files _ _ _ _ _ _ files sent []) as [sent' [err|results]];
      exact Hn. }
  split; [exact Hcollect |].
  unfold naiveVectorStoreSearch.
  destruct (negb (set_var (OPENAI_API_KEY e)) || negb (set_var (VECTOR_STORE_ID e)));
    [now left | right].
  destruct (fetch_list e) as [err|listResp]; [now exists [] |].
  destruct (negb (ok listResp)); [now exists [] |].
  destruct (JSON_parse (body listResp)) as [listData|]; [|now exists []].
  destruct (get listData "data") as [err|data]; [now exists [] |].
  destruct (Hcollect (array_or_empty data) [ListFiles]) as [n Hn].
  rewrite Hn. eexists. simpl. f_equal. symmetry. apply map_map.
Qed.

(** Asking for fewer tags never loses a record: a record kept under a
    list of filter tags is kept, with the same result, under every list
    all of whose tags are in the first one (the empty list included). *)
Theorem fewer_tags_keep_more (toLowerCase : string -> string)
    (queryLower : string) (more fewer : list string)
    (doc : value) (r : SearchResult) :
  (forall t, In t fewer -> In t more) ->
  scan_doc toLowerCase queryLower (requiredTags_of (Some more)) doc = inr (Some r) ->
  scan_doc toLowerCase queryLower (requiredTags_of (Some fewer)) doc = inr (Some r).
Proof.
  intros Hsub. unfold scan_doc. destruct (get doc "tags") as [err|tags]; [discriminate |].
  destruct (tag_filter (requiredTags_of (Some more)) (array_or_empty tags)) eqn:Hmore;
    cbn [negb]; [|discriminate].
  assert (tag_filter (requiredTags_of (Some fewer)) (array_or_empty tags) = true) as ->.
  { apply tag_filter_spec. intros t Ht.
    apply (proj1 (tag_filter_spec more (array_or_empty tags)) Hmore). now apply Hsub. }
  intros H. exact H.
Qed.

(** The record tagged a, b, c under the filters ["a","b"] and ["b"]. *)
Lemma fewer_tags_keep_more_witness :
  scan_doc toLowerCase_ascii EmptyString (requiredTags_of (Some ["b"])) Samples.tagged_abc =
  inr (Some (result_of Samples.tagged_abc [JStr "a"; JStr "b"; JStr "c"])).
Proof.
  apply (fewer_tags_keep_more toLowerCase_ascii EmptyString ["a"; "b"] ["b"]
           Samples.tagged_abc).
  - intros t [<- | []]. right. now left.
  - vm_compute. reflexivity.
Defined.

End SearchFurther.

(** ** The uploader, step by step *)

Section UploaderFurther.
Import JSString JS Runtime Uploader.

(** A successful upload has made exactly four calls, in this order: write
    the temporary file, create the file at the vendor, attach it, unlink
    the temporary file.  The id it returns is the one the vendor gave, and
    the vendor now holds the text verbatim under that id, attached to the
    vector store. *)
Theorem upload_success_trace (JSON_parse : string -> option value) (e : env)
    (text : string) (w w' : world) (fileId : string) :
  uploadTextToVectorStore JSON_parse e text w = (w', inr fileId) ->
  calls w' = calls w ++ [ WriteFile (tmpPath e) text; FilesCreate (tmpPath e);
                          AttachFile fileId; Unlink (tmpPath e) ] /\
  files_create e text = Resolved fileId /\
  vendor_files w' = vendor_files w ++ [(fileId, text)] /\
  attached w' = attached w ++ [fileId].
Proof.
  rewrite upload_unfold. unfold writeFile.
  destruct (fs_writeFile e (tmpPath e) text); [discriminate |].
  unfold try_finally, upload_body, try_catch, bind, openai_files_create.
  cbn [fs set_fs log]. rewrite lookup_insert_eq.
  destruct (files_create e text) as [err|id]; [discriminate |].
  unfold fetch_attach_file. cbn [calls fs vendor_files attached log].
  destruct (fetch_attach e id) as [err|resp]; [discriminate |].
  destruct (ok resp) eqn:Hok; cbn [negb]; [|discriminate].
  unfold response_json, throw, ret, lift.
  destruct (JSON_parse (body resp)) as [vsFile|]; [|discriminate].
  destruct (get vsFile "id") as [err|x]; [discriminate |].
  intros H. injection H as <- <-.
  unfold unlink_swallowed.
  destruct (fs_unlink e (tmpPath e));
    cbn [calls vendor_files attached set_fs log]; rewrite <- !app_assoc;
    repeat split; reflexivity.
Qed.

(** The upload of a note to the vendor of the sample store. *)
Lemma upload_success_trace_witness :
  calls (fst (uploadTextToVectorStore JSONText.JSON_parse (Samples.store []) "a note"
                                      Samples.fresh)) =
  [ WriteFile (tmpPath (Samples.store [])) "a note";
    FilesCreate (tmpPath (Samples.store []));
    AttachFile "file-new"; Unlink (tmpPath (Samples.store [])) ] /\
  vendor_files (fst (uploadTextToVectorStore JSONText.JSON_parse (Samples.store [])
                                             "a note" Samples.fresh)) =
  [("file-new", "a note")].
Proof.
  pose (run := uploadTextToVectorStore JSONText.JSON_parse (Samples.store []) "a note"
                                       Samples.fresh).
  assert (run = (fst run, inr "file-new")) as Hrun by (vm_compute; reflexivity).
  destruct (upload_success_trace _ _ _ _ _ _ Hrun) as (Hcalls & _ & Hfiles & _).
  split; [exact Hcalls | exact Hfiles].
Defined.

(** When the vendor creates the file and then refuses to attach it, the
    upload throws "Vector store attach failed <status>: <body>", the
    unlink of the temporary file is issued, and the file stays at the
    vendor without being attached to the vector store: no call deletes
    it. *)
Theorem refused_attach_orphans_file (JSON_parse : string -> option value) (e : env)
    (text : string) (w : world) (id : string) (resp : response) :
  fs_writeFile e (tmpPath e) text = None ->
  files_create e text = Resolved id ->
  fetch_attach e id = Resolved resp ->
  ok resp = false ->
  snd (uploadTextToVectorStore JSON_parse e text w) =
  inl (Error ("Vector store attach failed " +:+ Number_toString (status resp) +:+
              ": " +:+ body resp)) /\
  calls (fst (uploadTextToVectorStore JSON_parse e text w)) =
  calls w ++ [ WriteFile (tmpPath e) text; FilesCreate (tmpPath e);
               AttachFile id; Unlink (tmpPath e) ] /\
  vendor_files (fst (uploadTextToVectorStore JSON_parse e text w)) =
  vendor_files w ++ [(id, text)] /\
  attached (fst (uploadTextToVectorStore JSON_parse e text w)) = attached w.
Proof.
  intros Hwrite Hcreate Hattach Hok.
  rewrite upload_unfold. unfold writeFile. rewrite Hwrite.
  unfold try_finally, upload_body, try_catch, bind, openai_files_create.
  cbn [fs set_fs log]. rewrite lookup_insert_eq, Hcreate.
  unfold fetch_attach_file. cbn [calls fs vendor_files attached log].
  rewrite Hattach, Hok. cbn [negb]. unfold throw. cbn [fst snd].
  unfold unlink_swallowed.
  destruct (fs_unlink e (tmpPath e));
    cbn [calls vendor_files attached set_fs log]; rewrite <- !app_assoc;
    repeat split; reflexivity.
Qed.

(** The vendor of the sample that answers 500 to the attach call. *)
Lemma refused_attach_witness :
  vendor_files (fst (uploadTextToVectorStore JSONText.JSON_parse Samples.attach_fails
                                             "a note" Samples.fresh)) =
  [("file-new", "a note")] /\
  attached (fst (uploadTextToVectorStore JSONText.JSON_parse Samples.attach_fails
                                         "a note" Samples.fresh)) = [].
Proof.
  destruct (refused_attach_orphans_file JSONText.JSON_parse Samples.attach_fails "a note"
              Samples.fresh "file-new" (mkResponse false 500 "server_error")
              eq_refl eq_refl eq_refl eq_refl) as (_ & _ & Hfiles & Hattached).
  split; [exact Hfiles | exact Hattached].
Defined.

End UploaderFurther.

(** ** More on [/mark-seen] and [traktAddToHistory] *)

Section ServerFurther.
Import JSString JS Runtime Server.

(** The handler of [/mark-seen] never throws: it answers 400, 500 or 200.
    With an accepted title, a failing upload gives 500 with the error
    "internal_error" and the message as details, and nothing is sent to
    Trakt; a successful upload gives 200 whatever Trakt answers. *)
Theorem mark_seen_always_answers (JSON_parse : string -> option value) (e : env)
    (req_body : option value) (w : world) :
  (exists w' resp,
      mark_seen JSON_parse e req_body w = (w', inr resp) /\
      (http_status resp = 200 \/ http_status resp = 400 \/ http_status resp = 500)) /\
  (forall w1 err,
      truthy (prop (or_value req_body (JObj [])) "title") = true ->
      is_string (prop (or_value req_body (JObj [])) "title") = true ->
      Uploader.uploadTextToVectorStore JSON_parse e
        (seen_document e (or_value req_body (JObj []))) w = (w1, inl err) ->
      mark_seen JSON_parse e req_body w =
      (w1, inr (mkHttp 500 (JObj [ ("error", JStr "internal_error");
                                   ("details", JStr (error_details err)) ])))) /\
  (forall w1 fileId,
      truthy (prop (or_value req_body (JObj [])) "title") = true ->
      is_string (prop (or_value req_body (JObj [])) "title") = true ->
      Uploader.uploadTextToVectorStore JSON_parse e
        (seen_document e (or_value req_body (JObj []))) w = (w1, inr fileId) ->
      exists w2 payload,
        mark_seen JSON_parse e req_body w = (w2, inr (mkHttp 200 (JObj payload))) /\
        assoc "vectorStoreFileId" payload = Some (JStr fileId)).
Proof.
  assert (forall w1 fileId,
      truthy (prop (or_value req_body (JObj [])) "title") = true ->
      is_string (prop (or_value req_body (JObj [])) "title") = true ->
      Uploader.uploadTextToVectorStore JSON_parse e
        (seen_document e (or_value req_body (JObj []))) w = (w1, inr fileId) ->
      exists w2 payload,
        mark_seen JSON_parse e req_body w = (w2, inr (mkHttp 200 (JObj payload))) /\
        assoc "vectorStoreFileId" payload = Some (JStr fileId)) as Hok.
  { intros w1 fileId Ht Hs Hupload.
    rewrite (mark_seen_uploaded JSON_parse e req_body w w1 fileId Ht Hs Hupload).
    assert (forall traktResult,
               assoc "vectorStoreFileId"
                     (seen_payload (or_value req_body (JObj [])) fileId traktResult) =
               Some (JStr fileId)) as Hpayload
      by (intros tr; unfold seen_payload;
          destruct (prop (or_value req_body (JObj [])) "title"); reflexivity).
    destruct (sync_wanted e (or_value req_body (JObj []))).
    - unfold try_catch, ret.
      destruct (Trakt.traktAddToHistory _ _ _ _ _ _ w1) as [w2 [err|traktResult]];
        eexists; eexists; (split; [reflexivity | apply Hpayload]).
    - unfold ret. eexists; eexists; (split; [reflexivity | apply Hpayload]). }
  assert (forall w1 err,
      truthy (prop (or_value req_body (JObj [])) "title") = true ->
      is_string (prop (or_value req_body (JObj [])) "title") = true ->
      Uploader.uploadTextToVectorStore JSON_parse e
        (seen_document e (or_value req_body (JObj []))) w = (w1, inl err) ->
      mark_seen JSON_parse e req_body w =
      (w1, inr (mkHttp 500 (JObj [ ("error", JStr "internal_error");
                                   ("details", JStr (error_details err)) ])))) as Hfail.
  { intros w1 err Ht Hs Hupload. unfold mark_seen, try_catch. cbv zeta.
    rewrite Ht, Hs. cbn [negb orb]. unfold bind at 1. now rewrite Hupload. }
  split; [|split; assumption].
  destruct (truthy (prop (or_value req_body (JObj [])) "title")) eqn:Ht;
    [destruct (is_string (prop (or_value req_body (JObj [])) "title")) eqn:Hs |].
  - destruct (Uploader.uploadTextToVectorStore JSON_parse e
                (seen_document e (or_value req_body (JObj []))) w)
      as [w1 [err|fileId]] eqn:Hupload.
    + rewrite (Hfail w1 err eq_refl eq_refl eq_refl). eexists; eexists.
      split; [reflexivity | auto].
    + destruct (Hok w1 fileId eq_refl eq_refl eq_refl) as (w2 & payload & Hrun & _).
      rewrite Hrun. eexists; eexists. split; [reflexivity | auto].
  - rewrite (missing_title_rejected_aux JSON_parse e req_body w Hs).
    eexists; eexists. split; [reflexivity | auto].
  - unfold mark_seen, try_catch. cbv zeta. rewrite Ht. cbn [negb orb].
    eexists; eexists. split; [reflexivity | auto].
Qed.

End ServerFurther.

Section MirrorFurther.
Import JSString JS Runtime Server.

(** The history entry is not sent when Trakt is not configured, when the
    body says [syncTrakt: false] (or another falsy value), or when no
    identifier is given.  In each of these cases a request with an
    accepted title and a successful upload is answered 200 with
    [trakt: null], and the only calls made are those of the upload. *)
Theorem mirror_skipped_silently (JSON_parse : string -> option value) (e : env)
    (req_body : option value) (w w1 : world) (fileId : string) :
  (set_var (TRAKT_CLIENT_ID e) = false ->
   sync_wanted e (or_value req_body (JObj [])) = false) /\
  (set_var (TRAKT_ACCESS_TOKEN e) = false ->
   sync_wanted e (or_value req_body (JObj [])) = false) /\
  (forall v, prop (or_value req_body (JObj [])) "syncTrakt" = Some v ->
             truthy (Some v) = false ->
             sync_wanted e (or_value req_body (JObj [])) = false) /\
  (truthy (prop (or_value req_body (JObj [])) "trakt_id") = false ->
   truthy (prop (or_value req_body (JObj [])) "imdb") = false ->
   truthy (prop (or_value req_body (JObj [])) "slug") = false ->
   truthy (prop (or_value req_body (JObj [])) "tmdb") = false ->
   sync_wanted e (or_value req_body (JObj [])) = false) /\
  (truthy (prop (or_value req_body (JObj [])) "title") = true ->
   is_string (prop (or_value req_body (JObj [])) "title") = true ->
   Uploader.uploadTextToVectorStore JSON_parse e
     (seen_document e (or_value req_body (JObj []))) w = (w1, inr fileId) ->
   sync_wanted e (or_value req_body (JObj [])) = false ->
   mark_seen JSON_parse e req_body w =
   (w1, inr (mkHttp 200 (JObj (seen_payload (or_value req_body (JObj [])) fileId JNull)))) /\
   assoc "trakt" (seen_payload (or_value req_body (JObj [])) fileId JNull) = Some JNull).
Proof.
  split; [|split; [|split; [|split]]].
  - unfold sync_wanted. intros ->. now rewrite andb_false_r.
  - unfold sync_wanted. intros ->. now rewrite andb_false_r.
  - unfold sync_wanted. intros v -> Hv. now rewrite Hv.
  - unfold sync_wanted. intros -> -> -> ->. cbn [orb]. now rewrite andb_false_r.
  - intros Htitle Hstring Hupload Hsync. split.
    + rewrite (mark_seen_uploaded JSON_parse e req_body w w1 fileId) by assumption.
      rewrite Hsync. reflexivity.
    + unfold seen_payload.
      destruct (prop (or_value req_body (JObj [])) "title"); reflexivity.
Qed.

(** The sample request on a process without Trakt credentials. *)
Lemma mirror_skipped_witness :
  exists payload,
    snd (mark_seen JSONText.JSON_parse
           (mkEnv (Some "sk-test") (Some "vs_1") None None
                  (now (Samples.store [])) (tmpPath (Samples.store []))
                  (fetch_list (Samples.store [])) (fetch_content (Samples.store []))
                  (fs_writeFile (Samples.store [])) (fs_unlink (Samples.store []))
                  (files_create (Samples.store [])) (fetch_attach (Samples.store []))
                  (trakt_add_history (Samples.store []))
                  (trakt_get_history (Samples.store [])))
           (Some Samples.seen_inception) Samples.fresh) =
    inr (mkHttp 200 (JObj payload)) /\
    assoc "trakt" payload = Some JNull.
Proof.
  pose (e := mkEnv (Some "sk-test") (Some "vs_1") None None
                   (now (Samples.store [])) (tmpPath (Samples.store []))
                   (fetch_list (Samples.store [])) (fetch_content (Samples.store []))
                   (fs_writeFile (Samples.store [])) (fs_unlink (Samples.store []))
                   (files_create (Samples.store [])) (fetch_attach (Samples.store []))
                   (trakt_add_history (Samples.store []))
                   (trakt_get_history (Samples.store []))).
  pose (run := Uploader.uploadTextToVectorStore JSONText.JSON_parse e
                 (seen_document e Samples.seen_inception) Samples.fresh).
  destruct (mirror_skipped_silently JSONText.JSON_parse e (Some Samples.seen_inception)
              Samples.fresh (fst run) "file-new") as (Hid & _ & _ & _ & Hrun).
  destruct (Hrun eq_refl eq_refl ltac:(vm_compute; reflexivity) (Hid eq_refl))
    as [Hseen Htrakt].
  eexists. fold e. rewrite Hseen. split; [reflexivity | exact Htrakt].
Defined.

(** [traktAddToHistory] sends at most one request.  It throws before
    sending anything when Trakt is not configured and when every
    identifier is falsy.  The request it sends names exactly the truthy
    identifiers, under the keys trakt, imdb, slug and tmdb in that order. *)
Theorem history_add_sends_truthy_ids (JSON_parse : string -> option value) (e : env)
    (trakt_id imdb slug tmdb : option value) (w : world) :
  (negb (set_var (TRAKT_CLIENT_ID e)) || negb (set_var (TRAKT_ACCESS_TOKEN e)) = true ->
   Trakt.traktAddToHistory JSON_parse e trakt_id imdb slug tmdb w =
   (w, inl (Error "TRAKT_CLIENT_ID or TRAKT_ACCESS_TOKEN not configured. Check your .env"))) /\
  (negb (set_var (TRAKT_CLIENT_ID e)) || negb (set_var (TRAKT_ACCESS_TOKEN e)) = false ->
   truthy trakt_id = false -> truthy imdb = false ->
   truthy slug = false -> truthy tmdb = false ->
   Trakt.traktAddToHistory JSON_parse e trakt_id imdb slug tmdb w =
   (w, inl (Error "No valid ids provided for Trakt history (need trakt_id, imdb, slug or tmdb)"))) /\
  (calls (fst (Trakt.traktAddToHistory JSON_parse e trakt_id imdb slug tmdb w)) = calls w \/
   exists ids,
     calls (fst (Trakt.traktAddToHistory JSON_parse e trakt_id imdb slug tmdb w)) =
     calls w ++ [TraktAddHistory (JObj [("movies", JArr [JObj [("ids", JObj ids)]])])] /\
     ids = Trakt.spread_if "trakt" trakt_id ++ Trakt.spread_if "imdb" imdb ++
           Trakt.spread_if "slug" slug ++ Trakt.spread_if "tmdb" tmdb /\
     ids <> [] /\
     Forall (fun kv => truthy (Some (snd kv)) = true) ids).
Proof.
  assert (forall k v, Forall (fun kv : string * value => truthy (Some (snd kv)) = true)
                             (Trakt.spread_if k v)) as Hspread.
  { intros k [v|]; unfold Trakt.spread_if; [|constructor].
    destruct (truthy (Some v)) eqn:Hv; repeat constructor. exact Hv. }
  assert (forall k v, truthy v = false -> Trakt.spread_if k v = []) as Hfalsy.
  { intros k [v|] Hv; unfold Trakt.spread_if; [now rewrite Hv | reflexivity]. }
  unfold Trakt.traktAddToHistory, Trakt.ensureTraktConfigured, bind, throw, ret.
  split; [|split].
  - intros ->. reflexivity.
  - intros -> H1 H2 H3 H4. now rewrite !Hfalsy by assumption.
  - destruct (negb (set_var (TRAKT_CLIENT_ID e)) || negb (set_var (TRAKT_ACCESS_TOKEN e)));
      [now left |].
    destruct (length _ =? 0)%nat eqn:Hlen; [now left | right].
    eexists. split; [|split; [reflexivity | split]].
    + destruct (trakt_add_history e _) as [err|resp]; [reflexivity |].
      destruct (negb (ok resp)); [reflexivity |].
      destruct (String.eqb (body resp) EmptyString); [reflexivity |].
      destruct (JSON_parse (body resp)); reflexivity.
    + intros Hnil. rewrite Hnil in Hlen. discriminate.
    + rewrite !Forall_app. repeat split; apply Hspread.
Qed.

End MirrorFurther.

(** ** Lines of a batch of documents *)

Section TextFacts.
Import JSString JS Search.

(** What a part of the text contains, the text contains. *)
Lemma includes_inside (pre part post needle : string) :
  includes part needle = true ->
  includes (pre +:+ part +:+ post) needle = true.
Proof.
  intros H. apply includes_spec in H. destruct H as (before & after & ->).
  apply includes_spec. exists (pre +:+ before), (after +:+ post).
  now rewrite !append_assoc.
Qed.

Lemma split_lines_line (s rest : string) :
  no_newline s = true ->
  split_lines (s +:+ newline +:+ rest) = s :: split_lines rest.
Proof.
  induction s as [|c s IH]; intros H.
  - reflexivity.
  - simpl in H. apply andb_true_iff in H. destruct H as [Hc Hs].
    rewrite append_cons. simpl. apply negb_true_iff in Hc.
    rewrite Hc. change (s +:+ String LF rest) with (s +:+ newline +:+ rest).
    now rewrite (IH Hs).
Qed.

Lemma trimEnd_keeps (c : ascii) (s : string) :
  is_space c = false -> trimEnd (String c s) <> EmptyString.
Proof.
  intros Hc. simpl. destruct (trimEnd s); [rewrite Hc |]; discriminate.
Qed.

(** A line that starts with a character other than white space is kept
    by the filter of the search. *)
Lemma nonblank_starts (c : ascii) (s : string) :
  is_space c = false -> nonblank (String c s) = true.
Proof.
  intros Hc. unfold nonblank, trim. cbn [trimStart]. rewrite Hc.
  pose proof (trimEnd_keeps c s Hc) as Hne.
  destruct (trimEnd (String c s)); [congruence | reflexivity].
Qed.

Lemma nonblank_object (members : list (string * value)) :
  nonblank (JSON_stringify (JObj members)) = true.
Proof. simpl. rewrite append_cons. now apply nonblank_starts. Qed.

Lemma join_empty_cons (p : string) (ps : list string) :
  join EmptyString (p :: ps) = p +:+ join EmptyString ps.
Proof.
  destruct ps as [|q ps]; [simpl; now rewrite append_nil_r | reflexivity].
Qed.

(** Documents that each end in a line feed, joined without separator,
    are read back as the documents, one per line. *)
Lemma lines_of_documents (docs : list string) :
  Forall (fun d => no_newline d = true /\ nonblank d = true) docs ->
  lines_of (join EmptyString (List.map (fun d => d +:+ newline) docs)) = docs.
Proof.
  intros Hall. induction Hall as [|d ds [Hnl Hnb] Hds IH]; [reflexivity |].
  cbn [List.map]. rewrite join_empty_cons, append_assoc.
  unfold lines_of in *. rewrite (split_lines_line _ _ Hnl).
  cbn [List.filter]. rewrite Hnb. now rewrite IH.
Qed.

End TextFacts.

(** ** The [/import-trakt-history] route *)

Section HistoryFurther.
Import JSString JS Runtime Search Server History.

Variable JSON_parse : string -> option value.
Variable StringToNumber : string -> number.
Variable e : env.

(** [traktFetchHistory] touches nothing but the log of calls, to which
    it adds at most the history request. *)
Lemma traktFetchHistory_frame (limit : option value) (w : world) :
  fs (fst (Trakt.traktFetchHistory JSON_parse StringToNumber e limit w)) = fs w /\
  vendor_files (fst (Trakt.traktFetchHistory JSON_parse StringToNumber e limit w)) =
    vendor_files w /\
  attached (fst (Trakt.traktFetchHistory JSON_parse StringToNumber e limit w)) =
    attached w /\
  (calls (fst (Trakt.traktFetchHistory JSON_parse StringToNumber e limit w)) = calls w \/
   calls (fst (Trakt.traktFetchHistory JSON_parse StringToNumber e limit w)) =
     calls w ++ [TraktGetHistory (Trakt.safeLimit StringToNumber limit)]).
Proof.
  unfold Trakt.traktFetchHistory, Trakt.ensureTraktConfigured, bind, throw, ret.
  destruct (negb (set_var (TRAKT_CLIENT_ID e)) || negb (set_var (TRAKT_ACCESS_TOKEN e)));
    [now auto |].
  destruct (trakt_get_history e _) as [err|resp]; [now auto |].
  destruct (negb (ok resp)); [now auto |].
  destruct (JSON_parse (body resp)); now auto.
Qed.

Lemma history_documents (items : list value) :
  exists docs,
    List.map (history_document e) items = List.map (fun d => d +:+ newline) docs /\
    length docs = length items /\
    Forall (fun d => no_newline d = true /\ nonblank d = true) docs.
Proof.
  induction items as [|item items (docs & Hmap & Hlen & Hall)].
  - exists []. repeat split. constructor.
  - eexists (_ :: docs). cbn [List.map length]. rewrite Hmap, Hlen.
    split; [unfold history_document, Codec.buildMovieDocument; reflexivity |].
    split; [reflexivity |]. constructor; [|exact Hall].
    split; [apply no_newline_JSON_stringify | apply nonblank_object].
Qed.

(** The text uploaded by [/import-trakt-history] holds one line per
    history entry that has a truthy [movie.title], in the order of the
    history; the other entries (and [null] entries) are left out.  The
    response nevertheless reports [imported] as the length of the whole
    history. *)
Theorem import_counts_every_entry (req_body : option value) (w w1 w2 : world)
    (item : value) (items : list value) (fileId : string) :
  Trakt.traktFetchHistory JSON_parse StringToNumber e
    (prop (or_value req_body (JObj [])) "limit") w = (w1, inr (JArr (item :: items))) ->
  Uploader.uploadTextToVectorStore JSON_parse e (history_lines e (item :: items)) w1 =
    (w2, inr fileId) ->
  import_trakt_history JSON_parse StringToNumber e req_body w =
    (w2, inr (mkHttp 200 (JObj [ ("ok", JBool true);
                                 ("imported", JNum (Z.of_nat (length (item :: items))));
                                 ("vectorStoreFileId", JStr fileId) ]))) /\
  List.map (fun line => line +:+ newline) (lines_of (history_lines e (item :: items))) =
    List.map (history_document e)
             (List.filter (fun it => truthy (item_title it)) (item :: items)) /\
  (length (lines_of (history_lines e (item :: items))) <= length (item :: items))%nat.
Proof.
  intros Hfetch Hupload.
  destruct (history_documents
              (List.filter (fun it => truthy (item_title it)) (item :: items)))
    as (docs & Hmap & Hlen & Hall).
  assert (lines_of (history_lines e (item :: items)) = docs) as Hlines.
  { unfold history_lines. rewrite Hmap. now apply lines_of_documents. }
  split; [|split].
  - unfold import_trakt_history, try_catch, bind at 1. rewrite Hfetch.
    unfold bind. rewrite Hupload. reflexivity.
  - rewrite Hlines. now rewrite Hmap.
  - rewrite Hlines, Hlen. apply List.filter_length_le.
Qed.

(** [/import-trakt-history] always answers, with 200 or 500.  Without
    Trakt credentials it answers 500 and calls nothing.  When Trakt
    returns something other than a non-empty array it answers 200 with
    [imported: 0] and uploads nothing: no file is written, created or
    attached, and the only call made is the history request. *)
Theorem import_always_answers (req_body : option value) (w : world) :
  (exists w' r,
      import_trakt_history JSON_parse StringToNumber e req_body w = (w', inr r) /\
      (http_status r = 200 \/ http_status r = 500)) /\
  (negb (set_var (TRAKT_CLIENT_ID e)) || negb (set_var (TRAKT_ACCESS_TOKEN e)) = true ->
   import_trakt_history JSON_parse StringToNumber e req_body w =
   (w, inr (mkHttp 500
              (JObj [ ("error", JStr "internal_error");
                      ("details",
                       JStr "TRAKT_CLIENT_ID or TRAKT_ACCESS_TOKEN not configured. Check your .env") ])))) /\
  (forall w1 history,
      Trakt.traktFetchHistory JSON_parse StringToNumber e
        (prop (or_value req_body (JObj [])) "limit") w = (w1, inr history) ->
      (forall item items, history <> JArr (item :: items)) ->
      import_trakt_history JSON_parse StringToNumber e req_body w =
      (w1, inr (mkHttp 200 (JObj [ ("ok", JBool true); ("imported", JNum 0);
                                   ("message",
                                    JStr "No hay historial de Trakt o está vacío") ]))) /\
      fs w1 = fs w /\ vendor_files w1 = vendor_files w /\ attached w1 = attached w /\
      calls w1 = calls w ++
                 [TraktGetHistory
                    (Trakt.safeLimit StringToNumber
                       (prop (or_value req_body (JObj [])) "limit"))]).
Proof.
  split; [|split].
  - unfold import_trakt_history, try_catch, bind at 1.
    destruct (Trakt.traktFetchHistory _ _ _ _ w) as [w1 [err|history]].
    + do 2 eexists. split; [reflexivity | now right].
    + assert (forall (m : M http_response) r0,
                 (forall w0, m w0 = (w0, inr r0)) -> http_status r0 = 200 ->
                 exists w' r,
                   match m w1 with
                   | (w'0, inl err) =>
                       ret (mkHttp 500 (JObj [ ("error", JStr "internal_error");
                                               ("details", JStr (error_details err)) ])) w'0
                   | (w'0, inr a) => (w'0, inr a)
                   end = (w', inr r) /\ (http_status r = 200 \/ http_status r = 500)) as Hret.
      { intros m r0 Hm Hr0. rewrite Hm. do 2 eexists. split; [reflexivity | now left]. }
      destruct history as [| | | |[|item items]|];
        try (eapply Hret; [intros w0; reflexivity | reflexivity]).
      unfold bind.
      destruct (Uploader.uploadTextToVectorStore _ _ _ w1) as [w2 [err|fileId]];
        do 2 eexists; (split; [reflexivity |]); [now right | now left].
  - intros Hunset. unfold import_trakt_history, try_catch, bind at 1.
    unfold Trakt.traktFetchHistory, Trakt.ensureTraktConfigured, bind.
    rewrite Hunset. reflexivity.
  - intros w1 history Hfetch Hempty.
    pose proof (traktFetchHistory_frame
                  (prop (or_value req_body (JObj [])) "limit") w) as Hframe.
    rewrite Hfetch in Hframe. cbn [fst] in Hframe.
    destruct Hframe as (Hfs & Hvendor & Hattached & Hcalls).
    split; [|repeat split; try assumption].
    + unfold import_trakt_history, try_catch, bind at 1. rewrite Hfetch.
      destruct history as [| | | |[|item items]|]; try reflexivity.
      now destruct (Hempty item items).
    + destruct Hcalls as [Hsame | Hsent]; [|exact Hsent].
      exfalso. revert Hfetch Hsame.
      unfold Trakt.traktFetchHistory, Trakt.ensureTraktConfigured, bind, throw, ret.
      destruct (negb (set_var (TRAKT_CLIENT_ID e)) || negb (set_var (TRAKT_ACCESS_TOKEN e)));
        [discriminate |].
      destruct (trakt_get_history e _) as [err|resp]; [discriminate |].
      destruct (negb (ok resp)); [discriminate |].
      destruct (JSON_parse (body resp)); [|discriminate].
      intros Heq Hsame. injection Heq as <- _. unfold log in Hsame. cbn in Hsame.
      apply (f_equal (@length call)) in Hsame. rewrite length_app in Hsame.
      cbn in Hsame. lia.
Qed.

End HistoryFurther.

Section HistoryRuns.
Import JSString JS Runtime Search Server History.

(** A history of two entries, one of them untitled: [imported] is 2, the
    uploaded text has one line. *)
Lemma import_counts_witness :
  snd (import_trakt_history JSONText.JSON_parse JSONText.StringToNumber
         (MoreSamples.trakt_history MoreSamples.watched) None Samples.fresh) =
  inr (mkHttp 200 (JObj [ ("ok", JBool true); ("imported", JNum 2);
                          ("vectorStoreFileId", JStr "file-new") ])) /\
  length (lines_of (history_lines (MoreSamples.trakt_history MoreSamples.watched)
                                  MoreSamples.watched)) = 1%nat.
Proof.
  pose (env0 := MoreSamples.trakt_history MoreSamples.watched).
  pose (fetched := Trakt.traktFetchHistory JSONText.JSON_parse JSONText.StringToNumber
                     env0 None Samples.fresh).
  pose (uploaded := Uploader.uploadTextToVectorStore JSONText.JSON_parse env0
                      (history_lines env0 MoreSamples.watched) (fst fetched)).
  destruct (import_counts_every_entry JSONText.JSON_parse JSONText.StringToNumber env0
              None Samples.fresh (fst fetched) (fst uploaded)
              (hd JNull MoreSamples.watched) (tl MoreSamples.watched) "file-new")
    as (Hroute & _ & _).
  - vm_compute. reflexivity.
  - vm_compute. reflexivity.
  - fold env0. rewrite Hroute. split; vm_compute; reflexivity.
Defined.

End HistoryRuns.

(** ** The watchlist routes *)

Section WatchlistFurther.
Import JSString JS Runtime Http Server Watchlist.

Variable JSON_parse : string -> option value.
Variable x : xenv.

(** The request [traktModifyWatchlist] sends for an action and ids. *)
Lemma traktModifyWatchlist_cases (act : string) (trakt_id imdb slug tmdb : option value)
    (w : xworld) :
  (exists err, traktModifyWatchlist JSON_parse x act trakt_id imdb slug tmdb w =
               (w, inl err)) \/
  (exists r,
      fst (traktModifyWatchlist JSON_parse x act trakt_id imdb slug tmdb w) =
      mkXworld (inner w)
               (xcalls w ++
                [Fetch (mkRequest "POST"
                          (if String.eqb act "add"
                           then "https://api.trakt.tv/sync/watchlist"
                           else "https://api.trakt.tv/sync/watchlist/remove")
                          (trakt_headers (base x))
                          (Some (JSON_stringify
                                   (JObj [("movies",
                                           JArr [JObj [("ids",
                                             JObj (Trakt.spread_if "trakt" trakt_id ++
                                                   Trakt.spread_if "imdb" imdb ++
                                                   Trakt.spread_if "slug" slug ++
                                                   Trakt.spread_if "tmdb" tmdb))]])]))))]) /\
      snd (traktModifyWatchlist JSON_parse x act trakt_id imdb slug tmdb w) = r /\
      Trakt.spread_if "trakt" trakt_id ++ Trakt.spread_if "imdb" imdb ++
      Trakt.spread_if "slug" slug ++ Trakt.spread_if "tmdb" tmdb <> []).
Proof.
  unfold traktModifyWatchlist, xbind, lift_inner, Trakt.ensureTraktConfigured,
    throw, ret, xthrow.
  destruct (negb (set_var (TRAKT_CLIENT_ID (base x))) ||
            negb (set_var (TRAKT_ACCESS_TOKEN (base x)))).
  - left. eexists. destruct w. reflexivity.
  - cbn [inner xcalls].
    destruct (length _ =? 0)%nat eqn:Hlen.
    + left. eexists. destruct w. reflexivity.
    + right. eexists. split; [|split; [reflexivity |]].
      * unfold fetch. cbn [inner xcalls].
        destruct (http x _) as [err|rep]; [reflexivity |].
        destruct (negb (ok (reply_response rep))); [reflexivity |].
        destruct (String.eqb (body (reply_response rep)) EmptyString); [reflexivity |].
        destruct (JSON_parse (body (reply_response rep))); reflexivity.
      * intros Hnil. rewrite Hnil in Hlen. discriminate.
Qed.

(** Once an identifier is present, the route is the document step
    followed by the Trakt step. *)
Lemma watchlist_route_with_id (f : flavour) (req_body : option value) (w : xworld) :
  has_id (or_value req_body (JObj [])) = true ->
  watchlist_route JSON_parse x f req_body w =
  match (if writes_document (or_value req_body (JObj []))
         then match Uploader.uploadTextToVectorStore JSON_parse (base x)
                      (watchlist_document x f (or_value req_body (JObj []))) (inner w) with
              | (w1, inl err) => (mkXworld w1 (xcalls w), inl err)
              | (w1, inr fileId) => (mkXworld w1 (xcalls w), inr (JStr fileId))
              end
         else (w, inr JNull)) with
  | (w1, inl err) =>
      (w1, inr (mkHttp 500 (JObj [ ("error", JStr "internal_error");
                                   ("details", JStr (error_details err)) ])))
  | (w1, inr vectorFileId) =>
      match traktModifyWatchlist JSON_parse x (action f)
              (prop (or_value req_body (JObj [])) "trakt_id")
              (prop (or_value req_body (JObj [])) "imdb")
              (prop (or_value req_body (JObj [])) "slug")
              (prop (or_value req_body (JObj [])) "tmdb") w1 with
      | (w2, inl err) =>
          (w2, inr (mkHttp 500 (JObj [ ("error", JStr "internal_error");
                                       ("details", JStr (error_details err)) ])))
      | (w2, inr traktResult) =>
          (w2, inr (mkHttp 200 (JObj [ ("ok", JBool true);
                                       ("action", JStr (action f));
                                       ("watchlist", traktResult);
                                       ("vectorStoreFileId", vectorFileId) ])))
      end
  end.
Proof.
  intros Hid. unfold watchlist_route, xtry_catch. cbv zeta. rewrite Hid. cbn [negb].
  unfold xbind, lift_inner, xret.
  destruct (writes_document (or_value req_body (JObj []))).
  - destruct (Uploader.uploadTextToVectorStore _ _ _ (inner w)) as [w1 [err|fileId]];
      [reflexivity |].
    destruct (traktModifyWatchlist _ _ _ _ _ _ _ _) as [w2 [err|traktResult]]; reflexivity.
  - destruct (traktModifyWatchlist _ _ _ _ _ _ _ _) as [w2 [err|traktResult]]; reflexivity.
Qed.

Lemma watchlist_route_without_id (f : flavour) (req_body : option value) (w : xworld) :
  has_id (or_value req_body (JObj [])) = false ->
  watchlist_route JSON_parse x f req_body w =
  (w, inr (mkHttp 400
             (JObj [("error", JStr "Need at least one id: trakt_id, imdb, slug or tmdb")]))).
Proof.
  intros Hid. unfold watchlist_route, xtry_catch. cbv zeta. rewrite Hid. reflexivity.
Qed.

(** An identifier in the body is an identifier in the request to Trakt. *)
Lemma has_id_spread (b : value) :
  has_id b = true ->
  (length (Trakt.spread_if "trakt" (prop b "trakt_id") ++
           Trakt.spread_if "imdb" (prop b "imdb") ++
           Trakt.spread_if "slug" (prop b "slug") ++
           Trakt.spread_if "tmdb" (prop b "tmdb")) =? 0)%nat = false.
Proof.
  unfold has_id, Trakt.spread_if. intros Hid.
  destruct (prop b "trakt_id") as [v1|]; [destruct (truthy (Some v1)); [reflexivity |] |];
    (destruct (prop b "imdb") as [v2|]; [destruct (truthy (Some v2)); [reflexivity |] |];
     (destruct (prop b "slug") as [v3|]; [destruct (truthy (Some v3)); [reflexivity |] |];
      (destruct (prop b "tmdb") as [v4|]; [destruct (truthy (Some v4)); [reflexivity |] |];
       discriminate))).
Qed.

(** Both watchlist routes always answer, with 200, 400 or 500.  A body
    without a truthy [trakt_id], [imdb], [slug] or [tmdb] is answered 400
    and nothing happens: no document is written and no request is sent.
    A body with an identifier is never answered 400. *)
Theorem watchlist_always_answers (f : flavour) (req_body : option value) (w : xworld) :
  (exists w' r,
      watchlist_route JSON_parse x f req_body w = (w', inr r) /\
      (http_status r = 200 \/ http_status r = 400 \/ http_status r = 500)) /\
  (has_id (or_value req_body (JObj [])) = false ->
   watchlist_route JSON_parse x f req_body w =
   (w, inr (mkHttp 400
              (JObj [("error", JStr "Need at least one id: trakt_id, imdb, slug or tmdb")])))) /\
  (has_id (or_value req_body (JObj [])) = true ->
   forall w' r, watchlist_route JSON_parse x f req_body w = (w', inr r) ->
                http_status r = 200 \/ http_status r = 500).
Proof.
  assert (has_id (or_value req_body (JObj [])) = true ->
          exists w' r, watchlist_route JSON_parse x f req_body w = (w', inr r) /\
                       (http_status r = 200 \/ http_status r = 500)) as Hwith.
  { intros Hid. rewrite (watchlist_route_with_id f req_body w Hid).
    destruct (writes_document (or_value req_body (JObj []))).
    - destruct (Uploader.uploadTextToVectorStore _ _ _ (inner w)) as [w1 [err|fileId]].
      + do 2 eexists. split; [reflexivity | now right].
      + destruct (traktModifyWatchlist _ _ _ _ _ _ _ _) as [w2 [err|traktResult]];
          do 2 eexists; (split; [reflexivity |]); [now right | now left].
    - destruct (traktModifyWatchlist _ _ _ _ _ _ _ _) as [w2 [err|traktResult]];
        do 2 eexists; (split; [reflexivity |]); [now right | now left]. }
  pose proof (watchlist_route_without_id f req_body w) as Hwithout.
  split; [|split].
  - destruct (has_id (or_value req_body (JObj []))) eqn:Hid.
    + destruct (Hwith eq_refl) as (w' & r & Hrun & Hstatus).
      exists w', r. split; [exact Hrun | destruct Hstatus; auto].
    + do 2 eexists. split; [exact (Hwithout eq_refl) | right; now left].
  - exact Hwithout.
  - intros Hid w' r Hrun. destruct (Hwith Hid) as (w'' & r' & Hrun' & Hstatus).
    rewrite Hrun in Hrun'. injection Hrun' as _ ->. exact Hstatus.
Qed.

(** The document is uploaded before Trakt is called and is not taken
    back: when the upload succeeds and the Trakt step then throws (Trakt
    not configured, the request rejected or answered with an error
    status, an unreadable answer), the route answers 500 although the
    document is stored at the vendor and attached to the vector store. *)
Theorem watchlist_document_outlives_trakt_failure (f : flavour)
    (req_body : option value) (w : xworld) (w1 : world) (w2 : xworld)
    (fileId : string) (err : error) :
  has_id (or_value req_body (JObj [])) = true ->
  writes_document (or_value req_body (JObj [])) = true ->
  Uploader.uploadTextToVectorStore JSON_parse (base x)
    (watchlist_document x f (or_value req_body (JObj []))) (inner w) = (w1, inr fileId) ->
  traktModifyWatchlist JSON_parse x (action f)
    (prop (or_value req_body (JObj [])) "trakt_id")
    (prop (or_value req_body (JObj [])) "imdb")
    (prop (or_value req_body (JObj [])) "slug")
    (prop (or_value req_body (JObj [])) "tmdb") (mkXworld w1 (xcalls w)) = (w2, inl err) ->
  watchlist_route JSON_parse x f req_body w =
  (w2, inr (mkHttp 500 (JObj [ ("error", JStr "internal_error");
                               ("details", JStr (error_details err)) ]))) /\
  inner w2 = w1 /\
  In (fileId, watchlist_document x f (or_value req_body (JObj []))) (vendor_files (inner w2)) /\
  In fileId (attached (inner w2)).
Proof.
  intros Hid Hwrites Hupload Htrakt.
  assert (inner w2 = w1) as Hinner.
  { destruct (traktModifyWatchlist_cases (action f)
                (prop (or_value req_body (JObj [])) "trakt_id")
                (prop (or_value req_body (JObj [])) "imdb")
                (prop (or_value req_body (JObj [])) "slug")
                (prop (or_value req_body (JObj [])) "tmdb") (mkXworld w1 (xcalls w)))
      as [[err' Hthrown] | (r & Hworld & _)].
    - rewrite Htrakt in Hthrown. now injection Hthrown as -> _.
    - rewrite Htrakt in Hworld. cbn [fst] in Hworld. now rewrite Hworld. }
  split; [|split; [exact Hinner |]].
  - rewrite (watchlist_route_with_id f req_body w Hid), Hwrites, Hupload, Htrakt.
    reflexivity.
  - rewrite Hinner. exact (upload_stored JSON_parse (base x) _ _ _ _ Hupload).
Qed.

(** No document is written when the body has no truthy title or when
    [writeToVector] is present and falsy; [null] counts as falsy, only an
    absent flag means true.  The route then touches no file and nothing at
    the vendor, and when it answers 200 the [vectorStoreFileId] is [null]. *)
Theorem watchlist_without_document (f : flavour) (req_body : option value) (w : xworld) :
  (truthy (prop (or_value req_body (JObj [])) "title") = false ->
   writes_document (or_value req_body (JObj [])) = false) /\
  (forall v, prop (or_value req_body (JObj [])) "writeToVector" = Some v ->
             truthy (Some v) = false ->
             writes_document (or_value req_body (JObj [])) = false) /\
  (writes_document (or_value req_body (JObj [])) = false ->
   inner (fst (watchlist_route JSON_parse x f req_body w)) = inner w /\
   forall w' r, watchlist_route JSON_parse x f req_body w = (w', inr r) ->
                http_status r = 200 ->
                prop (json r) "vectorStoreFileId" = Some JNull).
Proof.
  split; [|split].
  - unfold writes_document. intros ->. apply andb_false_r.
  - unfold writes_document. intros v -> ->. reflexivity.
  - intros Hwrites.
    destruct (has_id (or_value req_body (JObj []))) eqn:Hid.
    + rewrite (watchlist_route_with_id f req_body w Hid), Hwrites.
      destruct (traktModifyWatchlist_cases (action f)
                  (prop (or_value req_body (JObj [])) "trakt_id")
                  (prop (or_value req_body (JObj [])) "imdb")
                  (prop (or_value req_body (JObj [])) "slug")
                  (prop (or_value req_body (JObj [])) "tmdb") w)
        as [[err Hthrown] | (r0 & Hworld & _)].
      * rewrite Hthrown. split; [reflexivity |].
        intros w' r Hrun. injection Hrun as _ <-. discriminate.
      * destruct (traktModifyWatchlist _ _ _ _ _ _ _ _) as [w2 [err|traktResult]];
          cbn [fst] in *; (split; [now rewrite Hworld |]);
          intros w' r Hrun; injection Hrun as _ <-; [discriminate | reflexivity].
    + rewrite (watchlist_route_without_id f req_body w Hid).
      split; [reflexivity |]. intros w' r Hrun. injection Hrun as _ <-. discriminate.
Qed.

(** A request that has an identifier, on a process with Trakt
    credentials, sends exactly one request once its document is written
    or skipped: a POST with the Trakt headers whose body names only the
    truthy identifiers.  The add route posts to [/sync/watchlist], the
    remove route to [/sync/watchlist/remove]. *)
Theorem watchlist_sends_one_request (f : flavour) (req_body : option value) (w : xworld) :
  has_id (or_value req_body (JObj [])) = true ->
  negb (set_var (TRAKT_CLIENT_ID (base x))) ||
  negb (set_var (TRAKT_ACCESS_TOKEN (base x))) = false ->
  (writes_document (or_value req_body (JObj [])) = false \/
   exists w1 fileId,
     Uploader.uploadTextToVectorStore JSON_parse (base x)
       (watchlist_document x f (or_value req_body (JObj []))) (inner w) =
     (w1, inr fileId)) ->
  exists url ids,
    xcalls (fst (watchlist_route JSON_parse x f req_body w)) =
    xcalls w ++
    [Fetch (mkRequest "POST" url (trakt_headers (base x))
              (Some (JSON_stringify (JObj [("movies", JArr [JObj [("ids", JObj ids)]])]))))] /\
    (f = adding -> url = "https://api.trakt.tv/sync/watchlist") /\
    (f = removing -> url = "https://api.trakt.tv/sync/watchlist/remove") /\
    ids = Trakt.spread_if "trakt" (prop (or_value req_body (JObj [])) "trakt_id") ++
          Trakt.spread_if "imdb" (prop (or_value req_body (JObj [])) "imdb") ++
          Trakt.spread_if "slug" (prop (or_value req_body (JObj [])) "slug") ++
          Trakt.spread_if "tmdb" (prop (or_value req_body (JObj [])) "tmdb") /\
    ids <> [] /\
    Forall (fun kv => truthy (Some (snd kv)) = true) ids.
Proof.
  intros Hid Hset Hdoc.
  assert (forall k v, Forall (fun kv : string * value => truthy (Some (snd kv)) = true)
                             (Trakt.spread_if k v)) as Hspread.
  { intros k [v|]; unfold Trakt.spread_if; [|constructor].
    destruct (truthy (Some v)) eqn:Hv; repeat constructor. exact Hv. }
  pose proof (has_id_spread _ Hid) as Hlen.
  assert (forall w0,
             xcalls (fst (traktModifyWatchlist JSON_parse x (action f)
                            (prop (or_value req_body (JObj [])) "trakt_id")
                            (prop (or_value req_body (JObj [])) "imdb")
                            (prop (or_value req_body (JObj [])) "slug")
                            (prop (or_value req_body (JObj [])) "tmdb") w0)) =
             xcalls w0 ++
             [Fetch (mkRequest "POST"
                       (if String.eqb (action f) "add"
                        then "https://api.trakt.tv/sync/watchlist"
                        else "https://api.trakt.tv/sync/watchlist/remove")
                       (trakt_headers (base x))
                       (Some (JSON_stringify
                                (JObj [("movies",
                                        JArr [JObj [("ids",
                                          JObj (Trakt.spread_if "trakt"
                                                  (prop (or_value req_body (JObj [])) "trakt_id") ++
                                                Trakt.spread_if "imdb"
                                                  (prop (or_value req_body (JObj [])) "imdb") ++
                                                Trakt.spread_if "slug"
                                                  (prop (or_value req_body (JObj [])) "slug") ++
                                                Trakt.spread_if "tmdb"
                                                  (prop (or_value req_body (JObj [])) "tmdb")))]])]))))])
    as Hsent.
  { intros w0.
    destruct (traktModifyWatchlist_cases (action f)
                (prop (or_value req_body (JObj [])) "trakt_id")
                (prop (or_value req_body (JObj [])) "imdb")
                (prop (or_value req_body (JObj [])) "slug")
                (prop (or_value req_body (JObj [])) "tmdb") w0)
      as [[err Hthrown] | (r & Hworld & _)]; [|now rewrite Hworld].
    exfalso. revert Hthrown.
    unfold traktModifyWatchlist, xbind, lift_inner, Trakt.ensureTraktConfigured,
      throw, ret, xthrow.
    rewrite Hset, Hlen. unfold fetch.
    destruct (http x _) as [err'|rep].
    - intros Heq. injection Heq as Heq _. apply (f_equal xcalls) in Heq.
      cbn in Heq. apply (f_equal (@length xcall)) in Heq.
      rewrite length_app in Heq. cbn in Heq. lia.
    - destruct (negb (ok (reply_response rep)));
        [|destruct (String.eqb (body (reply_response rep)) EmptyString);
          [|destruct (JSON_parse (body (reply_response rep)))]];
        intros Heq; try discriminate;
        injection Heq as Heq _; apply (f_equal xcalls) in Heq;
        cbn in Heq; apply (f_equal (@length xcall)) in Heq;
        rewrite length_app in Heq; cbn in Heq; lia. }
  do 2 eexists. split; [|split; [|split; [|split; [reflexivity | split]]]].
  - rewrite (watchlist_route_with_id f req_body w Hid).
    destruct Hdoc as [Hskip | (w1 & fileId & Hupload)].
    + rewrite Hskip. specialize (Hsent w).
      destruct (traktModifyWatchlist _ _ _ _ _ _ _ _) as [w2 [err|traktResult]];
        exact Hsent.
    + destruct (writes_document (or_value req_body (JObj []))).
      * rewrite Hupload. specialize (Hsent (mkXworld w1 (xcalls w))).
        destruct (traktModifyWatchlist _ _ _ _ _ _ _ _) as [w2 [err|traktResult]];
          exact Hsent.
      * specialize (Hsent w).
        destruct (traktModifyWatchlist _ _ _ _ _ _ _ _) as [w2 [err|traktResult]];
          exact Hsent.
  - intros ->. reflexivity.
  - intros ->. reflexivity.
  - intros Hnil. rewrite Hnil in Hlen. discriminate.
  - rewrite !Forall_app. repeat split; apply Hspread.
Qed.

End WatchlistFurther.

Section WatchlistRuns.
Import JSString JS Runtime Http Server Watchlist.

(** Trakt answers 503 to the sample request: the route answers 500 and
    the document of the request is in the vector store. *)
Lemma watchlist_outlives_witness :
  snd (watchlist_route JSONText.JSON_parse (MoreSamples.offline (Samples.store []))
         adding (Some MoreSamples.watch_alien) MoreSamples.start) =
  inr (mkHttp 500
         (JObj [ ("error", JStr "internal_error");
                 ("details", JStr "Trakt watchlist add error 503: Service Unavailable") ])) /\
  attached (inner (fst (watchlist_route JSONText.JSON_parse
                          (MoreSamples.offline (Samples.store []))
                          adding (Some MoreSamples.watch_alien) MoreSamples.start))) =
  ["file-new"].
Proof.
  pose (x0 := MoreSamples.offline (Samples.store [])).
  pose (uploaded := Uploader.uploadTextToVectorStore JSONText.JSON_parse (base x0)
                      (watchlist_document x0 adding MoreSamples.watch_alien)
                      Samples.fresh).
  pose (called := traktModifyWatchlist JSONText.JSON_parse x0 "add"
                    None (Some (JStr "tt0078748")) None None
                    (mkXworld (fst uploaded) [])).
  destruct (watchlist_document_outlives_trakt_failure JSONText.JSON_parse x0 adding
              (Some MoreSamples.watch_alien) MoreSamples.start (fst uploaded) (fst called)
              "file-new"
              (Error "Trakt watchlist add error 503: Service Unavailable")
              eq_refl eq_refl)
    as (Hroute & _ & _ & _).
  - vm_compute. reflexivity.
  - vm_compute. reflexivity.
  - fold x0. rewrite Hroute. split; vm_compute; reflexivity.
Defined.

(** The sample request on the remove route: one POST to
    [/sync/watchlist/remove] naming the imdb identifier. *)
Lemma watchlist_request_witness :
  exists url ids,
    xcalls (fst (watchlist_route JSONText.JSON_parse
                   (MoreSamples.online (Samples.store []) EmptyString None)
                   removing (Some MoreSamples.watch_alien) MoreSamples.start)) =
    [Fetch (mkRequest "POST" url
              (trakt_headers (Samples.store []))
              (Some (JSON_stringify (JObj [("movies", JArr [JObj [("ids", JObj ids)]])]))))] /\
    url = "https://api.trakt.tv/sync/watchlist/remove" /\
    ids = [("imdb", JStr "tt0078748")].
Proof.
  destruct (watchlist_sends_one_request JSONText.JSON_parse
              (MoreSamples.online (Samples.store []) EmptyString None)
              removing (Some MoreSamples.watch_alien) MoreSamples.start eq_refl eq_refl)
    as (url & ids & Hcalls & _ & Hurl & Hids & _).
  - right. do 2 eexists. vm_compute. reflexivity.
  - exists url, ids. split; [exact Hcalls |]. split; [exact (Hurl eq_refl) | exact Hids].
Defined.

(** The sample request with [writeToVector: null]: answered 200 with
    [vectorStoreFileId: null], nothing attached. *)
Lemma watchlist_null_flag_witness :
  snd (watchlist_route JSONText.JSON_parse
         (MoreSamples.online (Samples.store []) EmptyString None)
         adding (Some MoreSamples.watch_alien_null_flag) MoreSamples.start) =
  inr (mkHttp 200 (JObj [ ("ok", JBool true); ("action", JStr "add");
                          ("watchlist", JObj [("ok", JBool true)]);
                          ("vectorStoreFileId", JNull) ])) /\
  inner (fst (watchlist_route JSONText.JSON_parse
                (MoreSamples.online (Samples.store []) EmptyString None)
                adding (Some MoreSamples.watch_alien_null_flag) MoreSamples.start)) =
  Samples.fresh.
Proof.
  destruct (watchlist_without_document JSONText.JSON_parse
              (MoreSamples.online (Samples.store []) EmptyString None)
              adding (Some MoreSamples.watch_alien_null_flag) MoreSamples.start)
    as (_ & Hflag & Hskip).
  destruct (Hskip (Hflag JNull eq_refl eq_refl)) as [Hinner _].
  split; [vm_compute; reflexivity | exact Hinner].
Defined.

End WatchlistRuns.

(** ** The [trakt_request] tool *)

Section TraktToolFurther.
Import JSString JS Runtime Http TraktTool.

Variable JSON_parse : string -> option value.
Variable encodeURIComponent : string -> string.
Variable x : xenv.

(** [trakt_request] sends at most one request, and only to Trakt.
    Without credentials, or for a path that does not start with a slash,
    it throws and sends nothing.  Otherwise it sends exactly one request:
    with the method asked for, to a URL that starts with
    [https://api.trakt.tv/], with the Trakt headers of the server, and
    with a body only when one was given and the method is not GET. *)
Theorem trakt_tool_request (a : trakt_args) (w : xworld) :
  (negb (set_var (TRAKT_CLIENT_ID (base x))) ||
   negb (set_var (TRAKT_ACCESS_TOKEN (base x))) = true ->
   trakt_request JSON_parse encodeURIComponent x a w =
   (w, inl (Error "Trakt no está configurado en el servidor"))) /\
  (negb (set_var (TRAKT_CLIENT_ID (base x))) ||
   negb (set_var (TRAKT_ACCESS_TOKEN (base x))) = false ->
   startsWith (path a) "/" = false ->
   trakt_request JSON_parse encodeURIComponent x a w =
   (w, inl (Error "El path de Trakt debe empezar por '/'"))) /\
  (negb (set_var (TRAKT_CLIENT_ID (base x))) ||
   negb (set_var (TRAKT_ACCESS_TOKEN (base x))) = false ->
   startsWith (path a) "/" = true ->
   exists url payload,
     fst (trakt_request JSON_parse encodeURIComponent x a w) =
     mkXworld (inner w)
              (xcalls w ++ [Fetch (mkRequest (method a) url (trakt_headers (base x)) payload)]) /\
     url = "https://api.trakt.tv" +:+ path a +:+ query_string encodeURIComponent (query a) /\
     startsWith url "https://api.trakt.tv/" = true /\
     (method a = "GET" -> payload = None) /\
     (body a = None -> payload = None) /\
     (forall members, body a = Some members -> method a <> "GET" ->
                      payload = Some (JSON_stringify (JObj members)))).
Proof.
  split; [|split].
  - intros Hunset. unfold trakt_request. rewrite Hunset. reflexivity.
  - intros Hset Hpath. unfold trakt_request. rewrite Hset, Hpath. reflexivity.
  - intros Hset Hpath. unfold trakt_request. rewrite Hset, Hpath. cbn [negb].
    do 2 eexists. split; [|split; [reflexivity | split; [|split; [|split]]]].
    + unfold xbind, fetch, xret. cbv zeta.
      destruct (http x _) as [err|rep]; reflexivity.
    + apply startsWith_spec in Hpath. destruct Hpath as [rest ->].
      apply startsWith_spec. exists (rest +:+ query_string encodeURIComponent (query a)).
      now rewrite <- !append_assoc.
    + intros ->. destruct (body a); reflexivity.
    + intros ->. reflexivity.
    + intros members -> Hmethod.
      destruct (String.eqb (method a) "GET") eqn:Heq; [|reflexivity].
      apply String.eqb_eq in Heq. contradiction.
Qed.

(** Whatever Trakt answers, the tool returns it: an error status or a
    body that is not JSON does not make it throw.  The output carries the
    status and [ok] of the response; [data] is [null] for an empty body,
    the parsed value for a JSON body, and the raw text otherwise; the
    text content is the indented JSON of the structured content. *)
Theorem trakt_tool_passes_answer (a : trakt_args) (w : xworld) (rep : reply)
    (payload : option string) :
  negb (set_var (TRAKT_CLIENT_ID (base x))) ||
  negb (set_var (TRAKT_ACCESS_TOKEN (base x))) = false ->
  startsWith (path a) "/" = true ->
  payload = match body a with
            | Some members => if negb (String.eqb (method a) "GET")
                              then Some (JSON_stringify (JObj members))
                              else None
            | None => None
            end ->
  http x (mkRequest (method a)
            ("https://api.trakt.tv" +:+ path a +:+ query_string encodeURIComponent (query a))
            (trakt_headers (base x)) payload) = Resolved rep ->
  exists out data,
    snd (trakt_request JSON_parse encodeURIComponent x a w) = inr out /\
    Mcp.content_text out = JSON_stringify_indented EmptyString (Mcp.structuredContent out) /\
    prop (Mcp.structuredContent out) "status" = Some (JNum (status (reply_response rep))) /\
    prop (Mcp.structuredContent out) "ok" = Some (JBool (ok (reply_response rep))) /\
    prop (Mcp.structuredContent out) "data" = Some data /\
    (Runtime.body (reply_response rep) = EmptyString -> data = JNull) /\
    (Runtime.body (reply_response rep) <> EmptyString ->
     forall v, JSON_parse (Runtime.body (reply_response rep)) = Some v -> data = v) /\
    (Runtime.body (reply_response rep) <> EmptyString ->
     JSON_parse (Runtime.body (reply_response rep)) = None ->
     data = JStr (Runtime.body (reply_response rep))).
Proof.
  intros Hset Hpath -> Hanswer.
  unfold trakt_request. rewrite Hset, Hpath. cbn [negb].
  unfold xbind, fetch, xret. cbv zeta. rewrite Hanswer. cbn [snd].
  do 2 eexists. split; [reflexivity |].
  split; [reflexivity |]. split; [reflexivity |]. split; [reflexivity |].
  split; [reflexivity |]. unfold parse_or_text.
  split; [|split].
  - intros ->. reflexivity.
  - intros Hne v Hv. apply String.eqb_neq in Hne. now rewrite Hne, Hv.
  - intros Hne Hv. apply String.eqb_neq in Hne. now rewrite Hne, Hv.
Qed.

End TraktToolFurther.

Section TraktToolRuns.
Import JSString JS Runtime Http TraktTool.

(** A GET with a body and a query: one request, to the history URL with
    its query string, without body; and a path that names another host is
    refused before anything is sent. *)
Lemma trakt_tool_request_witness :
  xcalls (fst (trakt_request JSONText.JSON_parse MoreSamples.unreserved
                 (MoreSamples.online (Samples.store []) "[]" None)
                 MoreSamples.read_history MoreSamples.start)) =
  [Fetch (mkRequest "GET" "https://api.trakt.tv/sync/history/movies?limit=5"
            (trakt_headers (Samples.store [])) None)] /\
  trakt_request JSONText.JSON_parse MoreSamples.unreserved
    (MoreSamples.online (Samples.store []) "[]" None)
    MoreSamples.other_host MoreSamples.start =
  (MoreSamples.start, inl (Error "El path de Trakt debe empezar por '/'")).
Proof.
  pose (x0 := MoreSamples.online (Samples.store []) "[]" None).
  destruct (trakt_tool_request JSONText.JSON_parse MoreSamples.unreserved x0
              MoreSamples.read_history MoreSamples.start) as (_ & _ & Hsent).
  destruct (trakt_tool_request JSONText.JSON_parse MoreSamples.unreserved x0
              MoreSamples.other_host MoreSamples.start) as (_ & Hrefused & _).
  destruct (Hsent eq_refl eq_refl) as (url & payload & Hworld & Hurl & _ & Hget & _).
  split; [|exact (Hrefused eq_refl eq_refl)].
  fold x0. rewrite Hworld, Hurl, (Hget eq_refl). reflexivity.
Defined.

(** Trakt answers 503 with a text that is not JSON: the tool returns
    status 503, [ok: false] and the text as data. *)
Lemma trakt_tool_answer_witness :
  exists out,
    snd (trakt_request JSONText.JSON_parse MoreSamples.unreserved
           (MoreSamples.offline (Samples.store []))
           MoreSamples.read_history MoreSamples.start) = inr out /\
    prop (Mcp.structuredContent out) "status" = Some (JNum 503) /\
    prop (Mcp.structuredContent out) "ok" = Some (JBool false) /\
    prop (Mcp.structuredContent out) "data" = Some (JStr "Service Unavailable").
Proof.
  destruct (trakt_tool_passes_answer JSONText.JSON_parse MoreSamples.unreserved
              (MoreSamples.offline (Samples.store []))
              MoreSamples.read_history MoreSamples.start
              (mkReply (mkResponse false 503 "Service Unavailable") []) None
              eq_refl eq_refl eq_refl eq_refl)
    as (out & data & Hout & _ & Hstatus & Hok & Hdata & _ & _ & Hraw).
  exists out. split; [exact Hout |]. split; [exact Hstatus |]. split; [exact Hok |].
  rewrite Hdata. f_equal. apply Hraw; [discriminate | vm_compute; reflexivity].
Defined.

End TraktToolRuns.

(** ** The tools of the agent and the [/agent/chat] route *)

Section AgentFurther.
Import JSString JS Runtime Http Server Agent.

Variable JSON_parse : string -> option value.
Variable x : xenv.

(** The tools that post to the backend ([yen_mark_seen],
    [yen_import_trakt_history], [yen_watchlist_add],
    [yen_watchlist_remove], [yen_trakt]) send exactly one POST, to the
    route of the tool under the backend URL, with the arguments as JSON
    body.  They throw only when the request itself is rejected: any
    answer, also an error status or a body that is not JSON, is returned
    as [{ status, ok, url, data }], where [data] is [null] for an empty
    body, the parsed value for a JSON body and [{ raw: text }] otherwise.
    The backend URL is the default one when the variable is unset or
    empty. *)
Theorem backend_tools_report_any_answer (route : string) (args : value) (w : xworld) :
  fst (post_to_backend JSON_parse x route args w) =
  mkXworld (inner w)
           (xcalls w ++ [Fetch (mkRequest "POST" (backend_url x +:+ route) json_headers
                                  (Some (JSON_stringify args)))]) /\
  (forall err,
      http x (mkRequest "POST" (backend_url x +:+ route) json_headers
                (Some (JSON_stringify args))) = Rejected err ->
      snd (post_to_backend JSON_parse x route args w) = inl err) /\
  (forall rep,
      http x (mkRequest "POST" (backend_url x +:+ route) json_headers
                (Some (JSON_stringify args))) = Resolved rep ->
      exists data,
        snd (post_to_backend JSON_parse x route args w) =
        inr (JObj [ ("status", JNum (status (reply_response rep)));
                    ("ok", JBool (ok (reply_response rep)));
                    ("url", JStr (backend_url x +:+ route));
                    ("data", data) ]) /\
        (body (reply_response rep) = EmptyString -> data = JNull) /\
        (body (reply_response rep) <> EmptyString ->
         forall v, JSON_parse (body (reply_response rep)) = Some v -> data = v) /\
        (body (reply_response rep) <> EmptyString ->
         JSON_parse (body (reply_response rep)) = None ->
         data = JObj [("raw", JStr (body (reply_response rep)))])) /\
  (set_var (YEN_BACKEND_URL x) = false ->
   backend_url x = "https://a-movies-production.up.railway.app") /\
  (forall limit,
      xcalls (fst (yen_import_trakt_history JSON_parse x limit w)) =
      xcalls w ++ [Fetch (mkRequest "POST" (backend_url x +:+ "/import-trakt-history")
                            json_headers
                            (Some (JSON_stringify (JObj [("limit", limit)]))))]) /\
  xcalls (fst (yen_mark_seen JSON_parse x args w)) =
  xcalls w ++ [Fetch (mkRequest "POST" (backend_url x +:+ "/mark-seen") json_headers
                        (Some (JSON_stringify args)))].
Proof.
  assert (forall route0 args0,
             fst (post_to_backend JSON_parse x route0 args0 w) =
             mkXworld (inner w)
                      (xcalls w ++ [Fetch (mkRequest "POST" (backend_url x +:+ route0)
                                             json_headers
                                             (Some (JSON_stringify args0)))])) as Hsent.
  { intros route0 args0. unfold post_to_backend, xbind, fetch, xret. cbv zeta.
    destruct (http x _) as [err|rep]; reflexivity. }
  split; [apply Hsent |].
  split; [|split; [|split; [|split]]].
  - intros err Hrejected. unfold post_to_backend, xbind, fetch. cbv zeta.
    now rewrite Hrejected.
  - intros rep Hanswer. unfold post_to_backend, xbind, fetch, xret. cbv zeta.
    rewrite Hanswer. cbn [snd]. eexists. split; [reflexivity |].
    unfold parse_or_raw. split; [|split].
    + intros ->. reflexivity.
    + intros Hne v Hv. apply String.eqb_neq in Hne. now rewrite Hne, Hv.
    + intros Hne Hv. apply String.eqb_neq in Hne. now rewrite Hne, Hv.
  - unfold backend_url, set_var. destruct (YEN_BACKEND_URL x) as [url|]; [|reflexivity].
    destruct (String.eqb url EmptyString); [reflexivity | discriminate].
  - intros limit. unfold yen_import_trakt_history. now rewrite Hsent.
  - unfold yen_mark_seen. now rewrite Hsent.
Qed.

(** [yen_memory] checks its argument before it sends anything: a write
    whose [payloadJson] is [null] or empty, and a delete whose [fileId] is
    [null] or empty, throw and send no request.  Otherwise exactly one
    POST is sent: [{ payloadText }] to [/vector/write] for a write,
    [{ file_id }] to [/vector/delete-file] for a delete. *)
Theorem memory_tool_checks_first (operation : string) (payloadJson fileId : option string)
    (w : xworld) :
  (operation = "write" -> given payloadJson = false ->
   yen_memory JSON_parse x operation payloadJson fileId w =
   (w, inl (Error "yen_memory.write requiere payloadJson (string JSON) no nulo."))) /\
  (operation = "delete" -> given fileId = false ->
   yen_memory JSON_parse x operation payloadJson fileId w =
   (w, inl (Error "yen_memory.delete requiere fileId (string) no nulo."))) /\
  (forall text, operation = "write" -> payloadJson = Some text -> text <> EmptyString ->
   xcalls (fst (yen_memory JSON_parse x operation payloadJson fileId w)) =
   xcalls w ++ [Fetch (mkRequest "POST" (backend_url x +:+ "/vector/write") json_headers
                         (Some (JSON_stringify (JObj [("payloadText", JStr text)]))))]) /\
  (forall id, operation = "delete" -> fileId = Some id -> id <> EmptyString ->
   xcalls (fst (yen_memory JSON_parse x operation payloadJson fileId w)) =
   xcalls w ++ [Fetch (mkRequest "POST" (backend_url x +:+ "/vector/delete-file")
                         json_headers
                         (Some (JSON_stringify (JObj [("file_id", JStr id)]))))]).
Proof.
  split; [|split; [|split]].
  - intros -> Hgiven. unfold yen_memory. cbn [String.eqb Ascii.eqb Bool.eqb].
    now rewrite Hgiven.
  - intros -> Hgiven. unfold yen_memory. cbn [String.eqb Ascii.eqb Bool.eqb].
    now rewrite Hgiven.
  - intros text -> -> Hne. unfold yen_memory. cbn [String.eqb Ascii.eqb Bool.eqb].
    unfold given. apply String.eqb_neq in Hne. rewrite Hne. cbn [negb text_of].
    unfold xbind, fetch, xret. cbv zeta. destruct (http x _) as [err|rep]; reflexivity.
  - intros id -> -> Hne. unfold yen_memory. cbn [String.eqb Ascii.eqb Bool.eqb].
    unfold given. apply String.eqb_neq in Hne. rewrite Hne. cbn [negb text_of].
    unfold xbind, fetch, xret. cbv zeta. destruct (http x _) as [err|rep]; reflexivity.
Qed.

(** [yen_backend] sends one request with the method asked for, and a
    body only for a POST whose [body] is not [null]: a GET never carries
    one.  For a POST with a body it does what the dedicated tools do: the
    same request is sent and the same value returned as by the tool that
    posts that body to that route. *)
Theorem backend_tool_body_rule (path method : string) (body : value) (w : xworld) :
  (exists payload,
      xcalls (fst (yen_backend JSON_parse x path method body w)) =
      xcalls w ++ [Fetch (mkRequest method (backend_url x +:+ path) json_headers payload)] /\
      (method <> "POST" -> payload = None) /\
      (body = JNull -> payload = None) /\
      (method = "POST" -> body <> JNull -> payload = Some (JSON_stringify body))) /\
  (method = "POST" -> body <> JNull ->
   yen_backend JSON_parse x path method body w = post_to_backend JSON_parse x path body w /\
   yen_backend JSON_parse x "/mark-seen" method body w = yen_mark_seen JSON_parse x body w /\
   yen_backend JSON_parse x "/trakt/watchlist/add" method body w =
     yen_watchlist_add JSON_parse x body w /\
   yen_backend JSON_parse x "/trakt/watchlist/remove" method body w =
     yen_watchlist_remove JSON_parse x body w).
Proof.
  split.
  - eexists. split; [|split; [|split]].
    + unfold yen_backend, xbind, fetch, xret. cbv zeta.
      destruct (http x _) as [err|rep]; reflexivity.
    + intros Hne. apply String.eqb_neq in Hne. now rewrite Hne.
    + intros ->. now rewrite andb_false_r.
    + intros -> Hne. destruct body; try reflexivity. contradiction.
  - intros -> Hne.
    assert (forall route, yen_backend JSON_parse x route "POST" body w =
                          post_to_backend JSON_parse x route body w) as Hsame.
    { intros route. unfold yen_backend, post_to_backend.
      destruct body; try reflexivity. contradiction. }
    repeat split; apply Hsame.
Qed.

(** [/agent/chat] always answers, with 200, 400 or 500.  A body whose
    [message] is missing, empty or not a string is answered 400 and the
    agent is not run.  Otherwise the agent is run once, on the message
    and on the session id of the body or "default-session" when that is
    falsy; a failed run is answered 500, a run that resolves is answered
    200 with a string [reply]: the final output, or the output when the
    final output is null or undefined, or the empty string when both are;
    a value that is not a string is given as its JSON text. *)
Theorem chat_always_answers (req_body : option value) (w : xworld) :
  (exists w' r,
      agent_chat x req_body w = (w', inr r) /\
      (http_status r = 200 \/ http_status r = 400 \/ http_status r = 500)) /\
  (negb (truthy (prop (or_value req_body (JObj [])) "message")) ||
   negb (is_string (prop (or_value req_body (JObj [])) "message")) = true ->
   agent_chat x req_body w =
   (w, inr (mkHttp 400 (JObj [ ("ok", JBool false);
                               ("error", JStr "message is required (string)") ])))) /\
  (forall message, prop (or_value req_body (JObj [])) "message" = Some (JStr message) ->
                   message <> EmptyString ->
   fst (agent_chat x req_body w) =
   mkXworld (inner w)
            (xcalls w ++
             [RunAgent message
                (or_value (prop (or_value req_body (JObj [])) "sessionId")
                          (JStr "default-session"))]) /\
   (forall err,
       run_agent x message
         (or_value (prop (or_value req_body (JObj [])) "sessionId")
                   (JStr "default-session")) = Rejected err ->
       snd (agent_chat x req_body w) =
       inr (mkHttp 500 (JObj [ ("ok", JBool false);
                               ("error", JStr "agent_internal_error");
                               ("details", JStr (error_details err)) ]))) /\
   (forall result,
       run_agent x message
         (or_value (prop (or_value req_body (JObj [])) "sessionId")
                   (JStr "default-session")) = Resolved result ->
       exists reply,
         snd (agent_chat x req_body w) =
         inr (mkHttp 200 (JObj [ ("ok", JBool true); ("reply", JStr reply) ])) /\
         (forall s, finalOutput result = Some (JStr s) -> reply = s) /\
         (nullish (finalOutput result) None = None ->
          forall s, output result = Some (JStr s) -> reply = s) /\
         (nullish (finalOutput result) None = None ->
          nullish (output result) None = None -> reply = EmptyString) /\
         (forall v, finalOutput result = Some v -> v <> JNull -> is_string (Some v) = false ->
                    reply = JSON_stringify v))).
Proof.
  assert (forall sid : value,
             or_value (Some (or_value (Some sid) (JStr "default-session")))
                      (JStr "default-session") =
             or_value (Some sid) (JStr "default-session")) as Hsid.
  { intros sid. unfold or_value, js_or.
    destruct (truthy (Some sid)) eqn:Hs; [now rewrite Hs | reflexivity]. }
  assert (forall sid : option value,
             or_value (Some (or_value sid (JStr "default-session")))
                      (JStr "default-session") =
             or_value sid (JStr "default-session")) as Hsession.
  { intros [sid|]; [apply Hsid | reflexivity]. }
  assert (forall message, prop (or_value req_body (JObj [])) "message" = Some (JStr message) ->
                          message <> EmptyString ->
          agent_chat x req_body w =
          match run_agent x message
                  (or_value (prop (or_value req_body (JObj [])) "sessionId")
                            (JStr "default-session")) with
          | Rejected err =>
              (mkXworld (inner w)
                 (xcalls w ++
                  [RunAgent message
                     (or_value (prop (or_value req_body (JObj [])) "sessionId")
                               (JStr "default-session"))]),
               inr (mkHttp 500 (JObj [ ("ok", JBool false);
                                       ("error", JStr "agent_internal_error");
                                       ("details", JStr (error_details err)) ])))
          | Resolved result =>
              (mkXworld (inner w)
                 (xcalls w ++
                  [RunAgent message
                     (or_value (prop (or_value req_body (JObj [])) "sessionId")
                               (JStr "default-session"))]),
               inr (mkHttp 200
                      (JObj [ ("ok", JBool true);
                              ("reply",
                               JStr (match nullish_value
                                             (nullish (finalOutput result) (output result))
                                             (JStr EmptyString) with
                                     | JStr s => s
                                     | _ => JSON_stringify
                                              (nullish_value
                                                 (nullish (finalOutput result) (output result))
                                                 (JStr EmptyString))
                                     end)) ])))
          end) as Hrun.
  { intros message Hmessage Hne. unfold agent_chat, xtry_catch. cbv zeta.
    rewrite Hmessage. apply String.eqb_neq in Hne.
    cbn [truthy is_string string_of]. rewrite Hne. cbn [negb orb].
    unfold runYenMoviesAgent, xbind, xret. cbv zeta. rewrite Hsession.
    destruct (run_agent x message _) as [err|result]; reflexivity. }
  split; [|split].
  - destruct (negb (truthy (prop (or_value req_body (JObj [])) "message")) ||
              negb (is_string (prop (or_value req_body (JObj [])) "message"))) eqn:Hbad.
    + unfold agent_chat, xtry_catch. cbv zeta. rewrite Hbad.
      do 2 eexists. split; [reflexivity | right; now left].
    + destruct (prop (or_value req_body (JObj [])) "message") as [[| | |message| |]|] eqn:Hm;
        try (cbn in Hbad; rewrite ?orb_true_r in Hbad; discriminate).
      assert (message <> EmptyString) as Hne.
      { intros ->. discriminate. }
      rewrite (Hrun message eq_refl Hne).
      destruct (run_agent x message _) as [err|result];
        do 2 eexists; (split; [reflexivity |]); [right; now right | now left].
  - intros Hbad. unfold agent_chat, xtry_catch. cbv zeta. now rewrite Hbad.
  - intros message Hmessage Hne. rewrite (Hrun message Hmessage Hne).
    split; [destruct (run_agent x message _); reflexivity |].
    split.
    + intros err ->. reflexivity.
    + intros result ->. cbn [snd]. eexists. split; [reflexivity |].
      split; [|split; [|split]].
      * intros s ->. reflexivity.
      * intros Hfinal s Hout.
        destruct (finalOutput result) as [[]|]; try discriminate; now rewrite Hout.
      * intros Hfinal Hout.
        destruct (finalOutput result) as [[]|]; try discriminate;
          destruct (output result) as [[]|]; try discriminate; reflexivity.
      * intros v -> Hnull Hstring. destruct v; try reflexivity; try contradiction.
        discriminate.
Qed.

End AgentFurther.

Section AgentRuns.
Import JSString JS Runtime Http Server Agent.

(** The backend answers 503 with a text that is not JSON: the tool
    returns it as [{ raw }]. *)
Lemma backend_tools_witness :
  snd (yen_mark_seen JSONText.JSON_parse (MoreSamples.offline (Samples.store []))
         MoreSamples.seen_by_agent MoreSamples.start) =
  inr (JObj [ ("status", JNum 503); ("ok", JBool false);
              ("url", JStr "https://a-movies-production.up.railway.app/mark-seen");
              ("data", JObj [("raw", JStr "Service Unavailable")]) ]).
Proof.
  destruct (backend_tools_report_any_answer JSONText.JSON_parse
              (MoreSamples.offline (Samples.store [])) "/mark-seen"
              MoreSamples.seen_by_agent MoreSamples.start)
    as (_ & _ & Hanswer & Hurl & _).
  destruct (Hanswer (mkReply (mkResponse false 503 "Service Unavailable") []) eq_refl)
    as (data & Hout & _ & _ & Hraw).
  unfold yen_mark_seen. rewrite Hout, (Hraw ltac:(discriminate) eq_refl).
  rewrite (Hurl eq_refl). reflexivity.
Defined.

(** A write without payload sends nothing. *)
Lemma memory_tool_witness :
  yen_memory JSONText.JSON_parse (MoreSamples.online (Samples.store []) "{}" None)
    "write" None None MoreSamples.start =
  (MoreSamples.start,
   inl (Error "yen_memory.write requiere payloadJson (string JSON) no nulo.")).
Proof.
  exact (proj1 (memory_tool_checks_first JSONText.JSON_parse
                  (MoreSamples.online (Samples.store []) "{}" None)
                  "write" None None MoreSamples.start) eq_refl eq_refl).
Defined.

(** A message that is a number is refused and the agent is not run; a
    greeting is answered with the final output of the agent. *)
Lemma chat_witness :
  agent_chat (MoreSamples.online (Samples.store []) "{}" (Some (JStr "Hecho.")))
    (Some MoreSamples.chat_number) MoreSamples.start =
  (MoreSamples.start,
   inr (mkHttp 400 (JObj [ ("ok", JBool false);
                           ("error", JStr "message is required (string)") ]))) /\
  agent_chat (MoreSamples.online (Samples.store []) "{}" (Some (JStr "Hecho.")))
    (Some MoreSamples.chat_hello) MoreSamples.start =
  (mkXworld Samples.fresh [RunAgent "hola" (JStr "default-session")],
   inr (mkHttp 200 (JObj [ ("ok", JBool true); ("reply", JStr "Hecho.") ]))).
Proof.
  pose (x0 := MoreSamples.online (Samples.store []) "{}" (Some (JStr "Hecho."))).
  destruct (chat_always_answers x0 (Some MoreSamples.chat_number) MoreSamples.start)
    as (_ & Hrefused & _).
  destruct (chat_always_answers x0 (Some MoreSamples.chat_hello) MoreSamples.start)
    as (_ & _ & Hrun).
  destruct (Hrun "hola" eq_refl ltac:(discriminate)) as (Hworld & _ & Hreply).
  destruct (Hreply (mkAgentResult (Some (JStr "Hecho.")) None) eq_refl)
    as (reply & Hanswer & Hfinal & _).
  split; [exact (Hrefused eq_refl) |].
  fold x0. rewrite (surjective_pairing (agent_chat x0 _ _)).
  rewrite Hworld, Hanswer, (Hfinal "Hecho." eq_refl). reflexivity.
Defined.

End AgentRuns.

(** ** What was written is found *)

Section FoundFurther.
Import JSString JS Runtime Search.

Variable toLowerCase : string -> string.
Variable JSON_parse : string -> option value.
Variable e : env.

(** A vector store that lists one file, whose content is one line that
    matches: the search returns the result of that line. *)
Lemma search_single_line (query : string) (topK : option Z)
    (filterTags : option (list string)) (listResp : response) (listData file : value)
    (id : string) (fileResp : response) (line : string) (r : SearchResult) :
  negb (set_var (OPENAI_API_KEY e)) || negb (set_var (VECTOR_STORE_ID e)) = false ->
  fetch_list e = Resolved listResp -> ok listResp = true ->
  JSON_parse (body listResp) = Some listData ->
  prop listData "data" = Some (JArr [file]) ->
  prop file "id" = Some (JStr id) ->
  fetch_content e id = Resolved fileResp -> ok fileResp = true ->
  lines_of (body fileResp) = [line] ->
  line_match toLowerCase JSON_parse
      (toLowerCase query) (requiredTags_of filterTags) line = Some r ->
  valid_topK topK ->
  naiveVectorStoreSearch toLowerCase JSON_parse e query topK filterTags =
  ([ListFiles; FetchContent id], inr [r]).
Proof.
  intros Hset Hlist Hok Hparse Hdata Hid Hcontent Hfok Hlines Hmatch Hvalid.
  pose proof (maxResults_of_valid topK Hvalid) as Hmax.
  unfold naiveVectorStoreSearch. rewrite Hset, Hlist, Hok, Hparse. cbn [negb].
  assert (get listData "data" = inr (Some (JArr [file]))) as ->.
  { destruct listData; try discriminate. simpl. simpl in Hdata. now rewrite Hdata. }
  assert (get file "id" = inr (Some (JStr id))) as Hget.
  { destruct file; try discriminate. simpl. simpl in Hid. now rewrite Hid. }
  unfold collect. cbn [array_or_empty scan_files length].
  destruct (Z.geb_spec (Z.of_nat 0) (maxResults_of topK)) as [Hge | _]; [simpl in Hge; lia |].
  rewrite Hget. cbn [ToString_opt ToString]. rewrite Hcontent, Hfok. cbn [negb].
  destruct (String.eqb_spec (body fileResp) EmptyString) as [Hempty | _].
  { rewrite Hempty in Hlines. discriminate. }
  rewrite Hlines. cbn [scan_lines length].
  destruct (Z.geb_spec (Z.of_nat 0) (maxResults_of topK)) as [Hge | _]; [simpl in Hge; lia |].
  unfold line_match in Hmatch.
  destruct (JSON_parse line) as [doc|]; [|discriminate].
  destruct (scan_doc toLowerCase _ _ doc) as [err|[r'|]]; try discriminate.
  injection Hmatch as ->. cbn [app].
  f_equal. f_equal. unfold slice0.
  destruct (Z.ltb_spec (maxResults_of topK) 0); [lia |].
  destruct (Z.to_nat (maxResults_of topK)) eqn:Hn; [lia |].
  cbn [firstn]. now rewrite firstn_nil.
Qed.

Lemma js_or_truthy (a b : option value) : truthy a = true -> js_or a b = a.
Proof. unfold js_or. now intros ->. Qed.

Lemma js_or_falsy (a b : option value) : truthy a = false -> js_or a b = b.
Proof. unfold js_or. now intros ->. Qed.

Lemma or_value_of_truthy (v d : value) : truthy (Some v) = true -> or_value (Some v) d = v.
Proof. unfold or_value, js_or. now intros ->. Qed.

Lemma truthy_string (s : string) : s <> EmptyString -> truthy (Some (JStr s)) = true.
Proof. intros Hs. apply String.eqb_neq in Hs. cbn. now rewrite Hs. Qed.

(** A note written by [memory_write] in ASCII text is found again.  Let
    the vector store list one file whose content is the line written for
    arguments that pass the schema and whose text is made of ASCII
    characters, and let [JSON.parse] read that line back as the record it
    was made from.  Then, [toLowerCase] folding the ASCII range, a search
    for any ASCII text that occurs in the text of the note once the letters
    A-Z of both are folded, for any [top_k] of at least 1 and any filter
    tags that are among the tags of the note, returns exactly one result:
    the text of the note, its kind ("unknown" for an empty kind), its
    tags, the instant it was written and score 1.  Nothing is said of texts
    outside the ASCII range, where [toLowerCase] depends on the
    surroundings of a letter. *)
Theorem written_note_is_found (a : Mcp.write_args) (query : string) (topK : option Z)
    (filterTags : list string) (listResp : response) (listData file : value)
    (id : string) (fileResp : response) :
  negb (set_var (OPENAI_API_KEY e)) || negb (set_var (VECTOR_STORE_ID e)) = false ->
  fetch_list e = Resolved listResp -> ok listResp = true ->
  JSON_parse (body listResp) = Some listData ->
  prop listData "data" = Some (JArr [file]) ->
  prop file "id" = Some (JStr id) ->
  fetch_content e id = Resolved fileResp -> ok fileResp = true ->
  body fileResp = Mcp.write_document e a ->
  JSON_parse (JSON_stringify
                (JObj [ ("kind", JStr (Mcp.kind a)); ("text", JStr (Mcp.text a));
                        ("source", JStr (Mcp.source a));
                        ("tags", JArr (List.map JStr (match Mcp.tags a with
                                                      | Some ts => ts
                                                      | None => []
                                                      end)));
                        ("created_at", JStr (now e)) ])) =
  Some (JObj [ ("kind", JStr (Mcp.kind a)); ("text", JStr (Mcp.text a));
               ("source", JStr (Mcp.source a));
               ("tags", JArr (List.map JStr (match Mcp.tags a with
                                             | Some ts => ts
                                             | None => []
                                             end)));
               ("created_at", JStr (now e)) ]) ->
  Mcp.memoryWriteSchema a = true ->
  now e <> EmptyString ->
  valid_topK topK ->
  folds_ascii toLowerCase ->
  all_ascii (Mcp.text a) = true ->
  all_ascii query = true ->
  includes (toLowerCase_ascii (Mcp.text a)) (toLowerCase_ascii query) = true ->
  (forall t, In t filterTags -> In t (match Mcp.tags a with
                                      | Some ts => ts
                                      | None => []
                                      end)) ->
  naiveVectorStoreSearch toLowerCase JSON_parse e query topK (Some filterTags) =
  ([ListFiles; FetchContent id],
   inr [ {| text := JStr (Mcp.text a);
            kind := if String.eqb (Mcp.kind a) EmptyString
                    then JStr "unknown" else JStr (Mcp.kind a);
            tags := List.map JStr (match Mcp.tags a with
                                   | Some ts => ts
                                   | None => []
                                   end);
            created_at := JStr (now e);
            score := 1 |} ]).
Proof.
  intros Hset Hlist Hok Hparse Hdata Hid Hcontent Hfok Hbody Hback Hschema Hnow Hvalid
         [Hfold Hprefix] Hascii Hqascii Hquery Htags.
  set (ts := match Mcp.tags a with Some ts => ts | None => [] end) in *.
  set (doc := JObj [ ("kind", JStr (Mcp.kind a)); ("text", JStr (Mcp.text a));
                     ("source", JStr (Mcp.source a)); ("tags", JArr (List.map JStr ts));
                     ("created_at", JStr (now e)) ]) in *.
  assert (Mcp.text a <> EmptyString) as Htext.
  { unfold Mcp.memoryWriteSchema in Hschema. intros Hempty. rewrite Hempty in Hschema.
    discriminate. }
  apply truthy_string in Htext. apply truthy_string in Hnow.
  apply (search_single_line query topK (Some filterTags) listResp listData file id
           fileResp (JSON_stringify doc)); try assumption.
  - rewrite Hbody. unfold Mcp.write_document. fold ts. fold doc.
    change (JSON_stringify doc +:+ newline)
      with (join EmptyString (List.map (fun d => d +:+ newline) [JSON_stringify doc])).
    apply lines_of_documents. constructor; [|constructor].
    split; [apply no_newline_JSON_stringify | apply nonblank_object].
  - unfold line_match. rewrite Hback. unfold scan_doc.
    change (get doc "tags") with (@inr error _ (Some (JArr (List.map JStr ts)))).
    cbn [array_or_empty].
    assert (tag_filter (requiredTags_of (Some filterTags)) (List.map JStr ts) = true) as ->.
    { apply tag_filter_spec. intros t Ht. apply in_map. now apply Htags. }
    cbn [negb].
    assert (includes (haystack toLowerCase doc (List.map JStr ts)) (toLowerCase query)
            = true) as ->.
    { unfold haystack, haystack_text.
      change (prop doc "text") with (Some (JStr (Mcp.text a))).
      rewrite (or_value_of_truthy _ _ Htext). cbn [ToString].
      rewrite (Hfold query Hqascii).
      destruct (Hprefix (Mcp.text a)
                  (" " +:+
                   ToString (or_value (prop doc "title") (JStr EmptyString)) +:+ " " +:+
                   ToString (or_value (prop doc "comment") (JStr EmptyString)) +:+ " " +:+
                   JSON_stringify (JArr (List.map JStr ts)) +:+ " " +:+
                   ToString (or_value (prop doc "kind") (JStr EmptyString)) +:+ " " +:+
                   ToString (or_value (prop doc "type") (JStr EmptyString))) Hascii)
        as [r ->].
      rewrite <- (append_nil_l (toLowerCase_ascii (Mcp.text a) +:+ r)).
      now apply includes_inside. }
    cbn [negb]. unfold result_of.
    change (prop doc "text") with (Some (JStr (Mcp.text a))).
    change (prop doc "kind") with (Some (JStr (Mcp.kind a))).
    change (prop doc "type") with (@None value).
    change (prop doc "created_at") with (Some (JStr (now e))).
    rewrite (js_or_truthy _ (prop doc "title") Htext), (or_value_of_truthy _ _ Htext).
    rewrite (js_or_truthy _ (prop doc "marked_at") Hnow), (or_value_of_truthy _ _ Hnow).
    destruct (String.eqb (Mcp.kind a) EmptyString) eqn:Hkind.
    + rewrite js_or_falsy by (cbn; now rewrite Hkind). reflexivity.
    + rewrite js_or_truthy by (cbn; now rewrite Hkind).
      rewrite or_value_of_truthy by (cbn; now rewrite Hkind). reflexivity.
Qed.


End FoundFurther.

Section FoundRuns.
Import JSString JS Runtime Search.

(** The sample note, searched for in upper case with its tag as filter. *)
Lemma written_note_witness :
  naiveVectorStoreSearch toLowerCase_ascii JSONText.JSON_parse MoreSamples.holds_note
    "SPACE Horror" (Some 5) (Some ["mood"]) =
  ([ListFiles; FetchContent "file-1"],
   inr [ {| text := JStr "wants slow-burn space horror";
            kind := JStr "mood";
            tags := [JStr "mood"];
            created_at := JStr "2025-01-01T00:00:00.000Z";
            score := 1 |} ]).
Proof.
  refine (written_note_is_found toLowerCase_ascii JSONText.JSON_parse
            MoreSamples.holds_note Samples.note
            "SPACE Horror" (Some 5) ["mood"]
            (mkResponse true 200 (Samples.listing ["file-1"]))
            (JObj [("data", JArr [JObj [("id", JStr "file-1")]])])
            (JObj [("id", JStr "file-1")]) "file-1"
            (mkResponse true 200 (Mcp.write_document (Samples.store []) Samples.note))
            eq_refl eq_refl eq_refl _ eq_refl eq_refl eq_refl eq_refl eq_refl _
            eq_refl _ _ toLowerCase_ascii_folds eq_refl eq_refl _ _).
  - vm_compute. reflexivity.
  - vm_compute. reflexivity.
  - discriminate.
  - cbn. lia.
  - vm_compute. reflexivity.
  - intros t [<- | []]. now left.
Defined.


End FoundRuns.

(** ** Arguments of the search *)

Section SearchArguments.
Import JSString JS Runtime Search.

Variable toLowerCase : string -> string.
Variable JSON_parse : string -> option value.
Variable e : env.

(** The [memory_search] tool returns at most [top_k] results, at most 10
    when [top_k] is left out, and never more than 50 for arguments that
    pass its schema.  Defaulting [top_k] in the handler changes nothing:
    the tool returns what the search returns for the same arguments. *)
Theorem memory_search_bounded (a : search_args) (sent : list call)
    (rs : list SearchResult) :
  memorySearchSchema a = true ->
  memory_search toLowerCase JSON_parse e a = (sent, inr rs) ->
  (length rs <= 50)%nat /\
  (top_k a = None -> (length rs <= 10)%nat) /\
  (forall k, top_k a = Some k -> Z.of_nat (length rs) <= k) /\
  naiveVectorStoreSearch toLowerCase JSON_parse e
      (query a) (top_k a) (filter_tags a) = (sent, inr rs).
Proof.
  intros Hschema Hsearch. unfold memory_search in Hsearch.
  assert (maxResults_of (Some (maxResults_of (top_k a))) = maxResults_of (top_k a)) as Hidem.
  { destruct (top_k a) as [k|]; [|reflexivity]. simpl.
    destruct (Z.eqb_spec k 0) as [-> | Hk]; [reflexivity |].
    destruct (Z.eqb_spec k 0); [contradiction | reflexivity]. }
  assert (naiveVectorStoreSearch toLowerCase JSON_parse e (query a) (top_k a) (filter_tags a) =
          naiveVectorStoreSearch toLowerCase JSON_parse e (query a)
            (Some (maxResults_of (top_k a))) (filter_tags a)) as Hsame.
  { unfold naiveVectorStoreSearch, collect. now rewrite Hidem. }
  destruct (search_returns _ _ _ _ _ _ _ _ Hsearch)
    as (listResp & listData & _ & _ & _ & Hrs).
  rewrite Hidem in Hrs.
  assert (length rs <= Z.to_nat (maxResults_of (top_k a)))%nat as Hlen.
  { rewrite Hrs, length_firstn. lia. }
  unfold memorySearchSchema in Hschema. apply andb_true_iff in Hschema.
  destruct Hschema as [_ Hk].
  repeat split.
  - destruct (top_k a) as [k|]; simpl in Hlen.
    + apply andb_true_iff in Hk. destruct Hk as [Hlo Hhi].
      apply Z.leb_le in Hlo, Hhi. destruct (Z.eqb_spec k 0); lia.
    + lia.
  - intros Hnone. rewrite Hnone in Hlen. simpl in Hlen. lia.
  - intros k Hsome. rewrite Hsome in Hlen, Hk. simpl in Hlen.
    apply andb_true_iff in Hk. destruct Hk as [Hlo Hhi].
    apply Z.leb_le in Hlo, Hhi. destruct (Z.eqb_spec k 0); lia.
  - now rewrite Hsame.
Qed.

(** How the search reads its arguments.  The query is compared in lower
    case, so two queries that differ in case give the same answer; an
    empty list of filter tags filters nothing, like a missing one; a
    [topK] of 0 stands for 10; and with a negative [topK] the search reads
    the listing, requests no file and returns no result. *)
Theorem search_argument_edges (query : string) (topK : option Z)
    (filterTags : option (list string)) :
  (forall query', toLowerCase query' = toLowerCase query ->
                  naiveVectorStoreSearch toLowerCase JSON_parse e query' topK filterTags =
                  naiveVectorStoreSearch toLowerCase JSON_parse e query topK filterTags) /\
  naiveVectorStoreSearch toLowerCase JSON_parse e query topK (Some []) =
  naiveVectorStoreSearch toLowerCase JSON_parse e query topK None /\
  naiveVectorStoreSearch toLowerCase JSON_parse e query (Some 0) filterTags =
  naiveVectorStoreSearch toLowerCase JSON_parse e query (Some 10) filterTags /\
  (forall k listResp listData,
      k < 0 ->
      negb (set_var (OPENAI_API_KEY e)) || negb (set_var (VECTOR_STORE_ID e)) = false ->
      fetch_list e = Resolved listResp -> ok listResp = true ->
      JSON_parse (body listResp) = Some listData -> listData <> JNull ->
      naiveVectorStoreSearch toLowerCase JSON_parse e
          query (Some k) filterTags = ([ListFiles], inr [])).
Proof.
  split; [|split; [|split]].
  - intros query' Hlower. unfold naiveVectorStoreSearch, collect. now rewrite Hlower.
  - reflexivity.
  - reflexivity.
  - intros k listResp listData Hk Hset Hlist Hok Hparse Hnull.
    unfold naiveVectorStoreSearch. rewrite Hset, Hlist, Hok, Hparse. cbn [negb].
    assert (get listData "data" = inr (prop listData "data")) as ->
      by (destruct listData; try reflexivity; contradiction).
    unfold collect.
    assert (maxResults_of (Some k) = k) as ->.
    { simpl. destruct (Z.eqb_spec k 0); [lia | reflexivity]. }
    assert (forall files,
               scan_files toLowerCase JSON_parse e
                   (toLowerCase query) k (requiredTags_of filterTags)
                          files [ListFiles] [] = ([ListFiles], inr [])) as ->.
    { intros [|file files]; [reflexivity |]. cbn [scan_files length].
      destruct (Z.geb_spec (Z.of_nat 0) k) as [_ | Hlt]; [reflexivity | simpl in Hlt; lia]. }
    unfold slice0. destruct (k <? 0); now rewrite firstn_nil.
Qed.

End SearchArguments.

Section SearchArgumentRuns.
Import JSString JS Runtime Search.

(** Thirty matching lines, [top_k] left out: ten results. *)
Lemma memory_search_witness :
  exists sent rs,
    memory_search toLowerCase_ascii JSONText.JSON_parse Samples.thirty_matches
      (mkSearchArgs "inception" None None) = (sent, inr rs) /\
    (length rs <= 10)%nat.
Proof.
  pose (run := memory_search toLowerCase_ascii JSONText.JSON_parse Samples.thirty_matches
                 (mkSearchArgs "inception" None None)).
  assert (exists rs, snd run = inr rs /\ length rs = 10%nat) as (rs & Hrs & Hten).
  { eexists. split; vm_compute; reflexivity. }
  assert (run = (fst run, inr rs)) as Hrun.
  { rewrite (surjective_pairing run) at 1. now rewrite Hrs. }
  destruct (memory_search_bounded toLowerCase_ascii JSONText.JSON_parse Samples.thirty_matches
              (mkSearchArgs "inception" None None) (fst run) rs eq_refl Hrun)
    as (_ & Hdefault & _ & _).
  exists (fst run), rs. split; [exact Hrun | exact (Hdefault eq_refl)].
Defined.

End SearchArgumentRuns.

(** ** More on the uploader and on the stored document *)

Section UploaderFrame.
Import JSString JS Runtime Uploader Server.

Variable JSON_parse : string -> option value.
Variable e : env.

(** Whatever the outcome, the uploader touches no local file but its
    temporary one, creates at most one file at the vendor, with exactly the
    text it was given, and attaches nothing but the file it created. *)
Theorem upload_touches_only_its_own (text : string) (w : world) :
  (forall p, p <> tmpPath e ->
             fs (fst (uploadTextToVectorStore JSON_parse e text w)) !! p = fs w !! p) /\
  (vendor_files (fst (uploadTextToVectorStore JSON_parse e text w)) = vendor_files w /\
   attached (fst (uploadTextToVectorStore JSON_parse e text w)) = attached w \/
   exists id,
     files_create e text = Resolved id /\
     vendor_files (fst (uploadTextToVectorStore JSON_parse e text w)) =
       vendor_files w ++ [(id, text)] /\
     (attached (fst (uploadTextToVectorStore JSON_parse e text w)) = attached w \/
      attached (fst (uploadTextToVectorStore JSON_parse e text w)) = attached w ++ [id])).
Proof.
  rewrite upload_unfold. unfold writeFile.
  destruct (fs_writeFile e (tmpPath e) text); [split; [reflexivity | now left] |].
  unfold try_finally, upload_body, try_catch, bind, openai_files_create.
  cbn [fs set_fs log]. rewrite lookup_insert_eq.
  assert (forall (f : gmap string string) p,
             p <> tmpPath e -> f = <[tmpPath e := text]> (fs w) \/
                               f = delete (tmpPath e) (<[tmpPath e := text]> (fs w)) ->
             f !! p = fs w !! p) as Hother.
  { intros f p Hp [-> | ->].
    - now rewrite lookup_insert_ne.
    - rewrite lookup_delete_ne by congruence. now rewrite lookup_insert_ne. }
  destruct (files_create e text) as [err|id].
  - unfold throw, unlink_swallowed. split.
    + intros p Hp. apply Hother; [exact Hp |].
      destruct (fs_unlink e (tmpPath e)); cbn [fst fs set_fs log]; auto.
    + left. destruct (fs_unlink e (tmpPath e)); split; reflexivity.
  - unfold fetch_attach_file. cbn [calls fs vendor_files attached log].
    assert (forall w1 (r : error + string),
               (fs w1 = <[tmpPath e := text]> (fs w)) ->
               vendor_files w1 = vendor_files w ++ [(id, text)] ->
               (attached w1 = attached w \/ attached w1 = attached w ++ [id]) ->
               (forall p, p <> tmpPath e ->
                          fs (fst (unlink_swallowed (tmpPath e) w1, r)) !! p = fs w !! p) /\
               (vendor_files (fst (unlink_swallowed (tmpPath e) w1, r)) = vendor_files w /\
                attached (fst (unlink_swallowed (tmpPath e) w1, r)) = attached w \/
                exists id0,
                  Resolved id = Resolved id0 /\
                  vendor_files (fst (unlink_swallowed (tmpPath e) w1, r)) =
                    vendor_files w ++ [(id0, text)] /\
                  (attached (fst (unlink_swallowed (tmpPath e) w1, r)) = attached w \/
                   attached (fst (unlink_swallowed (tmpPath e) w1, r)) =
                     attached w ++ [id0]))) as Hend.
    { intros w1 r Hfs Hvendor Hattached. unfold unlink_swallowed. split.
      - intros p Hp. apply Hother; [exact Hp |].
        destruct (fs_unlink e (tmpPath e)); cbn [fst fs set_fs log]; rewrite Hfs; auto.
      - right. exists id. split; [reflexivity |].
        destruct (fs_unlink e (tmpPath e));
          cbn [fst vendor_files attached set_fs log]; auto. }
    destruct (fetch_attach e id) as [err|resp].
    + apply Hend; cbn; auto.
    + destruct (ok resp); cbn [negb].
      * unfold response_json, throw, ret, lift.
        destruct (JSON_parse (body resp)) as [vsFile|].
        -- destruct (get vsFile "id") as [err|v]; apply Hend; cbn; auto.
        -- apply Hend; cbn; auto.
      * unfold throw. apply Hend; cbn; auto.
Qed.

(** An upload can fail after it has succeeded at the vendor.  When the
    file is created and attached but the answer of the attach call cannot
    be read (its body is not JSON, or is the JSON [null]), the uploader
    throws, and the file stays attached to the vector store. *)
Theorem unreadable_attach_answer (text : string) (w : world) (id : string)
    (resp : response) :
  fs_writeFile e (tmpPath e) text = None ->
  files_create e text = Resolved id ->
  fetch_attach e id = Resolved resp -> ok resp = true ->
  JSON_parse (body resp) = None \/ JSON_parse (body resp) = Some JNull ->
  (exists err, snd (uploadTextToVectorStore JSON_parse e text w) = inl err) /\
  attached (fst (uploadTextToVectorStore JSON_parse e text w)) = attached w ++ [id] /\
  vendor_files (fst (uploadTextToVectorStore JSON_parse e text w)) =
    vendor_files w ++ [(id, text)].
Proof.
  intros Hwrite Hcreate Hattach Hok Hbody.
  rewrite upload_unfold. unfold writeFile. rewrite Hwrite.
  unfold try_finally, upload_body, try_catch, bind, openai_files_create.
  cbn [fs set_fs log]. rewrite lookup_insert_eq, Hcreate.
  unfold fetch_attach_file. cbn [calls fs vendor_files attached log].
  rewrite Hattach, Hok. cbn [negb]. unfold response_json, throw, ret, lift.
  destruct Hbody as [-> | ->]; cbn [get];
    (split; [eexists; reflexivity |]);
    unfold unlink_swallowed; destruct (fs_unlink e (tmpPath e)); split; reflexivity.
Qed.

(** The [source] written by [/mark-seen] follows the [syncTrakt] flag
    alone, not what is done: a request without any identifier, or on a
    process without Trakt credentials, is stored as
    "mark_seen_trakt+vector" although no history entry is sent.  Only a
    falsy flag ([false], [null], ...) gives "mark_seen_vector_only". *)
Theorem seen_source_follows_flag (b : value) :
  exists record,
    seen_document e b = JSON_stringify (JObj record) +:+ JSString.newline /\
    assoc "type" record = Some (JStr "movie_seen") /\
    assoc "state" record = Some (JStr "seen") /\
    assoc "marked_at" record = Some (JStr (now e)) /\
    (prop b "syncTrakt" = None ->
     assoc "source" record = Some (JStr "mark_seen_trakt+vector")) /\
    (forall v, prop b "syncTrakt" = Some v ->
               assoc "source" record =
               Some (JStr (if truthy (Some v) then "mark_seen_trakt+vector"
                           else "mark_seen_vector_only"))) /\
    (prop b "syncTrakt" = None ->
     truthy (prop b "trakt_id") || truthy (prop b "imdb") ||
     truthy (prop b "slug") || truthy (prop b "tmdb") = false \/
     set_var (TRAKT_CLIENT_ID e) && set_var (TRAKT_ACCESS_TOKEN e) = false ->
     sync_wanted e b = false /\
     assoc "source" record = Some (JStr "mark_seen_trakt+vector")).
Proof.
  eexists. split; [unfold seen_document, Codec.buildMovieDocument; reflexivity |].
  assert (forall src,
             assoc "source"
               (Codec.movie_record (now e)
                  {| Codec.type := Some (JStr "movie_seen");
                     Codec.title := prop b "title";
                     Codec.year := prop b "year";
                     Codec.trakt_id := prop b "trakt_id";
                     Codec.imdb := prop b "imdb";
                     Codec.slug := prop b "slug";
                     Codec.tmdb := prop b "tmdb";
                     Codec.rating := prop b "rating";
                     Codec.liked := prop b "liked";
                     Codec.state := Some (JStr "seen");
                     Codec.source := Some (JStr src);
                     Codec.tags := prop b "tags";
                     Codec.comment := prop b "comment" |}) = Some (JStr src)) as Hsource.
  { intros src. unfold Codec.movie_record. cbn [Codec.title Codec.type Codec.source].
    destruct (prop b "title"); reflexivity. }
  split; [unfold Codec.movie_record; destruct (prop b "title"); reflexivity |].
  split; [unfold Codec.movie_record; destruct (prop b "title"); reflexivity |].
  split; [unfold Codec.movie_record; destruct (prop b "title"); reflexivity |].
  split; [|split].
  - intros Hflag. rewrite Hflag. apply Hsource.
  - intros v Hflag. rewrite Hflag. apply Hsource.
  - intros Hflag Hnothing. split.
    + unfold sync_wanted. rewrite Hflag. cbn [truthy andb].
      destruct Hnothing as [-> | Hcred]; [reflexivity |].
      rewrite <- andb_assoc, Hcred. apply andb_false_r.
    + rewrite Hflag. apply Hsource.
Qed.

End UploaderFrame.

Section UploaderFrameRuns.
Import JSString JS Runtime Uploader Server.

(** The vendor attaches the file and answers with a text that is not
    JSON. *)
Lemma unreadable_attach_witness :
  (exists err,
      snd (uploadTextToVectorStore JSONText.JSON_parse
             (with_attach (fun _ => Samples.answer "OK") (Samples.store []))
             "a note" Samples.fresh) = inl err) /\
  attached (fst (uploadTextToVectorStore JSONText.JSON_parse
                   (with_attach (fun _ => Samples.answer "OK") (Samples.store []))
                   "a note" Samples.fresh)) = ["file-new"].
Proof.
  destruct (unreadable_attach_answer JSONText.JSON_parse
              (with_attach (fun _ => Samples.answer "OK") (Samples.store []))
              "a note" Samples.fresh "file-new" (mkResponse true 200 "OK")
              eq_refl eq_refl eq_refl eq_refl)
    as (Hthrows & Hattached & _).
  - left. vm_compute. reflexivity.
  - split; [exact Hthrows | exact Hattached].
Defined.

End UploaderFrameRuns.

(** ** Further sample runs *)

Section MoreRuns.
Import JSString JS Runtime Http Search Server.

(** The vendor refuses to attach the document of the sample request:
    [/mark-seen] answers 500 and Trakt is not called. *)
Lemma mark_seen_answers_witness :
  snd (mark_seen JSONText.JSON_parse Samples.attach_fails
         (Some Samples.seen_inception) Samples.fresh) =
  inr (mkHttp 500 (JObj [ ("error", JStr "internal_error");
                          ("details",
                           JStr "Vector store attach failed 500: server_error") ])) /\
  calls (fst (mark_seen JSONText.JSON_parse Samples.attach_fails
                (Some Samples.seen_inception) Samples.fresh)) =
  [ WriteFile (tmpPath Samples.attach_fails)
              (seen_document Samples.attach_fails Samples.seen_inception);
    FilesCreate (tmpPath Samples.attach_fails);
    AttachFile "file-new";
    Unlink (tmpPath Samples.attach_fails) ].
Proof.
  pose (uploaded := Uploader.uploadTextToVectorStore JSONText.JSON_parse
                      Samples.attach_fails
                      (seen_document Samples.attach_fails Samples.seen_inception)
                      Samples.fresh).
  destruct (mark_seen_always_answers JSONText.JSON_parse Samples.attach_fails
              (Some Samples.seen_inception) Samples.fresh) as (_ & Hfails & _).
  rewrite (Hfails (fst uploaded)
                  (Error "Vector store attach failed 500: server_error")
                  eq_refl eq_refl ltac:(vm_compute; reflexivity)).
  split; [reflexivity | vm_compute; reflexivity].
Defined.

(** Identifiers that are all falsy: nothing is sent to Trakt. *)
Lemma history_add_witness :
  Trakt.traktAddToHistory JSONText.JSON_parse (Samples.store [])
    (Some JNull) (Some (JStr EmptyString)) None (Some (JNum 0)) Samples.fresh =
  (Samples.fresh,
   inl (Error "No valid ids provided for Trakt history (need trakt_id, imdb, slug or tmdb)")).
Proof.
  destruct (history_add_sends_truthy_ids JSONText.JSON_parse (Samples.store [])
              (Some JNull) (Some (JStr EmptyString)) None (Some (JNum 0)) Samples.fresh)
    as (_ & Hnone & _).
  exact (Hnone eq_refl eq_refl eq_refl eq_refl eq_refl).
Defined.

(** Without Trakt credentials the import answers 500; with an empty
    history it answers 200 and imports nothing. *)
Lemma import_answers_witness :
  snd (History.import_trakt_history JSONText.JSON_parse JSONText.StringToNumber
         MoreSamples.no_trakt None Samples.fresh) =
  inr (mkHttp 500
         (JObj [ ("error", JStr "internal_error");
                 ("details",
                  JStr "TRAKT_CLIENT_ID or TRAKT_ACCESS_TOKEN not configured. Check your .env") ])) /\
  snd (History.import_trakt_history JSONText.JSON_parse JSONText.StringToNumber
         (Samples.store []) None Samples.fresh) =
  inr (mkHttp 200 (JObj [ ("ok", JBool true); ("imported", JNum 0);
                          ("message", JStr "No hay historial de Trakt o está vacío") ])).
Proof.
  pose (fetched := Trakt.traktFetchHistory JSONText.JSON_parse JSONText.StringToNumber
                     (Samples.store []) None Samples.fresh).
  destruct (import_always_answers JSONText.JSON_parse JSONText.StringToNumber
              MoreSamples.no_trakt None Samples.fresh) as (_ & Hunset & _).
  destruct (import_always_answers JSONText.JSON_parse JSONText.StringToNumber
              (Samples.store []) None Samples.fresh) as (_ & _ & Hempty).
  destruct (Hempty (fst fetched) (JArr []) ltac:(vm_compute; reflexivity)
                   ltac:(discriminate)) as (Hroute & _).
  split; [now rewrite (Hunset eq_refl) | now rewrite Hroute].
Defined.

(** A watchlist request with a title and no identifier. *)
Lemma watchlist_answers_witness :
  Watchlist.watchlist_route JSONText.JSON_parse
    (MoreSamples.online (Samples.store []) EmptyString None)
    Watchlist.adding (Some Samples.inception) MoreSamples.start =
  (MoreSamples.start,
   inr (mkHttp 400
          (JObj [("error", JStr "Need at least one id: trakt_id, imdb, slug or tmdb")]))).
Proof.
  destruct (watchlist_always_answers JSONText.JSON_parse
              (MoreSamples.online (Samples.store []) EmptyString None)
              Watchlist.adding (Some Samples.inception) MoreSamples.start)
    as (_ & Hrefused & _).
  exact (Hrefused eq_refl).
Defined.

(** The generic tool and [yen_mark_seen] on the same arguments. *)
Lemma backend_tool_witness :
  Agent.yen_backend JSONText.JSON_parse (MoreSamples.offline (Samples.store []))
    "/mark-seen" "POST" MoreSamples.seen_by_agent MoreSamples.start =
  Agent.yen_mark_seen JSONText.JSON_parse (MoreSamples.offline (Samples.store []))
    MoreSamples.seen_by_agent MoreSamples.start.
Proof.
  destruct (backend_tool_body_rule JSONText.JSON_parse
              (MoreSamples.offline (Samples.store []))
              "/mark-seen" "POST" MoreSamples.seen_by_agent MoreSamples.start)
    as (_ & Hsame).
  exact (proj1 (proj2 (Hsame eq_refl ltac:(discriminate)))).
Defined.

(** A negative [topK] on a store of two files: the listing is read, no
    file is requested, nothing is returned. *)
Lemma search_edges_witness :
  naiveVectorStoreSearch toLowerCase_ascii JSONText.JSON_parse Samples.two_files "inception"
    (Some (-1)) None = ([ListFiles], inr []).
Proof.
  destruct (search_argument_edges toLowerCase_ascii JSONText.JSON_parse Samples.two_files "inception"
              (Some (-1)) None) as (_ & _ & _ & Hnegative).
  refine (Hnegative (-1) (mkResponse true 200 (Samples.listing ["file-1"; "file-2"]))
            (JObj [("data", JArr [JObj [("id", JStr "file-1")];
                                  JObj [("id", JStr "file-2")]])])
            _ eq_refl eq_refl eq_refl _ _).
  - lia.
  - vm_compute. reflexivity.
  - discriminate.
Defined.

End MoreRuns.

(** ** The mirrored request and the fields of a document *)

Section MirrorAndFields.
Import JSString JS Runtime Server Codec.

(** The happy path of [/mark-seen].  When the title is accepted, the
    upload succeeds, the mirror is wanted and Trakt answers the history
    request with success, exactly one request is sent to Trakt, after the
    upload, naming the truthy identifiers of the body; the route answers
    200 and its [trakt] member is what Trakt answered: [{ ok: true }] for
    an empty body, the parsed body otherwise. *)
Theorem mark_seen_mirrors_once (JSON_parse : string -> option value) (e : env)
    (req_body : option value) (w w1 : world) (fileId : string) (resp : response) :
  truthy (prop (or_value req_body (JObj [])) "title") = true ->
  is_string (prop (or_value req_body (JObj [])) "title") = true ->
  Uploader.uploadTextToVectorStore JSON_parse e
    (seen_document e (or_value req_body (JObj []))) w = (w1, inr fileId) ->
  sync_wanted e (or_value req_body (JObj [])) = true ->
  trakt_add_history e
    (JObj [("movies",
            JArr [JObj [("ids",
              JObj (Trakt.spread_if "trakt" (prop (or_value req_body (JObj [])) "trakt_id") ++
                    Trakt.spread_if "imdb" (prop (or_value req_body (JObj [])) "imdb") ++
                    Trakt.spread_if "slug" (prop (or_value req_body (JObj [])) "slug") ++
                    Trakt.spread_if "tmdb" (prop (or_value req_body (JObj [])) "tmdb")))]])]) =
    Resolved resp ->
  ok resp = true ->
  (body resp = EmptyString \/ exists v, JSON_parse (body resp) = Some v) ->
  exists traktResult,
    mark_seen JSON_parse e req_body w =
    (log (TraktAddHistory
            (JObj [("movies",
                    JArr [JObj [("ids",
                      JObj (Trakt.spread_if "trakt"
                              (prop (or_value req_body (JObj [])) "trakt_id") ++
                            Trakt.spread_if "imdb"
                              (prop (or_value req_body (JObj [])) "imdb") ++
                            Trakt.spread_if "slug"
                              (prop (or_value req_body (JObj [])) "slug") ++
                            Trakt.spread_if "tmdb"
                              (prop (or_value req_body (JObj [])) "tmdb")))]])])) w1,
     inr (mkHttp 200 (JObj (seen_payload (or_value req_body (JObj [])) fileId traktResult)))) /\
    assoc "trakt" (seen_payload (or_value req_body (JObj [])) fileId traktResult) =
      Some traktResult /\
    (body resp = EmptyString -> traktResult = JObj [("ok", JBool true)]) /\
    (body resp <> EmptyString -> JSON_parse (body resp) = Some traktResult).
Proof.
  intros Htitle Hstring Hupload Hsync Hanswer Hok Hbody.
  rewrite (mark_seen_uploaded JSON_parse e req_body w w1 fileId) by assumption.
  rewrite Hsync.
  assert (forall b fid tr, assoc "trakt" (seen_payload b fid tr) = Some tr) as Hmember.
  { intros b fid tr. unfold seen_payload. destruct (prop b "title"); reflexivity. }
  assert (negb (set_var (TRAKT_CLIENT_ID e)) || negb (set_var (TRAKT_ACCESS_TOKEN e)) = false /\
          (length (Trakt.spread_if "trakt" (prop (or_value req_body (JObj [])) "trakt_id") ++
                   Trakt.spread_if "imdb" (prop (or_value req_body (JObj [])) "imdb") ++
                   Trakt.spread_if "slug" (prop (or_value req_body (JObj [])) "slug") ++
                   Trakt.spread_if "tmdb" (prop (or_value req_body (JObj [])) "tmdb")) =? 0)%nat
          = false) as [Hset Hids].
  { unfold sync_wanted in Hsync.
    apply andb_true_iff in Hsync. destruct Hsync as [Hsync Htoken].
    apply andb_true_iff in Hsync. destruct Hsync as [Hsync Hclient].
    apply andb_true_iff in Hsync. destruct Hsync as [_ Hany].
    split; [now rewrite Hclient, Htoken |].
    unfold Trakt.spread_if.
    destruct (prop (or_value req_body (JObj [])) "trakt_id") as [v1|];
      [destruct (truthy (Some v1)); [reflexivity |] |];
      (destruct (prop (or_value req_body (JObj [])) "imdb") as [v2|];
       [destruct (truthy (Some v2)); [reflexivity |] |];
       (destruct (prop (or_value req_body (JObj [])) "slug") as [v3|];
        [destruct (truthy (Some v3)); [reflexivity |] |];
        (destruct (prop (or_value req_body (JObj [])) "tmdb") as [v4|];
         [destruct (truthy (Some v4)); [reflexivity |] |];
         discriminate))). }
  unfold try_catch, Trakt.traktAddToHistory, Trakt.ensureTraktConfigured, bind, throw, ret.
  rewrite Hset, Hids, Hanswer, Hok. cbn [negb].
  destruct (String.eqb_spec (body resp) EmptyString) as [Hempty | Hfull].
  - eexists. split; [reflexivity |]. split; [apply Hmember |].
    split; [reflexivity | contradiction].
  - destruct Hbody as [Hempty | [v Hv]]; [contradiction |].
    rewrite Hv. exists v. split; [reflexivity |]. split; [apply Hmember |].
    split; [contradiction | reflexivity].
Qed.

(** The sample request, mirrored to a Trakt that answers with an empty
    body. *)
Lemma mark_seen_mirrors_witness :
  snd (mark_seen JSONText.JSON_parse (Samples.store [])
         (Some Samples.seen_inception) Samples.fresh) =
  inr (mkHttp 200 (JObj (seen_payload Samples.seen_inception "file-new"
                                      (JObj [("ok", JBool true)])))) /\
  last (calls (fst (mark_seen JSONText.JSON_parse (Samples.store [])
                      (Some Samples.seen_inception) Samples.fresh))) =
  Some (TraktAddHistory
          (JObj [("movies", JArr [JObj [("ids", JObj [("imdb", JStr "tt1375666")])]])])).
Proof.
  pose (uploaded := Uploader.uploadTextToVectorStore JSONText.JSON_parse (Samples.store [])
                      (seen_document (Samples.store []) Samples.seen_inception)
                      Samples.fresh).
  destruct (mark_seen_mirrors_once JSONText.JSON_parse (Samples.store [])
              (Some Samples.seen_inception) Samples.fresh (fst uploaded) "file-new"
              (mkResponse true 200 EmptyString)
              eq_refl eq_refl ltac:(vm_compute; reflexivity) eq_refl eq_refl eq_refl
              (or_introl eq_refl))
    as (traktResult & Hroute & _ & Hempty & _).
  rewrite Hroute, (Hempty eq_refl). split; [reflexivity | vm_compute; reflexivity].
Defined.

(** What [buildMovieDocument] does with the fields that are given.  A
    field other than [type] and [title] whose value is not [null] is
    written as it is, also when it is falsy (a rating of 0, [liked: false],
    an empty comment); given as [null] it gets the same default as an
    absent one.  A title is written as it is, [null] included.  A [type] is
    written when it is truthy and replaced by "movie_seen" when it is
    falsy, the empty string included. *)
Theorem given_fields_are_kept (now : string) (m : movie) :
  (forall k v, In k field_names -> k <> "type" -> k <> "title" ->
               field_of m k = Some v -> v <> JNull ->
               assoc k (movie_record now m) = Some v) /\
  (forall k, In k field_names -> k <> "type" -> k <> "title" ->
             field_of m k = Some JNull ->
             assoc k (movie_record now m) = default_of k) /\
  (forall v, title m = Some v -> assoc "title" (movie_record now m) = Some v) /\
  (forall v, type m = Some v -> truthy (Some v) = true ->
             assoc "type" (movie_record now m) = Some v) /\
  (truthy (type m) = false ->
   assoc "type" (movie_record now m) = Some (JStr "movie_seen")).
Proof.
  destruct m as [ty ti ye tr im sl tm ra li st so ta co].
  split; [|split; [|split; [|split]]].
  - intros k v Hk Htype Htitle Hfield Hnull. simpl in Hk.
    repeat (destruct Hk as [<- | Hk];
            [ try contradiction; vm_compute in Hfield; subst;
              unfold movie_record; cbn [type title year trakt_id imdb slug tmdb rating
                                        liked state source tags comment];
              destruct ti; destruct v; try contradiction; reflexivity | ]).
    destruct Hk.
  - intros k Hk Htype Htitle Hfield. simpl in Hk.
    repeat (destruct Hk as [<- | Hk];
            [ try contradiction; vm_compute in Hfield; subst;
              destruct ti; reflexivity | ]).
    destruct Hk.
  - intros v Hv. cbn [title] in Hv. subst ti. reflexivity.
  - intros v Hv Htruthy. cbn [type] in Hv. subst ty.
    unfold movie_record. cbn [type]. unfold or_value, js_or. rewrite Htruthy. reflexivity.
  - intros Hfalsy. cbn [type] in Hfalsy.
    unfold movie_record. cbn [type]. unfold or_value, js_or. rewrite Hfalsy.
    destruct ti; reflexivity.
Qed.

(** A rating of 0 and [liked: false] are written; an empty type is
    replaced. *)
Lemma given_fields_witness :
  assoc "rating"
    (movie_record "2025-01-01T00:00:00.000Z"
       (mkMovie (Some (JStr EmptyString)) (Some (JStr "Alien")) None None None None None
                (Some (JNum 0)) (Some (JBool false)) None None None None)) =
  Some (JNum 0) /\
  assoc "type"
    (movie_record "2025-01-01T00:00:00.000Z"
       (mkMovie (Some (JStr EmptyString)) (Some (JStr "Alien")) None None None None None
                (Some (JNum 0)) (Some (JBool false)) None None None None)) =
  Some (JStr "movie_seen").
Proof.
  destruct (given_fields_are_kept "2025-01-01T00:00:00.000Z"
              (mkMovie (Some (JStr EmptyString)) (Some (JStr "Alien")) None None None None
                       None (Some (JNum 0)) (Some (JBool false)) None None None None))
    as (Hkept & _ & _ & _ & Hfalsy).
  split.
  - apply Hkept; [simpl; auto 10 | discriminate | discriminate | reflexivity | discriminate].
  - exact (Hfalsy eq_refl).
Defined.

End MirrorAndFields.
